(** * NetworkDB gossip delegate: event handlers of
      daemon/libnetwork/networkdb/delegate.go

    A shallow embedding of the state store seen by the delegate and of
    the handlers [handleNodeEvent], [handleNetworkEvent],
    [handleTableEvent], [handleTableMessage] and [MergeRemoteState],
    written with explicit state passing: each handler takes the store
    and returns its result together with the store it leaves behind. *)

From Stdlib Require Import ZArith NArith List Bool Lia.
From Stdlib Require Import Strings.String Init.Byte.
From stdpp Require Import base option gmap strings list fin_maps.

Local Open Scope Z_scope.

(** ** Data model *)

(** Go's [[]byte].  A nil slice and an empty slice are both the empty
    list: delegate.go only ever takes [len] of a slice. *)
Definition bytes : Type := list Byte.byte.

(** Lamport times are [uint64]; the code shown here only compares them. *)
Definition LamportTime : Type := N.

(** [time.Duration]: a count of nanoseconds, [int64]. *)
Definition Duration : Type := Z.

Definition Second : Duration := 1000000000.

(** Two's-complement wrap-around of a 64-bit signed result. *)
Definition wrap_int64 (z : Z) : Z := (z + 2 ^ 63) mod 2 ^ 64 - 2 ^ 63.

(** [time.Duration(x) * time.Second] for an integer field [x]. *)
Definition seconds (x : Z) : Duration := wrap_int64 (x * Second).

Inductive NodeEvent_Type : Type :=
| NodeEventTypeInvalid
| NodeEventTypeJoin
| NodeEventTypeLeave.

Inductive NetworkEvent_Type : Type :=
| NetworkEventTypeInvalid
| NetworkEventTypeJoin
| NetworkEventTypeLeave.

Inductive TableEvent_Type : Type :=
| TableEventTypeInvalid
| TableEventTypeCreate
| TableEventTypeUpdate
| TableEventTypeDelete.

Inductive MessageType : Type :=
| MessageTypeInvalid
| MessageTypeNetworkEvent
| MessageTypeTableEvent
| MessageTypePushPull
| MessageTypeBulkSync
| MessageTypeCompound
| MessageTypeNodeEvent.

#[global] Instance NodeEvent_Type_eq_dec : EqDecision NodeEvent_Type.
Proof. solve_decision. Defined.
#[global] Instance NetworkEvent_Type_eq_dec : EqDecision NetworkEvent_Type.
Proof. solve_decision. Defined.
#[global] Instance TableEvent_Type_eq_dec : EqDecision TableEvent_Type.
Proof. solve_decision. Defined.

(** Modelled from the spec: the message types are generated code that is
    not under src/.  Their fields are the ones delegate.go reads, named
    as in the payload schema of the spec: LTime, NodeName, NetworkID,
    TableName, Key, Value, Type, ResidualReapTime, Leaving. *)
Record NodeEvent : Type := mkNodeEvent {
  ne_Type : NodeEvent_Type;
  ne_LTime : LamportTime;
  ne_NodeName : string
}.

Record NetworkEvent : Type := mkNetworkEvent {
  nwe_Type : NetworkEvent_Type;
  nwe_LTime : LamportTime;
  nwe_NodeName : string;
  nwe_NetworkID : string
}.

Record TableEvent : Type := mkTableEvent {
  te_Type : TableEvent_Type;
  te_LTime : LamportTime;
  te_NodeName : string;
  te_NetworkID : string;
  te_TableName : string;
  te_Key : string;
  te_Value : bytes;
  te_ResidualReapTime : Z
}.

Record NetworkEntry : Type := mkNetworkEntry {
  nen_LTime : LamportTime;
  nen_NetworkID : string;
  nen_NodeName : string;
  nen_Leaving : bool
}.

Record NetworkPushPull : Type := mkNetworkPushPull {
  pp_LTime : LamportTime;
  pp_Networks : list NetworkEntry;
  pp_NodeName : string
}.

Record GossipMessage : Type := mkGossipMessage {
  gm_Type : MessageType;
  gm_Data : bytes
}.

(** Modelled from the spec: [WatchEvent] is not under src/.  The
    notification handed to local watchers, "{Table, NetworkID, Key,
    Value, PreviousValue}"; the fields are named as lines 218-241 name
    them. *)
Record WatchEvent : Type := mkWatchEvent {
  we_Table : string;
  we_NetworkID : string;
  we_Key : string;
  we_Value : bytes;
  we_Prev : bytes
}.

(** A pending table-event rebroadcast, with the fields of the literal at
    lines 299-304. *)
Record tableEventMessage : Type := mktableEventMessage {
  tem_msg : bytes;
  tem_id : string;
  tem_tname : string;
  tem_key : string
}.

(** Modelled from the spec: the declarations of [node], [network],
    [entry] and [NetworkDB] are not under src/.  "Node: {name, address,
    local Lamport time, ...}"; a record holds the fields that
    delegate.go reads or writes. *)
Record node : Type := mknode {
  node_Name : string;
  node_Addr : bytes;
  node_ltime : LamportTime;
  node_reapTime : Duration
}.

(** The fields of [network] that delegate.go reads or writes.  The
    composite literal [&network{ltime: t}] leaves every other field at
    its zero value. *)
Record network : Type := mknetwork {
  network_ltime : LamportTime;
  network_leaving : bool;
  network_reapTime : Duration;
  network_inSync : bool;
  network_tableRebroadcasts : list tableEventMessage
}.

Record entry : Type := mkentry {
  entry_ltime : LamportTime;
  entry_node : string;
  entry_value : bytes;
  entry_deleting : bool;
  entry_reapTime : Duration
}.

Record Config : Type := mkConfig {
  NodeID : string;
  reapEntryInterval : Duration;
  reapNetworkInterval : Duration
}.

(** The store.  [indexes] is keyed by (table name, network id, key);
    [broadcaster] is the sequence of watch events written so far, oldest
    first. *)
Record NetworkDB : Type := mkNetworkDB {
  config : Config;
  networkClock : LamportTime;
  tableClock : LamportTime;
  nodes : gmap string node;
  leftNodes : gmap string node;
  networks : gmap string (gmap string network);
  thisNodeNetworks : gmap string network;
  networkNodes : gmap string (list string);
  indexes : gmap (string * string * string) entry;
  broadcaster : list WatchEvent
}.

Definition set_networkClock (c : LamportTime) (nDB : NetworkDB) : NetworkDB :=
  mkNetworkDB (config nDB) c (tableClock nDB) (nodes nDB) (leftNodes nDB)
    (networks nDB) (thisNodeNetworks nDB) (networkNodes nDB) (indexes nDB)
    (broadcaster nDB).

Definition set_tableClock (c : LamportTime) (nDB : NetworkDB) : NetworkDB :=
  mkNetworkDB (config nDB) (networkClock nDB) c (nodes nDB) (leftNodes nDB)
    (networks nDB) (thisNodeNetworks nDB) (networkNodes nDB) (indexes nDB)
    (broadcaster nDB).

Definition set_nodes (m : gmap string node) (nDB : NetworkDB) : NetworkDB :=
  mkNetworkDB (config nDB) (networkClock nDB) (tableClock nDB) m (leftNodes nDB)
    (networks nDB) (thisNodeNetworks nDB) (networkNodes nDB) (indexes nDB)
    (broadcaster nDB).

Definition set_leftNodes (m : gmap string node) (nDB : NetworkDB) : NetworkDB :=
  mkNetworkDB (config nDB) (networkClock nDB) (tableClock nDB) (nodes nDB) m
    (networks nDB) (thisNodeNetworks nDB) (networkNodes nDB) (indexes nDB)
    (broadcaster nDB).

Definition set_networks (m : gmap string (gmap string network))
    (nDB : NetworkDB) : NetworkDB :=
  mkNetworkDB (config nDB) (networkClock nDB) (tableClock nDB) (nodes nDB)
    (leftNodes nDB) m (thisNodeNetworks nDB) (networkNodes nDB) (indexes nDB)
    (broadcaster nDB).

Definition set_thisNodeNetworks (m : gmap string network)
    (nDB : NetworkDB) : NetworkDB :=
  mkNetworkDB (config nDB) (networkClock nDB) (tableClock nDB) (nodes nDB)
    (leftNodes nDB) (networks nDB) m (networkNodes nDB) (indexes nDB)
    (broadcaster nDB).

Definition set_networkNodes (m : gmap string (list string))
    (nDB : NetworkDB) : NetworkDB :=
  mkNetworkDB (config nDB) (networkClock nDB) (tableClock nDB) (nodes nDB)
    (leftNodes nDB) (networks nDB) (thisNodeNetworks nDB) m (indexes nDB)
    (broadcaster nDB).

Definition set_indexes (m : gmap (string * string * string) entry)
    (nDB : NetworkDB) : NetworkDB :=
  mkNetworkDB (config nDB) (networkClock nDB) (tableClock nDB) (nodes nDB)
    (leftNodes nDB) (networks nDB) (thisNodeNetworks nDB) (networkNodes nDB) m
    (broadcaster nDB).

Definition set_broadcaster (l : list WatchEvent) (nDB : NetworkDB) : NetworkDB :=
  mkNetworkDB (config nDB) (networkClock nDB) (tableClock nDB) (nodes nDB)
    (leftNodes nDB) (networks nDB) (thisNodeNetworks nDB) (networkNodes nDB)
    (indexes nDB) l.

(** ** Helpers of the store that delegate.go calls *)

(** Modelled from the spec: [LamportClock.Witness] is not under src/.
    The glossary: "raising a clock to the max of its current value and
    an observed value". *)
Definition Witness (l : LamportTime) (v : LamportTime) : LamportTime :=
  N.max l v.

(** Modelled from the spec: [getEntry] is not under src/.  Entries are
    "keyed by (network id, table name, key)"; a lookup for an unknown
    entry returns a "not found" outcome, here [None]. *)
Definition getEntry (tname nid key : string) (nDB : NetworkDB) : option entry :=
  indexes nDB !! (tname, nid, key).

(** Modelled from the spec: [createOrUpdateEntry] is not under src/.
    "Apply the record (insert or overwrite)". *)
Definition createOrUpdateEntry (nid tname key : string) (e : entry)
    (nDB : NetworkDB) : NetworkDB :=
  set_indexes (<[(tname, nid, key) := e]> (indexes nDB)) nDB.

(** Modelled from the spec: the broadcaster is not under src/.
    [broadcaster.Write(event)] is "a publish step"; the events published
    are kept in the order they were written. *)
Definition broadcaster_Write (event : WatchEvent) (nDB : NetworkDB) : NetworkDB :=
  set_broadcaster (broadcaster nDB ++ [event]) nDB.

(** ** handleTableEvent *)

(** The loop of lines 156-162: is the owner of the event in [nodes]? *)
Fixpoint nodePresent_loop (nodes : list string) (name : string) : bool :=
  match nodes with
  | [] => false
  | node :: rest =>
      if String.eqb node name then true else nodePresent_loop rest name
  end.

(** The record built at lines 180-195, with the fallback for a delete
    that carries no reap time. *)
Definition newEntry (cfg : Config) (tEvent : TableEvent) : entry :=
  let deleting := bool_decide (te_Type tEvent = TableEventTypeDelete) in
  let reapTime := seconds (te_ResidualReapTime tEvent) in
  mkentry (te_LTime tEvent) (te_NodeName tEvent) (te_Value tEvent) deleting
    (if deleting && (reapTime =? 0) then reapEntryInterval cfg else reapTime).

Definition handleTableEvent (tEvent : TableEvent) (isBulkSync : bool)
    (nDB : NetworkDB) : bool * NetworkDB :=
  let nDB := set_tableClock (Witness (tableClock nDB) (te_LTime tEvent)) nDB in
  let nodePresent :=
    nodePresent_loop (default [] (networkNodes nDB !! te_NetworkID tEvent))
      (te_NodeName tEvent) in
  match thisNodeNetworks nDB !! te_NetworkID tEvent with
  | None => (false, nDB)
  | Some network =>
    if network_leaving network || negb nodePresent then (false, nDB) else
    let prev :=
      getEntry (te_TableName tEvent) (te_NetworkID tEvent) (te_Key tEvent) nDB in
    let entryPresent := match prev with Some _ => true | None => false end in
    let stale :=
      match prev with
      | Some p => (te_LTime tEvent <=? entry_ltime p)%N
      | None => false
      end in
    if stale then (false, nDB) else
    let e := newEntry (config nDB) tEvent in
    let nDB :=
      createOrUpdateEntry (te_NetworkID tEvent) (te_TableName tEvent)
        (te_Key tEvent) e nDB in
    if negb entryPresent && bool_decide (te_Type tEvent = TableEventTypeDelete)
    then
      (isBulkSync && network_inSync network
         && (Z.quot (reapEntryInterval (config nDB)) 6 <? entry_reapTime e), nDB)
    else
      let event :=
        mkWatchEvent (te_TableName tEvent) (te_NetworkID tEvent)
          (te_Key tEvent) [] [] in
      let written :=
        match te_Type tEvent with
        | TableEventTypeCreate | TableEventTypeUpdate =>
            Some (mkWatchEvent (we_Table event) (we_NetworkID event)
                    (we_Key event) (te_Value tEvent)
                    (match prev with
                     | Some p => if entry_deleting p then [] else entry_value p
                     | None => []
                     end))
        | TableEventTypeDelete =>
            match prev with
            | Some p =>
                if entry_deleting p then None
                else Some (mkWatchEvent (we_Table event) (we_NetworkID event)
                             (we_Key event) [] (entry_value p))
            | None => None
            end
        | TableEventTypeInvalid => Some event
        end in
      let nDB :=
        match written with
        | Some ev => broadcaster_Write ev nDB
        | None => nDB
        end in
      (network_inSync network, nDB)
  end.

(** ** Node registry *)

(** Modelled from the spec: the node states and [findNode] are not under
    src/.  A node's "membership state" is active or left; a name that
    is in neither registry is unknown.  [nodes] is the registry of the
    nodes known to the membership layer (the active ones), [leftNodes]
    holds the ones that left. *)
Inductive nodeState : Type :=
| nodeActiveState
| nodeLeftState.

#[global] Instance nodeState_eq_dec : EqDecision nodeState.
Proof. solve_decision. Defined.

Definition findNode (nodeName : string) (nDB : NetworkDB)
    : option (node * nodeState) :=
  match nodes nDB !! nodeName with
  | Some n => Some (n, nodeActiveState)
  | None =>
      match leftNodes nDB !! nodeName with
      | Some n => Some (n, nodeLeftState)
      | None => None
      end
  end.

(** A write through the [*node] that [findNode] returned: the node
    object lives in the registry it was found in. *)
Definition storeNode (nodeName : string) (st : nodeState) (n : node)
    (nDB : NetworkDB) : NetworkDB :=
  match st with
  | nodeActiveState => set_nodes (<[nodeName := n]> (nodes nDB)) nDB
  | nodeLeftState => set_leftNodes (<[nodeName := n]> (leftNodes nDB)) nDB
  end.

Definition node_with_ltime (t : LamportTime) (n : node) : node :=
  mknode (node_Name n) (node_Addr n) t (node_reapTime n).

(** Modelled from the spec: [changeNodeState] is not under src/.  It
    must "transition node state (active<->left) and report whether a
    transition actually occurred"; the error ([None]) is the node not
    being found.  What else a transition does to the store is not
    described by the spec and is left out. *)
Definition changeNodeState (nodeName : string) (newState : nodeState)
    (nDB : NetworkDB) : option (bool * NetworkDB) :=
  match findNode nodeName nDB with
  | None => None
  | Some (n, currState) =>
      if decide (currState = newState) then Some (false, nDB)
      else
        match newState with
        | nodeActiveState =>
            Some (true,
                  set_nodes (<[nodeName := n]> (nodes nDB))
                    (set_leftNodes (delete nodeName (leftNodes nDB)) nDB))
        | nodeLeftState =>
            Some (true,
                  set_leftNodes (<[nodeName := n]> (leftNodes nDB))
                    (set_nodes (delete nodeName (nodes nDB)) nDB))
        end
  end.

(** ** handleNodeEvent *)

Definition handleNodeEvent (nEvent : NodeEvent) (nDB : NetworkDB)
    : bool * NetworkDB :=
  let nDB := set_networkClock (Witness (networkClock nDB) (ne_LTime nEvent)) nDB in
  match findNode (ne_NodeName nEvent) nDB with
  | None => (false, nDB)
  | Some (n, st) =>
    if (ne_LTime nEvent <=? node_ltime n)%N then (false, nDB) else
    let n := node_with_ltime (ne_LTime nEvent) n in
    let nDB := storeNode (ne_NodeName nEvent) st n nDB in
    match nodes nDB !! ne_NodeName nEvent with
    | None => (false, nDB)
    | Some _ =>
      match ne_Type nEvent with
      | NodeEventTypeJoin =>
          match changeNodeState (node_Name n) nodeActiveState nDB with
          | None => (false, nDB)
          | Some (moved, nDB') => (moved, nDB')
          end
      | NodeEventTypeLeave =>
          match changeNodeState (node_Name n) nodeLeftState nDB with
          | None => (false, nDB)
          | Some (moved, nDB') => (moved, nDB')
          end
      | NodeEventTypeInvalid => (false, nDB)
      end
    end
  end.

(** ** handleNetworkEvent *)

(** Modelled from the spec: [addNetworkNode] and [deleteNetworkNode] are
    not under src/.  They "synchronize the network's remembered member
    set (add/remove the node)"; the member set of a network is the
    slice that [handleTableEvent] ranges over. *)
Definition addNetworkNode (nid nodeName : string) (nDB : NetworkDB) : NetworkDB :=
  let members := default [] (networkNodes nDB !! nid) in
  if nodePresent_loop members nodeName then nDB
  else set_networkNodes (<[nid := members ++ [nodeName]]> (networkNodes nDB)) nDB.

Definition deleteNetworkNode (nid nodeName : string) (nDB : NetworkDB) : NetworkDB :=
  match networkNodes nDB !! nid with
  | None => nDB
  | Some members =>
      set_networkNodes
        (<[nid := List.filter (fun name => negb (String.eqb name nodeName)) members]>
           (networkNodes nDB)) nDB
  end.

(** Modelled from the spec: [deleteNodeNetworkEntries] is not under
    src/ and the spec does not describe it; its call site says "Delete
    all the entries for this network owned by the node". *)
Definition deleteNodeNetworkEntries (nid nodeName : string) (nDB : NetworkDB)
    : NetworkDB :=
  set_indexes
    (filter (fun kv : (string * string * string) * entry =>
               ¬ (kv.1.1.2 = nid ∧ entry_node kv.2 = nodeName))
       (indexes nDB)) nDB.

(** A write to [nDB.networks[nodeName][nid]]. *)
Definition storeNetwork (nodeName nid : string) (n : network) (nDB : NetworkDB)
    : NetworkDB :=
  set_networks
    (<[nodeName := <[nid := n]> (default ∅ (networks nDB !! nodeName))]>
       (networks nDB)) nDB.

Definition handleNetworkEvent (nEvent : NetworkEvent) (nDB : NetworkDB)
    : bool * NetworkDB :=
  let nDB := set_networkClock (Witness (networkClock nDB) (nwe_LTime nEvent)) nDB in
  let isLeave := bool_decide (nwe_Type nEvent = NetworkEventTypeLeave) in
  if decide (nwe_NodeName nEvent = NodeID (config nDB)) then (false, nDB) else
  let known := networks nDB !! nwe_NodeName nEvent in
  if match known with None => isLeave | Some _ => false end then (false, nDB) else
  let '(nodeNetworks, nDB) :=
    match known with
    | Some nn => (nn, nDB)
    | None => (∅, set_networks (<[nwe_NodeName nEvent := ∅]> (networks nDB)) nDB)
    end in
  match nodeNetworks !! nwe_NetworkID nEvent with
  | Some n =>
    if (nwe_LTime nEvent <=? network_ltime n)%N then (false, nDB) else
    let n :=
      mknetwork (nwe_LTime nEvent) isLeave
        (if isLeave then reapNetworkInterval (config nDB) else network_reapTime n)
        (network_inSync n) (network_tableRebroadcasts n) in
    let nDB := storeNetwork (nwe_NodeName nEvent) (nwe_NetworkID nEvent) n nDB in
    let nDB :=
      if isLeave
      then deleteNodeNetworkEntries (nwe_NetworkID nEvent) (nwe_NodeName nEvent) nDB
      else nDB in
    let nDB :=
      if isLeave
      then deleteNetworkNode (nwe_NetworkID nEvent) (nwe_NodeName nEvent) nDB
      else addNetworkNode (nwe_NetworkID nEvent) (nwe_NodeName nEvent) nDB in
    (true, nDB)
  | None =>
    if isLeave then (false, nDB) else
    match nodes nDB !! nwe_NodeName nEvent with
    | None => (false, nDB)
    | Some _ =>
      let nDB :=
        storeNetwork (nwe_NodeName nEvent) (nwe_NetworkID nEvent)
          (mknetwork (nwe_LTime nEvent) false 0 false []) nDB in
      (true, addNetworkNode (nwe_NetworkID nEvent) (nwe_NodeName nEvent) nDB)
    end
  end.

(** ** Table broadcast queue *)

(** Modelled from the spec: [tableEventMessage.Invalidates] is not under
    src/.  The dedup key of a table event is "network+table+key". *)
Definition Invalidates (m other : tableEventMessage) : bool :=
  String.eqb (tem_tname m) (tem_tname other)
  && String.eqb (tem_id m) (tem_id other)
  && String.eqb (tem_key m) (tem_key other).

(** Modelled from the spec: the broadcast queue is not under src/.  It
    "holds at most one pending item per dedup key (network+table+key)";
    "enqueuing a newer item for an existing key supersedes the old one
    rather than appending", and it "exposes a queued-count". *)
Definition QueueBroadcast (b : tableEventMessage) (q : list tableEventMessage)
    : list tableEventMessage :=
  b :: List.filter (fun other => negb (Invalidates b other)) q.

Definition NumQueued (q : list tableEventMessage) : Z := Z.of_nat (length q).

(** ** Wire codec *)

(** The protobuf decoders and the envelope encoder are outside
    delegate.go; the handlers only depend on whether they fail
    ([None]) and on the value they yield. *)
Class Codec : Type := {
  unmarshal_TableEvent : bytes → option TableEvent;
  unmarshal_GossipMessage : bytes → option GossipMessage;
  unmarshal_NetworkPushPull : bytes → option NetworkPushPull;
  encodeRawMessage : MessageType → bytes → option bytes
}.

Section Delegate.
Context {codec : Codec}.

(** The package constant of the same name; its value is not under
    src/. *)
Variable maxQueueLenBroadcastOnSync : Z.

(** ** handleTableMessage *)

(** The second half of [handleTableMessage], lines 285-304, run on the
    store as it is when the read lock is taken. *)
Definition queueTableRebroadcast (tEvent : TableEvent) (buf : bytes)
    (isBulkSync : bool) (nDB : NetworkDB) : NetworkDB :=
  match thisNodeNetworks nDB !! te_NetworkID tEvent with
  | None => nDB
  | Some n =>
    if network_leaving n then nDB else
    if isBulkSync
       && (maxQueueLenBroadcastOnSync <? NumQueued (network_tableRebroadcasts n))
    then nDB
    else
      let q :=
        QueueBroadcast
          (mktableEventMessage buf (te_NetworkID tEvent)
             (te_TableName tEvent) (te_Key tEvent))
          (network_tableRebroadcasts n) in
      set_thisNodeNetworks
        (<[te_NetworkID tEvent :=
             mknetwork (network_ltime n) (network_leaving n)
               (network_reapTime n) (network_inSync n) q]>
           (thisNodeNetworks nDB)) nDB
  end.

(** [handleTableEvent] releases the store's lock when it returns and
    [handleTableMessage] takes the read lock again at line 285.
    [between] is whatever other goroutines do to the store in that
    window. *)
Definition handleTableMessage_between (between : NetworkDB → NetworkDB)
    (buf : bytes) (isBulkSync : bool) (nDB : NetworkDB) : NetworkDB :=
  match unmarshal_TableEvent buf with
  | None => nDB
  | Some tEvent =>
    if decide (te_NodeName tEvent = NodeID (config nDB)) then nDB else
    let '(rebroadcast, nDB) := handleTableEvent tEvent isBulkSync nDB in
    if rebroadcast then
      match encodeRawMessage MessageTypeTableEvent buf with
      | None => nDB
      | Some buf => queueTableRebroadcast tEvent buf isBulkSync (between nDB)
      end
    else nDB
  end.

(** [handleTableMessage] with no other goroutine touching the store. *)
Definition handleTableMessage (buf : bytes) (isBulkSync : bool)
    (nDB : NetworkDB) : NetworkDB :=
  handleTableMessage_between id buf isBulkSync nDB.

(** ** MergeRemoteState *)

(** Lines 494-514: the events synthesized from a decoded snapshot. *)
Definition mergeNetworkEntry (nDB : NetworkDB) (n : NetworkEntry) : NetworkDB :=
  let nEvent :=
    mkNetworkEvent
      (if nen_Leaving n then NetworkEventTypeLeave else NetworkEventTypeJoin)
      (nen_LTime n) (nen_NodeName n) (nen_NetworkID n) in
  (handleNetworkEvent nEvent nDB).2.

Definition mergePushPull (pp : NetworkPushPull) (nDB : NetworkDB) : NetworkDB :=
  let nodeEvent := mkNodeEvent NodeEventTypeJoin (pp_LTime pp) (pp_NodeName pp) in
  let nDB := (handleNodeEvent nodeEvent nDB).2 in
  foldl mergeNetworkEntry nDB (pp_Networks pp).

(** A message of another type than push-pull is logged and merged all
    the same (lines 484-486 do not return). *)
Definition MergeRemoteState (buf : bytes) (isJoin : bool) (nDB : NetworkDB)
    : NetworkDB :=
  if (length buf =? 0)%nat then nDB else
  match unmarshal_GossipMessage buf with
  | None => nDB
  | Some gMsg =>
    match unmarshal_NetworkPushPull (gm_Data gMsg) with
    | None => nDB
    | Some pp => mergePushPull pp nDB
    end
  end.

End Delegate.

(** ** Predicates used to state the properties *)

(** The three topology checks of [handleTableEvent] (line 164) pass,
    and [n] is the local node's record of the event's network. *)
Definition passesTopology (tEvent : TableEvent) (nDB : NetworkDB) (n : network)
    : Prop :=
  thisNodeNetworks nDB !! te_NetworkID tEvent = Some n
  ∧ network_leaving n = false
  ∧ te_NodeName tEvent ∈ default [] (networkNodes nDB !! te_NetworkID tEvent).

(** The event is strictly newer than whatever is stored under its key. *)
Definition notStale (tEvent : TableEvent) (nDB : NetworkDB) : Prop :=
  ∀ p,
    getEntry (te_TableName tEvent) (te_NetworkID tEvent) (te_Key tEvent) nDB
      = Some p →
    (entry_ltime p < te_LTime tEvent)%N.

(** An accepted table event: it passes the topology checks and is not
    stale, so the store is mutated. *)
Definition accepted (tEvent : TableEvent) (nDB : NetworkDB) (n : network) : Prop :=
  passesTopology tEvent nDB n ∧ notStale tEvent nDB.

(** The value last shown to watchers: that of an entry that is present
    and not a tombstone. *)
Definition observedValue (prev : option entry) : option bytes :=
  match prev with
  | Some p => if entry_deleting p then None else Some (entry_value p)
  | None => None
  end.

(** The store with the table clock witnessed and nothing else changed. *)
Definition tableClockWitnessed (tEvent : TableEvent) (nDB : NetworkDB) : NetworkDB :=
  set_tableClock (Witness (tableClock nDB) (te_LTime tEvent)) nDB.

(** Membership state of a name in the node registry. *)
Definition stateOf (nodeName : string) (nDB : NetworkDB) : option nodeState :=
  snd <$> findNode nodeName nDB.

(** Every node is registered under its own name. *)
Definition registryNamed (nDB : NetworkDB) : Prop :=
  map_Forall (λ k n, node_Name n = k) (nodes nDB)
  ∧ map_Forall (λ k n, node_Name n = k) (leftNodes nDB).

(** The record stored for a (node, network) pair. *)
Definition membership (nodeName nid : string) (nDB : NetworkDB) : option network :=
  networks nDB !! nodeName ≫= (.!! nid).

(** The part of the store that the network-event helpers leave alone. *)
Definition registry (nDB : NetworkDB)
    : gmap string node * gmap string node * Config :=
  (nodes nDB, leftNodes nDB, config nDB).

(** The condition under which [handleNetworkEvent] stores a snapshot
    record for a pair it has not seen: the record is not a leave, it is
    not about the local node, and its node is in [nDB.nodes]. *)
Definition recorded (r : NetworkEntry) (nDB : NetworkDB) : Prop :=
  nen_Leaving r = false
  ∧ nen_NodeName r ≠ NodeID (config nDB)
  ∧ is_Some (nodes nDB !! nen_NodeName r).

#[global] Instance recorded_dec r nDB : Decision (recorded r nDB).
Proof. unfold recorded. apply _. Defined.

(** The (node, network) pair a snapshot record is about. *)
Definition pairOf (r : NetworkEntry) : string * string :=
  (nen_NodeName r, nen_NetworkID r).

(** The store holds the content of the snapshot: the sender is an
    active node and every membership record is stored with the
    snapshot's Lamport time and leaving flag. *)
Definition snapshotMerged (pp : NetworkPushPull) (nDB : NetworkDB) : Prop :=
  stateOf (pp_NodeName pp) nDB = Some nodeActiveState
  ∧ ∀ r, r ∈ pp_Networks pp →
      ∃ nw, membership (nen_NodeName r) (nen_NetworkID r) nDB = Some nw
            ∧ network_ltime nw = nen_LTime r
            ∧ network_leaving nw = nen_Leaving r.

(** ** Concrete inputs used by the examples below *)

Module Examples.

Definition cfg : Config := mkConfig "self" (1800 * Second) (1825 * Second).

(** An empty local store: no nodes, no networks, no entries. *)
Definition emptyDB : NetworkDB :=
  mkNetworkDB cfg 0%N 0%N ∅ ∅ ∅ ∅ ∅ ∅ [].

(** A codec that yields the same decoded values for every buffer. *)
Definition constCodec (tEvent : option TableEvent) (pp : option NetworkPushPull)
    : Codec :=
  {| unmarshal_TableEvent := fun _ => tEvent;
     unmarshal_GossipMessage :=
       fun buf => Some (mkGossipMessage MessageTypePushPull buf);
     unmarshal_NetworkPushPull := fun _ => pp;
     encodeRawMessage := fun _ buf => Some (Byte.x03 :: buf) |}.

Definition net1 : network := mknetwork 1%N false 0 true [].

(** The local node belongs to network n1, whose members are a and b. *)
Definition db1 : NetworkDB :=
  mkNetworkDB cfg 3%N 3%N
    {["a" := mknode "a" [] 1%N 0; "b" := mknode "b" [] 1%N 0]} ∅ ∅
    {["n1" := net1]} {["n1" := ["a"; "b"]]} ∅ [].

Definition createK1 : TableEvent :=
  mkTableEvent TableEventTypeCreate 5%N "a" "n1" "t1" "k1" [Byte.x2a] 0.

Definition deleteK1 : TableEvent :=
  mkTableEvent TableEventTypeDelete 6%N "a" "n1" "t1" "k1" [] 30.

(** [db1] after the create of k1 has been applied. *)
Definition db2 : NetworkDB := (handleTableEvent createK1 false db1).2.

(** A table event that names the local node as its origin. *)
Definition ownCreate : TableEvent :=
  mkTableEvent TableEventTypeCreate 9%N "self" "n1" "t1" "k2" [Byte.x01] 0.

Definition maxQueueLen : Z := 500.

Definition createCodec : Codec := constCodec (Some createK1) None.
Definition ownCodec : Codec := constCodec (Some ownCreate) None.

(** [db1] with two rebroadcasts already queued for n1. *)
Definition db1_queued : NetworkDB :=
  set_thisNodeNetworks
    {["n1" := mknetwork 1%N false 0 true
                [mktableEventMessage [Byte.x03] "n1" "t1" "k7";
                 mktableEventMessage [Byte.x03] "n1" "t1" "k8"]]} db1.

(** Another goroutine makes the local node leave every network. *)
Definition leaveAll (nDB : NetworkDB) : NetworkDB :=
  set_thisNodeNetworks ∅ nDB.

(** A snapshot sent by a: a belongs to n1, b to n2, c is leaving n1
    and d, whom the local node has not heard of, belongs to n1. *)
Definition snapshot : NetworkPushPull :=
  mkNetworkPushPull 4%N
    [mkNetworkEntry 2%N "n1" "a" false;
     mkNetworkEntry 3%N "n2" "b" false;
     mkNetworkEntry 2%N "n1" "c" true;
     mkNetworkEntry 2%N "n1" "d" false] "a".

Definition snapshotCodec : Codec := constCodec None (Some snapshot).

(** [db1] with a node c that has left. *)
Definition db1_left : NetworkDB :=
  set_leftNodes {["c" := mknode "c" [] 1%N 0]} db1.

(** [db1] with n1 marked as leaving. *)
Definition db1_leaving : NetworkDB :=
  set_thisNodeNetworks {["n1" := mknetwork 1%N true 0 true []]} db1.

End Examples.

(** ** Further predicates and runs of events *)

(** The table events of a list, each with the flag it was delivered
    with, handled one after the other. *)
Definition deliver (evs : list (TableEvent * bool)) (nDB : NetworkDB)
    : NetworkDB :=
  foldl (λ s eb, (handleTableEvent eb.1 eb.2 s).2) nDB evs.

(** The key of the entry a table event is about. *)
Definition keyOf (tEvent : TableEvent) : string * string * string :=
  (te_TableName tEvent, te_NetworkID tEvent, te_Key tEvent).

(** The condition under which [handleNetworkEvent] applies an event:
    it is not about the local node and either it is strictly newer
    than the record of its pair, or the pair has no record, the event
    is not a leave and its node is in [nDB.nodes]. *)
Definition acceptsNetworkEvent (nEvent : NetworkEvent) (nDB : NetworkDB) : Prop :=
  nwe_NodeName nEvent ≠ NodeID (config nDB)
  ∧ match membership (nwe_NodeName nEvent) (nwe_NetworkID nEvent) nDB with
    | Some n => (network_ltime n < nwe_LTime nEvent)%N
    | None =>
        nwe_Type nEvent ≠ NetworkEventTypeLeave
        ∧ is_Some (nodes nDB !! nwe_NodeName nEvent)
    end.

#[global] Instance acceptsNetworkEvent_dec nEvent nDB :
  Decision (acceptsNetworkEvent nEvent nDB).
Proof.
  unfold acceptsNetworkEvent.
  destruct (membership _ _ _); apply _.
Defined.

(** The record [handleNetworkEvent] leaves for the pair of an event it
    applies, given the record [old] it found. *)
Definition appliedNetwork (cfg : Config) (nEvent : NetworkEvent)
    (old : option network) : network :=
  let isLeave := bool_decide (nwe_Type nEvent = NetworkEventTypeLeave) in
  match old with
  | Some n =>
      mknetwork (nwe_LTime nEvent) isLeave
        (if isLeave then reapNetworkInterval cfg else network_reapTime n)
        (network_inSync n) (network_tableRebroadcasts n)
  | None => mknetwork (nwe_LTime nEvent) false 0 false []
  end.

(** The store with the network clock witnessed at [t] and nothing else
    changed. *)
Definition witnessNetworkClock (t : LamportTime) (nDB : NetworkDB) : NetworkDB :=
  set_networkClock (Witness (networkClock nDB) t) nDB.

(** The network event [MergeRemoteState] synthesizes for a snapshot
    record (lines 502-511). *)
Definition eventOf (r : NetworkEntry) : NetworkEvent :=
  mkNetworkEvent
    (if nen_Leaving r then NetworkEventTypeLeave else NetworkEventTypeJoin)
    (nen_LTime r) (nen_NodeName r) (nen_NetworkID r).

(** A network event that the store has already dealt with: it would be
    rejected without a write, and the clock is past it. *)
Definition settled (nEvent : NetworkEvent) (nDB : NetworkDB) : Prop :=
  (nwe_LTime nEvent ≤ networkClock nDB)%N
  ∧ (nwe_NodeName nEvent = NodeID (config nDB)
     ∨ (∃ n, membership (nwe_NodeName nEvent) (nwe_NetworkID nEvent) nDB = Some n
             ∧ (nwe_LTime nEvent ≤ network_ltime n)%N)
     ∨ (membership (nwe_NodeName nEvent) (nwe_NetworkID nEvent) nDB = None
        ∧ nwe_Type nEvent = NetworkEventTypeLeave)
     ∨ (membership (nwe_NodeName nEvent) (nwe_NetworkID nEvent) nDB = None
        ∧ is_Some (networks nDB !! nwe_NodeName nEvent)
        ∧ nodes nDB !! nwe_NodeName nEvent = None)).

(** ** The other message handlers of delegate.go *)

(** The pending rebroadcasts of node and network events, with the
    fields of the literals at lines 323-325 and 344-348. *)
Record nodeEventMessage : Type := mknodeEventMessage {
  nem_msg : bytes
}.

Record networkEventMessage : Type := mknetworkEventMessage {
  nwm_msg : bytes;
  nwm_id : string;
  nwm_node : string
}.

(** Modelled from the spec: [BulkSyncMessage] is generated code that is
    not under src/; the fields are the ones [handleBulkSync] reads. *)
Record BulkSyncMessage : Type := mkBulkSyncMessage {
  bsm_LTime : LamportTime;
  bsm_Unsolicited : bool;
  bsm_NodeName : string;
  bsm_Networks : list string;
  bsm_Payload : bytes
}.

(** The store together with the other fields of [NetworkDB] that the
    message handlers use.  [nodeBroadcasts] and [networkBroadcasts] are
    the messages handed to [QueueBroadcast] of the two queues, oldest
    first.  [bulkSyncAckTbl] maps a node name to the channel a pending
    bulk sync waits on; a channel is a number, and [closedChannels]
    lists the channels closed so far. *)
Record Gossip : Type := mkGossip {
  store : NetworkDB;
  nodeBroadcasts : list nodeEventMessage;
  networkBroadcasts : list networkEventMessage;
  bulkSyncAckTbl : gmap string nat;
  closedChannels : list nat
}.

Definition set_store (nDB : NetworkDB) (g : Gossip) : Gossip :=
  mkGossip nDB (nodeBroadcasts g) (networkBroadcasts g) (bulkSyncAckTbl g)
    (closedChannels g).

Definition set_nodeBroadcasts (q : list nodeEventMessage) (g : Gossip) : Gossip :=
  mkGossip (store g) q (networkBroadcasts g) (bulkSyncAckTbl g)
    (closedChannels g).

Definition set_networkBroadcasts (q : list networkEventMessage) (g : Gossip)
    : Gossip :=
  mkGossip (store g) (nodeBroadcasts g) q (bulkSyncAckTbl g) (closedChannels g).

(** [close(ch); delete(nDB.bulkSyncAckTbl, name)]. *)
Definition closeAck (name : string) (ch : nat) (g : Gossip) : Gossip :=
  mkGossip (store g) (nodeBroadcasts g) (networkBroadcasts g)
    (delete name (bulkSyncAckTbl g)) (closedChannels g ++ [ch]).

(** The decoders of the envelope and of the other payloads; like the
    ones of [Codec] they are outside delegate.go. *)
Class MessageCodec : Type := {
  decodeMessage : bytes → option (MessageType * bytes);
  decodeCompoundMessage : bytes → option (list bytes);
  unmarshal_NodeEvent : bytes → option NodeEvent;
  unmarshal_NetworkEvent : bytes → option NetworkEvent;
  unmarshal_BulkSyncMessage : bytes → option BulkSyncMessage;
  encodeMessage : MessageType → NetworkPushPull → option bytes
}.

Section Messages.
Context {codec : Codec} {mcodec : MessageCodec}.
Variable maxQueueLenBroadcastOnSync : Z.

(** [bulkSyncNode] is not under src/: whatever it does to the state is
    a parameter. *)
Variable bulkSyncNode : list string → string → bool → Gossip → Gossip.

(** [updateLocalNetworkTime] is not under src/ either. *)
Variable updateLocalNetworkTime : NetworkDB → NetworkDB.

Definition handleNodeMessage (buf : bytes) (g : Gossip) : Gossip :=
  match unmarshal_NodeEvent buf with
  | None => g
  | Some nEvent =>
    let '(rebroadcast, nDB) := handleNodeEvent nEvent (store g) in
    let g := set_store nDB g in
    if rebroadcast then
      match encodeRawMessage MessageTypeNodeEvent buf with
      | None => g
      | Some buf =>
          set_nodeBroadcasts (nodeBroadcasts g ++ [mknodeEventMessage buf]) g
      end
    else g
  end.

Definition handleNetworkMessage (buf : bytes) (g : Gossip) : Gossip :=
  match unmarshal_NetworkEvent buf with
  | None => g
  | Some nEvent =>
    let '(rebroadcast, nDB) := handleNetworkEvent nEvent (store g) in
    let g := set_store nDB g in
    if rebroadcast then
      match encodeRawMessage MessageTypeNetworkEvent buf with
      | None => g
      | Some buf =>
          set_networkBroadcasts
            (networkBroadcasts g
               ++ [mknetworkEventMessage buf (nwe_NetworkID nEvent)
                     (nwe_NodeName nEvent)]) g
      end
    else g
  end.

(** [handleCompound], given the handler of one message. *)
Definition handleCompound (handleMessage : bytes → bool → Gossip → option Gossip)
    (buf : bytes) (isBulkSync : bool) (g : Gossip) : option Gossip :=
  match decodeCompoundMessage buf with
  | None => Some g
  | Some parts =>
      foldl (λ acc part, acc ≫= handleMessage part isBulkSync) (Some g) parts
  end.

(** [handleBulkSync], given the handler of one message. *)
Definition handleBulkSync (handleMessage : bytes → bool → Gossip → option Gossip)
    (buf : bytes) (g : Gossip) : option Gossip :=
  match unmarshal_BulkSyncMessage buf with
  | None => Some g
  | Some bsm =>
    let g :=
      if (0 <? bsm_LTime bsm)%N
      then set_store
             (set_tableClock (Witness (tableClock (store g)) (bsm_LTime bsm))
                (store g)) g
      else g in
    match handleMessage (bsm_Payload bsm) true g with
    | None => None
    | Some g =>
      if negb (bsm_Unsolicited bsm) then
        match bulkSyncAckTbl g !! bsm_NodeName bsm with
        | Some ch => Some (closeAck (bsm_NodeName bsm) ch g)
        | None => Some g
        end
      else Some (bulkSyncNode (bsm_Networks bsm) (bsm_NodeName bsm) false g)
    end
  end.

(** [handleMessage].  A bulk sync and a compound message hold further
    messages, so the handler calls itself on their content; [fuel]
    bounds the depth of that nesting and [None] means it ran out. *)
Fixpoint handleMessage (fuel : nat) (buf : bytes) (isBulkSync : bool)
    (g : Gossip) : option Gossip :=
  match fuel with
  | O => None
  | S fuel =>
    match decodeMessage buf with
    | None => Some g
    | Some (mType, data) =>
      match mType with
      | MessageTypeNodeEvent => Some (handleNodeMessage data g)
      | MessageTypeNetworkEvent => Some (handleNetworkMessage data g)
      | MessageTypeTableEvent =>
          Some (set_store
                  (handleTableMessage maxQueueLenBroadcastOnSync data
                     isBulkSync (store g)) g)
      | MessageTypeBulkSync => handleBulkSync (handleMessage fuel) data g
      | MessageTypeCompound =>
          handleCompound (handleMessage fuel) data isBulkSync g
      | _ => Some g
      end
    end
  end.

(** [NotifyMsg].  The content of a message is shorter than the message,
    so the nesting is never deeper than the buffer is long. *)
Definition NotifyMsg (buf : bytes) (g : Gossip) : option Gossip :=
  if (length buf =? 0)%nat then Some g
  else handleMessage (S (length buf)) buf false g.

(** ** LocalState *)

(** The records [LocalState] lists for the local node's own networks
    and for the networks of the other nodes (lines 443-460).  Go ranges
    over a map in an unspecified order; here the records come in the
    order of [map_to_list], and only which records are listed is used
    below. *)
Definition ownEntries (nDB : NetworkDB) : list NetworkEntry :=
  (λ kv : string * network,
     mkNetworkEntry (network_ltime kv.2) kv.1 (NodeID (config nDB))
       (network_leaving kv.2))
    <$> map_to_list (thisNodeNetworks nDB).

Definition remoteEntries (nDB : NetworkDB) : list NetworkEntry :=
  map_to_list (networks nDB) ≫=
    (λ kv : string * gmap string network,
       (λ kv' : string * network,
          mkNetworkEntry (network_ltime kv'.2) kv'.1 kv.1
            (network_leaving kv'.2))
         <$> map_to_list kv.2).

(** Modelled from the spec: [LamportClock.Time] is not under src/; it
    reads the clock. *)
Definition localPushPull (nDB : NetworkDB) : NetworkPushPull :=
  mkNetworkPushPull (networkClock nDB) (ownEntries nDB ++ remoteEntries nDB)
    (NodeID (config nDB)).

(** [LocalState]: the encoded snapshot (empty when encoding fails) and
    the store, which [updateLocalNetworkTime] may have changed. *)
Definition LocalState (join : bool) (nDB : NetworkDB) : bytes * NetworkDB :=
  let nDB := if join then updateLocalNetworkTime nDB else nDB in
  (match encodeMessage MessageTypePushPull (localPushPull nDB) with
   | Some buf => buf
   | None => []
   end, nDB).

End Messages.

(** What the local node advertises about a (node, network) pair: its
    own record for itself, the stored record for another node. *)
Definition advertised (nodeName nid : string) (nDB : NetworkDB) : option network :=
  if decide (nodeName = NodeID (config nDB)) then thisNodeNetworks nDB !! nid
  else membership nodeName nid nDB.

(** The decoders return parts of the buffer they are given, so what
    they return is not longer than it, and the content of an envelope
    that holds further messages (a bulk sync, a compound message) is
    strictly shorter than the envelope. *)
Definition shrinking (mcodec : MessageCodec) : Prop :=
  (∀ buf mType data,
     decodeMessage buf = Some (mType, data) →
     mType = MessageTypeBulkSync ∨ mType = MessageTypeCompound →
     (length data < length buf)%nat)
  ∧ (∀ buf parts part,
       decodeCompoundMessage buf = Some parts → part ∈ parts →
       (length part ≤ length buf)%nat)
  ∧ (∀ buf bsm,
       unmarshal_BulkSyncMessage buf = Some bsm →
       (length (bsm_Payload bsm) ≤ length buf)%nat).

(** Neither Lamport clock of [r] is behind the one of [g]. *)
Definition clocksNotBefore (g r : Gossip) : Prop :=
  (networkClock (store g) ≤ networkClock (store r))%N
  ∧ (tableClock (store g) ≤ tableClock (store r))%N.

(** ** Concrete messages used by the further examples *)

Module Wire.

(** Pairs of bytes: the parts of a compound message of the example
    codec. *)
Fixpoint chunk2 (l : bytes) : list bytes :=
  match l with
  | a :: b :: rest => [a; b] :: chunk2 rest
  | _ => []
  end.

Definition unknownDelete : TableEvent :=
  mkTableEvent TableEventTypeDelete 7%N "a" "n1" "t1" "k9" [] 600.

Definition leaveA : NodeEvent := mkNodeEvent NodeEventTypeLeave 5%N "a".

Definition joinB : NetworkEvent :=
  mkNetworkEvent NetworkEventTypeJoin 4%N "b" "n3".

Definition leaveB : NetworkEvent :=
  mkNetworkEvent NetworkEventTypeLeave 6%N "b" "n2".

(** [db1] in which b is recorded as a member of n2. *)
Definition db3 : NetworkDB :=
  set_networkNodes {["n1" := ["a"; "b"]; "n2" := ["b"]]}
    (set_networks {["b" := {["n2" := mknetwork 2%N false 0 false []]}]}
       Examples.db1).

(** A node that knows of the local node of [db3] and of b, and has no
    network records. *)
Definition peer : NetworkDB :=
  mkNetworkDB (mkConfig "other" (1800 * Second) (1825 * Second)) 0%N 0%N
    {["self" := mknode "self" [] 0%N 0; "b" := mknode "b" [] 0%N 0]}
    ∅ ∅ ∅ ∅ ∅ [].

(** A one-byte table of events, and an envelope that is a tag byte
    followed by the payload. *)
Definition codec : Codec :=
  {| unmarshal_TableEvent :=
       λ data,
         match data with
         | [Byte.x30] => Some Examples.createK1
         | [Byte.x31] => Some Examples.deleteK1
         | [Byte.x32] => Some unknownDelete
         | _ => None
         end;
     unmarshal_GossipMessage :=
       λ buf, Some (mkGossipMessage MessageTypePushPull buf);
     unmarshal_NetworkPushPull := λ _, Some (localPushPull db3);
     encodeRawMessage := λ _ buf, Some (Byte.x03 :: buf) |}.

Definition messages : MessageCodec :=
  {| decodeMessage :=
       λ buf,
         match buf with
         | [] => None
         | tag :: data =>
             Some (match tag with
                   | Byte.x01 => MessageTypeNodeEvent
                   | Byte.x02 => MessageTypeNetworkEvent
                   | Byte.x03 => MessageTypeTableEvent
                   | Byte.x04 => MessageTypePushPull
                   | Byte.x05 => MessageTypeBulkSync
                   | Byte.x06 => MessageTypeCompound
                   | _ => MessageTypeInvalid
                   end, data)
         end;
     decodeCompoundMessage := λ data, Some (chunk2 data);
     unmarshal_NodeEvent :=
       λ data, match data with [Byte.x10] => Some leaveA | _ => None end;
     unmarshal_NetworkEvent :=
       λ data,
         match data with
         | [Byte.x20] => Some joinB
         | [Byte.x21] => Some leaveB
         | _ => None
         end;
     unmarshal_BulkSyncMessage :=
       λ data,
         match data with
         | [] => None
         | u :: payload =>
             Some (mkBulkSyncMessage 7%N
                     (match u with Byte.x01 => true | _ => false end)
                     "a" ["n1"] payload)
         end;
     encodeMessage := λ _ _, Some [Byte.x04] |}.

(** [bulkSyncNode] and [updateLocalNetworkTime] that do nothing. *)
Definition noBulkSync (nets : list string) (name : string) (unsolicited : bool)
    (g : Gossip) : Gossip := g.

Definition gossip1 : Gossip := mkGossip Examples.db1 [] [] {["a" := 1%nat]} [].

(** A compound message of a node event and a network event. *)
Definition compound : bytes :=
  [Byte.x06; Byte.x01; Byte.x10; Byte.x02; Byte.x20].

(** A solicited bulk sync from a that carries the delete of k9. *)
Definition bulk : bytes := [Byte.x05; Byte.x00; Byte.x03; Byte.x32].

End Wire.

(** * Properties *)

Ltac store_simpl :=
  unfold getEntry, createOrUpdateEntry, broadcaster_Write,
    tableClockWitnessed in *;
  cbn [config networkClock tableClock nodes leftNodes networks thisNodeNetworks
       networkNodes indexes broadcaster
       set_networkClock set_tableClock set_nodes set_leftNodes set_networks
       set_thisNodeNetworks set_networkNodes set_indexes set_broadcaster
       fst snd] in *.

(** The scenario of the spec: a create at time 5, its duplicate, then a
    delete at time 6 with 30 seconds of residual reap time. *)
Example scenario_create_dup_delete :
  let s1 := (handleTableEvent Examples.createK1 false Examples.db1).2 in
  let s2 := (handleTableEvent Examples.createK1 false s1).2 in
  let '(r3, s3) := handleTableEvent Examples.deleteK1 false s2 in
  s2 = s1
  ∧ r3 = true
  ∧ getEntry "t1" "n1" "k1" s3
    = Some (mkentry 6%N "a" [] true (30 * Second))
  ∧ broadcaster s3
    = [mkWatchEvent "t1" "n1" "k1" [Byte.x2a] [];
       mkWatchEvent "t1" "n1" "k1" [] [Byte.x2a]].
Proof. vm_compute. auto. Qed.

Lemma nodePresent_loop_elem_of (l : list string) (name : string) :
  nodePresent_loop l name = true ↔ name ∈ l.
Proof.
  induction l as [|node rest IH]; simpl.
  - split; [discriminate | intros H; inversion H].
  - destruct (String.eqb_spec node name) as [->|Hne].
    + split; [intros _; left | reflexivity].
    + rewrite IH. split; [intros H; by right |].
      intros H. apply elem_of_cons in H as [->|H]; [congruence | exact H].
Qed.

Lemma nodePresent_loop_not_elem_of (l : list string) (name : string) :
  nodePresent_loop l name = false ↔ name ∉ l.
Proof.
  rewrite <- nodePresent_loop_elem_of. destruct (nodePresent_loop l name); naive_solver.
Qed.

(** "One sixth of the interval" is an integer division; against an
    integer reap time and a non-negative interval it decides the same
    as the exact fraction. *)
Lemma sixth_exact (interval reapTime : Z) :
  0 ≤ interval → (Z.quot interval 6 < reapTime ↔ interval < 6 * reapTime).
Proof.
  intros Hpos. rewrite Z.quot_div_nonneg by lia.
  pose proof (Z.div_mod interval 6 ltac:(lia)).
  pose proof (Z.mod_pos_bound interval 6 ltac:(lia)). lia.
Qed.

(** A residual reap time that fits 32 bits is converted to nanoseconds
    without wrapping. *)
Lemma seconds_exact (x : Z) :
  - 2 ^ 31 ≤ x < 2 ^ 32 → seconds x = x * Second.
Proof.
  intros Hx. unfold seconds, wrap_int64, Second.
  rewrite Z.mod_small; lia.
Qed.

(** What [handleTableEvent] does once the topology checks pass. *)
Lemma handleTableEvent_passes tEvent isBulkSync nDB n :
  passesTopology tEvent nDB n →
  handleTableEvent tEvent isBulkSync nDB =
    let nDB := tableClockWitnessed tEvent nDB in
    let prev :=
      getEntry (te_TableName tEvent) (te_NetworkID tEvent) (te_Key tEvent) nDB in
    match prev with
    | Some p =>
        if (te_LTime tEvent <=? entry_ltime p)%N then (false, nDB)
        else
          let nDB :=
            createOrUpdateEntry (te_NetworkID tEvent) (te_TableName tEvent)
              (te_Key tEvent) (newEntry (config nDB) tEvent) nDB in
          (network_inSync n,
           match te_Type tEvent with
           | TableEventTypeCreate | TableEventTypeUpdate =>
               broadcaster_Write
                 (mkWatchEvent (te_TableName tEvent) (te_NetworkID tEvent)
                    (te_Key tEvent) (te_Value tEvent)
                    (default [] (observedValue prev))) nDB
           | TableEventTypeDelete =>
               match observedValue prev with
               | Some v =>
                   broadcaster_Write
                     (mkWatchEvent (te_TableName tEvent) (te_NetworkID tEvent)
                        (te_Key tEvent) [] v) nDB
               | None => nDB
               end
           | TableEventTypeInvalid =>
               broadcaster_Write
                 (mkWatchEvent (te_TableName tEvent) (te_NetworkID tEvent)
                    (te_Key tEvent) [] []) nDB
           end)
    | None =>
        let e := newEntry (config nDB) tEvent in
        let nDB :=
          createOrUpdateEntry (te_NetworkID tEvent) (te_TableName tEvent)
            (te_Key tEvent) e nDB in
        match te_Type tEvent with
        | TableEventTypeDelete =>
            (isBulkSync && network_inSync n
               && (Z.quot (reapEntryInterval (config nDB)) 6 <? entry_reapTime e),
             nDB)
        | TableEventTypeCreate | TableEventTypeUpdate =>
            (network_inSync n,
             broadcaster_Write
               (mkWatchEvent (te_TableName tEvent) (te_NetworkID tEvent)
                  (te_Key tEvent) (te_Value tEvent) []) nDB)
        | TableEventTypeInvalid =>
            (network_inSync n,
             broadcaster_Write
               (mkWatchEvent (te_TableName tEvent) (te_NetworkID tEvent)
                  (te_Key tEvent) [] []) nDB)
        end
    end.
Proof.
  intros (Hnet & Hleav & Hin). apply nodePresent_loop_elem_of in Hin.
  unfold handleTableEvent. store_simpl. rewrite Hnet, Hleav, Hin.
  cbn [negb orb].
  destruct (indexes nDB !! _) as [p|] eqn:Hprev.
  - destruct (te_LTime tEvent <=? entry_ltime p)%N; [reflexivity|].
    cbn [negb andb observedValue].
    destruct (te_Type tEvent), (entry_deleting p); reflexivity.
  - destruct (te_Type tEvent); reflexivity.
Qed.

(** What [handleTableEvent] does when a topology check fails. *)
Lemma handleTableEvent_fails_topology tEvent isBulkSync nDB :
  thisNodeNetworks nDB !! te_NetworkID tEvent = None
  ∨ (∃ n, thisNodeNetworks nDB !! te_NetworkID tEvent = Some n
          ∧ network_leaving n = true)
  ∨ te_NodeName tEvent ∉ default [] (networkNodes nDB !! te_NetworkID tEvent) →
  handleTableEvent tEvent isBulkSync nDB = (false, tableClockWitnessed tEvent nDB).
Proof.
  intros H. unfold handleTableEvent. store_simpl.
  destruct (thisNodeNetworks nDB !! _) as [n|] eqn:Hnet; [|reflexivity].
  destruct H as [H|[(n' & Hn' & Hleav)|H]].
  - discriminate.
  - injection Hn' as <-. rewrite Hleav. reflexivity.
  - apply nodePresent_loop_not_elem_of in H. rewrite H.
    rewrite orb_true_r. reflexivity.
Qed.

(** The topology checks either pass or fail. *)
Lemma topology_cases tEvent nDB :
  (∃ n, passesTopology tEvent nDB n)
  ∨ (thisNodeNetworks nDB !! te_NetworkID tEvent = None
     ∨ (∃ n, thisNodeNetworks nDB !! te_NetworkID tEvent = Some n
             ∧ network_leaving n = true)
     ∨ te_NodeName tEvent ∉ default [] (networkNodes nDB !! te_NetworkID tEvent)).
Proof.
  unfold passesTopology.
  destruct (thisNodeNetworks nDB !! _) as [n|]; [|by right; left].
  destruct (network_leaving n) eqn:Hl; [right; right; left; eauto|].
  destruct (decide (te_NodeName tEvent
                      ∈ default [] (networkNodes nDB !! te_NetworkID tEvent))).
  - left. eauto.
  - right. right. by right.
Qed.

(** A stale event only witnesses the clock. *)
Lemma handleTableEvent_stale_eq tEvent isBulkSync nDB prev :
  getEntry (te_TableName tEvent) (te_NetworkID tEvent) (te_Key tEvent) nDB
    = Some prev →
  (te_LTime tEvent ≤ entry_ltime prev)%N →
  handleTableEvent tEvent isBulkSync nDB = (false, tableClockWitnessed tEvent nDB).
Proof.
  intros Hget Hle.
  destruct (topology_cases tEvent nDB) as [[n Hn]|Hfail].
  - rewrite (handleTableEvent_passes _ _ _ _ Hn). store_simpl. rewrite Hget.
    apply N.leb_le in Hle. rewrite Hle. reflexivity.
  - by apply handleTableEvent_fails_topology.
Qed.

(** ** Table events *)

(** C1.  A Delete for a key with no stored entry, which passes the
    topology checks, is rebroadcast if and only if it came through bulk
    sync, the network is in sync, and the reap time of the entry built
    from the event is strictly greater than the configured reap interval
    divided by six (the integer quotient, which for a non-negative
    interval decides the same as the exact sixth); outside bulk sync it
    is never rebroadcast.  The entry built from the event is the one
    left in the store. *)
Theorem unknown_delete_rebroadcast_rule tEvent isBulkSync nDB n :
  te_Type tEvent = TableEventTypeDelete →
  getEntry (te_TableName tEvent) (te_NetworkID tEvent) (te_Key tEvent) nDB
    = None →
  passesTopology tEvent nDB n →
  let e := newEntry (config nDB) tEvent in
  let r := handleTableEvent tEvent isBulkSync nDB in
  (r.1 = true ↔
     isBulkSync = true ∧ network_inSync n = true
     ∧ Z.quot (reapEntryInterval (config nDB)) 6 < entry_reapTime e)
  ∧ (0 ≤ reapEntryInterval (config nDB) →
     (r.1 = true ↔
        isBulkSync = true ∧ network_inSync n = true
        ∧ reapEntryInterval (config nDB) < 6 * entry_reapTime e))
  ∧ (isBulkSync = false → r.1 = false)
  ∧ getEntry (te_TableName tEvent) (te_NetworkID tEvent) (te_Key tEvent) r.2
    = Some e.
Proof.
  intros Hty Hget Htopo e r. subst r.
  rewrite (handleTableEvent_passes _ _ _ _ Htopo). store_simpl.
  rewrite Hget, Hty. cbn [fst snd]. split; [|split; [|split]].
  - rewrite !andb_true_iff, Z.ltb_lt. tauto.
  - intros Hpos. rewrite <- sixth_exact by exact Hpos.
    rewrite !andb_true_iff, Z.ltb_lt. tauto.
  - intros ->. reflexivity.
  - store_simpl. apply lookup_insert_eq.
Qed.

Lemma unknown_delete_rebroadcast_rule_witness :
  let tEvent :=
    mkTableEvent TableEventTypeDelete 7%N "a" "n1" "t1" "k9" [] 600 in
  passesTopology tEvent Examples.db1 Examples.net1
  ∧ (handleTableEvent tEvent true Examples.db1).1 = true
  ∧ (handleTableEvent tEvent false Examples.db1).1 = false.
Proof.
  intros tEvent.
  assert (Htopo : passesTopology tEvent Examples.db1 Examples.net1).
  { split; [reflexivity|]. split; [reflexivity|]. vm_compute. left. }
  split; [exact Htopo|]. split.
  - destruct (unknown_delete_rebroadcast_rule tEvent true Examples.db1
                Examples.net1 eq_refl eq_refl Htopo) as (Hsync & _).
    apply Hsync.
    split; [reflexivity|]. split; [reflexivity|]. vm_compute. reflexivity.
  - destruct (unknown_delete_rebroadcast_rule tEvent false Examples.db1
                Examples.net1 eq_refl eq_refl Htopo) as (_ & _ & Hasync & _).
    apply Hasync. reflexivity.
Defined.

(** Re-delivering an event to the store it was just applied to changes
    nothing, whatever happened to it the first time. *)
Lemma handleTableEvent_redelivered tEvent isBulkSync isBulkSync' nDB :
  let s1 := (handleTableEvent tEvent isBulkSync nDB).2 in
  handleTableEvent tEvent isBulkSync' s1 = (false, s1).
Proof.
  assert (Hidem : ∀ s, tableClockWitnessed tEvent (tableClockWitnessed tEvent s)
                       = tableClockWitnessed tEvent s).
  { intros s. unfold tableClockWitnessed, set_tableClock, Witness. cbn.
    f_equal. lia. }
  assert (Hwit : ∀ s (m : gmap (string * string * string) entry)
                   (l : list WatchEvent),
             tableClockWitnessed tEvent
               (set_broadcaster l (set_indexes m (tableClockWitnessed tEvent s)))
             = set_broadcaster l (set_indexes m (tableClockWitnessed tEvent s))).
  { intros s m l. unfold tableClockWitnessed, set_tableClock, Witness. cbn.
    unfold set_broadcaster, set_indexes. cbn. f_equal. lia. }
  cbv zeta.
  destruct (topology_cases tEvent nDB) as [[n Hn]|Hfail].
  - pose proof (handleTableEvent_passes tEvent isBulkSync nDB n Hn) as Heq.
    cbv zeta in Heq.
    set (e := newEntry (config (tableClockWitnessed tEvent nDB)) tEvent) in *.
    destruct (getEntry (te_TableName tEvent) (te_NetworkID tEvent)
                (te_Key tEvent) (tableClockWitnessed tEvent nDB))
      as [p|] eqn:Hprev.
    + destruct (te_LTime tEvent <=? entry_ltime p)%N eqn:Hle.
      * rewrite Heq. cbn [snd].
        rewrite (handleTableEvent_stale_eq tEvent isBulkSync' _ p Hprev)
          by (by apply N.leb_le).
        by rewrite Hidem.
      * rewrite Heq. cbn [snd].
        match goal with
        | |- handleTableEvent _ _ ?s = _ =>
            rewrite (handleTableEvent_stale_eq tEvent isBulkSync' s e)
        end.
        -- f_equal. destruct (te_Type tEvent); [| | |destruct (observedValue _)];
             store_simpl; first [apply (Hwit nDB) | idtac].
           unfold tableClockWitnessed, set_tableClock, set_indexes, Witness.
           cbn. f_equal. lia.
        -- destruct (te_Type tEvent); [| | |destruct (observedValue _)];
             store_simpl; apply lookup_insert_eq.
        -- subst e. cbn. lia.
    + rewrite Heq.
      assert (Hstored : ∀ b s,
                 indexes s = <[(te_TableName tEvent, te_NetworkID tEvent,
                                te_Key tEvent) := e]>
                               (indexes (tableClockWitnessed tEvent nDB)) →
                 handleTableEvent tEvent b s = (false, tableClockWitnessed tEvent s)).
      { intros b s Hs. apply (handleTableEvent_stale_eq tEvent b s e).
        - unfold getEntry. rewrite Hs. apply lookup_insert_eq.
        - subst e. cbn. lia. }
      destruct (te_Type tEvent); cbn [snd]; rewrite Hstored by reflexivity;
        f_equal; store_simpl; first [apply (Hwit nDB) | idtac];
        unfold tableClockWitnessed, set_tableClock, set_indexes, Witness;
        cbn; f_equal; lia.
  - rewrite (handleTableEvent_fails_topology _ _ _ Hfail). cbn [snd].
    rewrite handleTableEvent_fails_topology by exact Hfail.
    by rewrite Hidem.
Qed.

Section TableMessages.
Context {codec : Codec}.
Variable maxQueueLen : Z.

(** A decoded event of another node that [handleTableEvent] declines
    to rebroadcast: the handler stops there. *)
Lemma handleTableMessage_between_declined between buf isBulkSync nDB tEvent s1 :
  unmarshal_TableEvent buf = Some tEvent →
  te_NodeName tEvent ≠ NodeID (config nDB) →
  handleTableEvent tEvent isBulkSync nDB = (false, s1) →
  handleTableMessage_between maxQueueLen between buf isBulkSync nDB = s1.
Proof.
  intros Hdec Hne Hev. unfold handleTableMessage_between.
  rewrite Hdec. destruct (decide _) as [|_]; [done|]. by rewrite Hev.
Qed.

(** A decoded event of another node that [handleTableEvent] wants
    rebroadcast: the second half runs on the store found under the
    read lock. *)
Lemma handleTableMessage_between_wanted between buf isBulkSync nDB tEvent s1 :
  unmarshal_TableEvent buf = Some tEvent →
  te_NodeName tEvent ≠ NodeID (config nDB) →
  handleTableEvent tEvent isBulkSync nDB = (true, s1) →
  handleTableMessage_between maxQueueLen between buf isBulkSync nDB =
    match encodeRawMessage MessageTypeTableEvent buf with
    | None => s1
    | Some raw =>
        queueTableRebroadcast maxQueueLen tEvent raw isBulkSync (between s1)
    end.
Proof.
  intros Hdec Hne Hev. unfold handleTableMessage_between.
  rewrite Hdec. destruct (decide _) as [|_]; [done|]. by rewrite Hev.
Qed.

(** What a message does when its event is declined with only the
    clock witnessed. *)
Lemma handleTableMessage_between_dropped between buf isBulkSync nDB tEvent :
  unmarshal_TableEvent buf = Some tEvent →
  handleTableEvent tEvent isBulkSync nDB
    = (false, tableClockWitnessed tEvent nDB) →
  handleTableMessage_between maxQueueLen between buf isBulkSync nDB =
    if decide (te_NodeName tEvent = NodeID (config nDB)) then nDB
    else tableClockWitnessed tEvent nDB.
Proof.
  intros Hdec Hev. destruct (decide _) as [Hown|Hne].
  - unfold handleTableMessage_between. rewrite Hdec.
    by destruct (decide _).
  - by apply handleTableMessage_between_declined with tEvent.
Qed.

(** C2.  A table event whose key already holds an entry with a Lamport
    time greater than or equal to the event's is stale:
    [handleTableEvent] returns false and leaves the store as it was
    except for the witnessed table clock, so no entry changes and no
    watch event is written; the message that carried it enqueues no
    rebroadcast. *)
Theorem stale_table_event_dropped tEvent isBulkSync nDB prev :
  getEntry (te_TableName tEvent) (te_NetworkID tEvent) (te_Key tEvent) nDB
    = Some prev →
  (te_LTime tEvent ≤ entry_ltime prev)%N →
  handleTableEvent tEvent isBulkSync nDB
    = (false, tableClockWitnessed tEvent nDB)
  ∧ indexes (tableClockWitnessed tEvent nDB) = indexes nDB
  ∧ broadcaster (tableClockWitnessed tEvent nDB) = broadcaster nDB
  ∧ thisNodeNetworks (tableClockWitnessed tEvent nDB) = thisNodeNetworks nDB
  ∧ ∀ between buf,
      unmarshal_TableEvent buf = Some tEvent →
      handleTableMessage_between maxQueueLen between buf isBulkSync nDB =
        if decide (te_NodeName tEvent = NodeID (config nDB)) then nDB
        else tableClockWitnessed tEvent nDB.
Proof.
  intros Hget Hle.
  pose proof (handleTableEvent_stale_eq tEvent isBulkSync nDB prev Hget Hle)
    as Heq.
  split; [exact Heq|]. do 3 (split; [reflexivity|]).
  intros between buf Hdec. by apply handleTableMessage_between_dropped.
Qed.

(** C5.  When the local node is not a member of the event's network,
    or that network is leaving, or the event's originating node is
    not in the network's member list, [handleTableEvent] returns false
    and leaves the store as it was except for the witnessed table
    clock; the message that carried it enqueues no rebroadcast. *)
Theorem off_topology_table_event_dropped tEvent isBulkSync nDB :
  thisNodeNetworks nDB !! te_NetworkID tEvent = None
  ∨ (∃ n, thisNodeNetworks nDB !! te_NetworkID tEvent = Some n
          ∧ network_leaving n = true)
  ∨ te_NodeName tEvent ∉ default [] (networkNodes nDB !! te_NetworkID tEvent) →
  handleTableEvent tEvent isBulkSync nDB
    = (false, tableClockWitnessed tEvent nDB)
  ∧ indexes (tableClockWitnessed tEvent nDB) = indexes nDB
  ∧ broadcaster (tableClockWitnessed tEvent nDB) = broadcaster nDB
  ∧ thisNodeNetworks (tableClockWitnessed tEvent nDB) = thisNodeNetworks nDB
  ∧ ∀ between buf,
      unmarshal_TableEvent buf = Some tEvent →
      handleTableMessage_between maxQueueLen between buf isBulkSync nDB =
        if decide (te_NodeName tEvent = NodeID (config nDB)) then nDB
        else tableClockWitnessed tEvent nDB.
Proof.
  intros Hfail.
  pose proof (handleTableEvent_fails_topology tEvent isBulkSync nDB Hfail)
    as Heq.
  split; [exact Heq|]. do 3 (split; [reflexivity|]).
  intros between buf Hdec. by apply handleTableMessage_between_dropped.
Qed.

(** C9.  A table event message whose originating node is the local
    node is dropped before [handleTableEvent] runs: the store that
    comes back is the store that went in, clocks, entries, watch
    events and broadcast queues included. *)
Theorem own_table_event_ignored between buf isBulkSync nDB tEvent :
  unmarshal_TableEvent buf = Some tEvent →
  te_NodeName tEvent = NodeID (config nDB) →
  handleTableMessage_between maxQueueLen between buf isBulkSync nDB = nDB.
Proof.
  intros Hdec Hown. unfold handleTableMessage_between. rewrite Hdec.
  by destruct (decide _).
Qed.

Lemma handleTableEvent_tableClock tEvent isBulkSync nDB :
  tableClock (handleTableEvent tEvent isBulkSync nDB).2
    = Witness (tableClock nDB) (te_LTime tEvent).
Proof.
  destruct (topology_cases tEvent nDB) as [[n Hn]|Hfail].
  - rewrite (handleTableEvent_passes _ _ _ _ Hn). cbv zeta.
    destruct (getEntry _ _ _ _) as [p|].
    + destruct (_ <=? _)%N; [reflexivity|].
      destruct (te_Type tEvent); [| | |destruct (observedValue _)];
        reflexivity.
    + destruct (te_Type tEvent); reflexivity.
  - by rewrite handleTableEvent_fails_topology.
Qed.

Lemma queueTableRebroadcast_tableClock tEvent raw isBulkSync nDB :
  tableClock (queueTableRebroadcast maxQueueLen tEvent raw isBulkSync nDB)
    = tableClock nDB.
Proof.
  unfold queueTableRebroadcast.
  destruct (thisNodeNetworks nDB !! _) as [n|]; [|reflexivity].
  destruct (network_leaving n); [reflexivity|].
  destruct (_ && _); reflexivity.
Qed.

(** C3, as the code has it.  Every table event message that decodes
    and whose originating node is not the local node has the table
    clock witnessed: after [handleTableEvent], and after the whole of
    [handleTableMessage], the clock is the maximum of its old value
    and the event's Lamport time, so it is never lowered, whether the
    event is then rejected as stale, rejected by the topology checks
    or applied. *)
Theorem table_clock_witnessed_when_handled buf isBulkSync nDB tEvent :
  unmarshal_TableEvent buf = Some tEvent →
  te_NodeName tEvent ≠ NodeID (config nDB) →
  let after := handleTableMessage maxQueueLen buf isBulkSync nDB in
  tableClock (handleTableEvent tEvent isBulkSync nDB).2
    = N.max (tableClock nDB) (te_LTime tEvent)
  ∧ tableClock after = N.max (tableClock nDB) (te_LTime tEvent)
  ∧ (tableClock nDB ≤ tableClock after)%N
  ∧ (te_LTime tEvent ≤ tableClock after)%N.
Proof.
  intros Hdec Hne after.
  pose proof (handleTableEvent_tableClock tEvent isBulkSync nDB) as Hclock.
  unfold Witness in Hclock.
  assert (Hafter : tableClock after = N.max (tableClock nDB) (te_LTime tEvent)).
  { subst after. unfold handleTableMessage.
    destruct (handleTableEvent tEvent isBulkSync nDB) as [[|] s1] eqn:Hev;
      cbn [snd] in Hclock.
    - rewrite (handleTableMessage_between_wanted _ _ _ _ _ _ Hdec Hne Hev).
      destruct (encodeRawMessage _ _); [|exact Hclock].
      by rewrite queueTableRebroadcast_tableClock.
    - by rewrite (handleTableMessage_between_declined _ _ _ _ _ _ Hdec Hne Hev). }
  split; [exact Hclock|]. split; [exact Hafter|]. rewrite Hafter. lia.
Qed.

(** C6.  An accepted table event writes to the watchers as follows.
    A Delete writes an event if and only if the entry was present and
    not a tombstone, and that event carries the stored value as its
    previous value.  A Create or Update always writes an event with
    the event's value, and its previous value is the stored value
    exactly when the entry was present and not a tombstone (empty
    otherwise). *)
Theorem watch_notification_rule tEvent isBulkSync nDB n :
  accepted tEvent nDB n →
  let prev :=
    getEntry (te_TableName tEvent) (te_NetworkID tEvent) (te_Key tEvent) nDB in
  let event value prevValue :=
    mkWatchEvent (te_TableName tEvent) (te_NetworkID tEvent) (te_Key tEvent)
      value prevValue in
  broadcaster (handleTableEvent tEvent isBulkSync nDB).2 =
    broadcaster nDB ++
    match te_Type tEvent with
    | TableEventTypeDelete =>
        match observedValue prev with
        | Some v => [event [] v]
        | None => []
        end
    | TableEventTypeCreate | TableEventTypeUpdate =>
        [event (te_Value tEvent) (default [] (observedValue prev))]
    | TableEventTypeInvalid => [event [] []]
    end.
Proof.
  intros [Htopo Hfresh] prev event. subst prev event.
  rewrite (handleTableEvent_passes _ _ _ _ Htopo). cbv zeta.
  unfold notStale in Hfresh.
  replace (getEntry (te_TableName tEvent) (te_NetworkID tEvent)
             (te_Key tEvent) (tableClockWitnessed tEvent nDB))
    with (getEntry (te_TableName tEvent) (te_NetworkID tEvent)
            (te_Key tEvent) nDB) by reflexivity.
  destruct (getEntry _ _ _ nDB) as [p|] eqn:Hprev.
  - specialize (Hfresh p eq_refl).
    apply N.leb_gt in Hfresh. rewrite Hfresh.
    destruct (te_Type tEvent); [| | |destruct (observedValue _)];
      cbn; by rewrite ?app_nil_r.
  - destruct (te_Type tEvent); cbn; by rewrite ?app_nil_r.
Qed.

(** C8.  When an event that came through bulk sync is to be
    rebroadcast and the network's table queue already holds more than
    [maxQueueLenBroadcastOnSync] messages, [handleTableMessage]
    enqueues nothing: the store it leaves is the one it found under
    the read lock. *)
Theorem bulk_sync_rebroadcast_backpressure between buf nDB tEvent s1 n :
  unmarshal_TableEvent buf = Some tEvent →
  te_NodeName tEvent ≠ NodeID (config nDB) →
  handleTableEvent tEvent true nDB = (true, s1) →
  thisNodeNetworks (between s1) !! te_NetworkID tEvent = Some n →
  maxQueueLen < NumQueued (network_tableRebroadcasts n) →
  handleTableMessage_between maxQueueLen between buf true nDB =
    match encodeRawMessage MessageTypeTableEvent buf with
    | None => s1
    | Some _ => between s1
    end.
Proof.
  intros Hdec Hne Hev Hnet Hfull.
  rewrite (handleTableMessage_between_wanted _ _ _ _ _ _ Hdec Hne Hev).
  destruct (encodeRawMessage _ _) as [raw|]; [|reflexivity].
  unfold queueTableRebroadcast. rewrite Hnet.
  destruct (network_leaving n); [reflexivity|].
  apply Z.ltb_lt in Hfull. by rewrite Hfull.
Qed.

(** C10.  Even when [handleTableEvent] asks for a rebroadcast,
    [handleTableMessage] looks the network up again under the read
    lock; if by then the local node has left it or is leaving it,
    nothing is enqueued: the store it leaves is the one it found
    under the read lock. *)
Theorem rebroadcast_rechecks_membership between buf isBulkSync nDB tEvent s1 :
  unmarshal_TableEvent buf = Some tEvent →
  te_NodeName tEvent ≠ NodeID (config nDB) →
  handleTableEvent tEvent isBulkSync nDB = (true, s1) →
  thisNodeNetworks (between s1) !! te_NetworkID tEvent = None
  ∨ (∃ n, thisNodeNetworks (between s1) !! te_NetworkID tEvent = Some n
          ∧ network_leaving n = true) →
  handleTableMessage_between maxQueueLen between buf isBulkSync nDB =
    match encodeRawMessage MessageTypeTableEvent buf with
    | None => s1
    | Some _ => between s1
    end.
Proof.
  intros Hdec Hne Hev Hgone.
  rewrite (handleTableMessage_between_wanted _ _ _ _ _ _ Hdec Hne Hev).
  destruct (encodeRawMessage _ _) as [raw|]; [|reflexivity].
  unfold queueTableRebroadcast.
  destruct Hgone as [->|(n & -> & ->)]; reflexivity.
Qed.

End TableMessages.

(** ** The table-event properties at concrete inputs *)

Lemma stale_table_event_dropped_witness :
  getEntry "t1" "n1" "k1" Examples.db2
    = Some (newEntry Examples.cfg Examples.createK1)
  ∧ handleTableEvent Examples.createK1 false Examples.db2
    = (false, Examples.db2)
  ∧ handleTableMessage_between (codec := Examples.createCodec)
      Examples.maxQueueLen id [Byte.x01] false Examples.db2
    = Examples.db2.
Proof.
  split; [reflexivity|].
  destruct (stale_table_event_dropped (codec := Examples.createCodec)
              Examples.maxQueueLen Examples.createK1 false Examples.db2
              (newEntry Examples.cfg Examples.createK1) eq_refl
              ltac:(vm_compute; discriminate))
    as (Hev & _ & _ & _ & Hmsg).
  split; [exact Hev|]. exact (Hmsg id [Byte.x01] eq_refl).
Defined.

(** Each of the three topology checks rejects on its own. *)
Example table_event_for_unknown_network :
  handleTableEvent Examples.createK1 true
    (set_thisNodeNetworks ∅ Examples.db1)
  = (false, set_tableClock 5%N (set_thisNodeNetworks ∅ Examples.db1)).
Proof. reflexivity. Qed.

Example table_event_from_non_member :
  let tEvent :=
    mkTableEvent TableEventTypeCreate 5%N "z" "n1" "t1" "k1" [Byte.x2a] 0 in
  handleTableEvent tEvent true Examples.db1
  = (false, set_tableClock 5%N Examples.db1).
Proof. reflexivity. Qed.

Lemma off_topology_table_event_dropped_witness :
  thisNodeNetworks Examples.db1_leaving !! "n1"
    = Some (mknetwork 1%N true 0 true [])
  ∧ handleTableEvent Examples.createK1 true Examples.db1_leaving
    = (false, set_tableClock 5%N Examples.db1_leaving).
Proof.
  split; [reflexivity|].
  apply (off_topology_table_event_dropped (codec := Examples.createCodec)
           Examples.maxQueueLen Examples.createK1 true Examples.db1_leaving).
  right. left. exists (mknetwork 1%N true 0 true []).
  split; reflexivity.
Defined.

Lemma own_table_event_ignored_witness :
  (tableClock (handleTableEvent Examples.ownCreate false Examples.db1).2
     = 9%N)
  ∧ handleTableMessage_between (codec := Examples.ownCodec)
      Examples.maxQueueLen id [Byte.x01] false Examples.db1
    = Examples.db1.
Proof.
  split; [reflexivity|].
  apply (own_table_event_ignored (codec := Examples.ownCodec)
           Examples.maxQueueLen id [Byte.x01] false Examples.db1
           Examples.ownCreate eq_refl eq_refl).
Defined.

Lemma table_clock_witnessed_when_handled_witness :
  tableClock Examples.db1 = 3%N
  ∧ tableClock (handleTableMessage (codec := Examples.createCodec)
                  Examples.maxQueueLen [Byte.x01] false Examples.db1)
    = 5%N.
Proof.
  split; [reflexivity|].
  apply (table_clock_witnessed_when_handled (codec := Examples.createCodec)
           Examples.maxQueueLen [Byte.x01] false Examples.db1
           Examples.createK1 eq_refl ltac:(vm_compute; discriminate)).
Defined.

(** C3 as stated fails: a table event message that names the local node
    as its origin is dropped with the table clock left where it was,
    below the event's Lamport time. *)
Lemma table_clock_not_witnessed_for_own_event :
  unmarshal_TableEvent (Codec := Examples.ownCodec) [Byte.x01]
    = Some Examples.ownCreate
  ∧ te_LTime Examples.ownCreate = 9%N
  ∧ tableClock Examples.db1 = 3%N
  ∧ tableClock (handleTableMessage (codec := Examples.ownCodec)
                  Examples.maxQueueLen [Byte.x01] false Examples.db1)
    ≠ N.max (tableClock Examples.db1) (te_LTime Examples.ownCreate).
Proof.
  split; [reflexivity|]. split; [reflexivity|]. split; [reflexivity|].
  vm_compute. discriminate.
Qed.

Lemma watch_notification_rule_witness :
  accepted Examples.deleteK1 Examples.db2 Examples.net1
  ∧ broadcaster (handleTableEvent Examples.deleteK1 false Examples.db2).2
    = broadcaster Examples.db2 ++ [mkWatchEvent "t1" "n1" "k1" [] [Byte.x2a]].
Proof.
  assert (Hacc : accepted Examples.deleteK1 Examples.db2 Examples.net1).
  { split.
    - split; [reflexivity|]. split; [reflexivity|]. vm_compute. left.
    - intros p Hp. vm_compute in Hp. injection Hp as <-. vm_compute.
      reflexivity. }
  split; [exact Hacc|].
  apply (watch_notification_rule Examples.deleteK1 false Examples.db2
           Examples.net1 Hacc).
Defined.

Lemma bulk_sync_rebroadcast_backpressure_witness :
  NumQueued
    (network_tableRebroadcasts
       (mknetwork 1%N false 0 true
          [mktableEventMessage [Byte.x03] "n1" "t1" "k7";
           mktableEventMessage [Byte.x03] "n1" "t1" "k8"])) = 2
  ∧ thisNodeNetworks
      (handleTableMessage_between (codec := Examples.createCodec) 1 id
         [Byte.x01] true Examples.db1_queued)
    = thisNodeNetworks Examples.db1_queued
  ∧ thisNodeNetworks
      (handleTableMessage_between (codec := Examples.createCodec) 2 id
         [Byte.x01] true Examples.db1_queued)
    ≠ thisNodeNetworks Examples.db1_queued.
Proof.
  split; [reflexivity|]. split.
  - rewrite (bulk_sync_rebroadcast_backpressure
               (codec := Examples.createCodec) 1 id [Byte.x01]
               Examples.db1_queued Examples.createK1
               (handleTableEvent Examples.createK1 true Examples.db1_queued).2
               (mknetwork 1%N false 0 true
                  [mktableEventMessage [Byte.x03] "n1" "t1" "k7";
                   mktableEventMessage [Byte.x03] "n1" "t1" "k8"])
               eq_refl ltac:(vm_compute; discriminate) eq_refl eq_refl
               ltac:(vm_compute; reflexivity)).
    reflexivity.
  - vm_compute. discriminate.
Defined.

Lemma rebroadcast_rechecks_membership_witness :
  (handleTableEvent Examples.createK1 false Examples.db1).1 = true
  ∧ handleTableMessage_between (codec := Examples.createCodec)
      Examples.maxQueueLen Examples.leaveAll [Byte.x01] false Examples.db1
    = Examples.leaveAll (handleTableEvent Examples.createK1 false Examples.db1).2.
Proof.
  split; [reflexivity|].
  apply (rebroadcast_rechecks_membership (codec := Examples.createCodec)
           Examples.maxQueueLen Examples.leaveAll [Byte.x01] false
           Examples.db1 Examples.createK1
           (handleTableEvent Examples.createK1 false Examples.db1).2
           eq_refl ltac:(vm_compute; discriminate) eq_refl).
  left. reflexivity.
Defined.

(** ** Node events *)


Lemma findNode_active name nDB n :
  nodes nDB !! name = Some n → findNode name nDB = Some (n, nodeActiveState).
Proof. intros H. unfold findNode. by rewrite H. Qed.

Lemma changeNodeState_networkClock name st nDB moved nDB' :
  changeNodeState name st nDB = Some (moved, nDB') →
  networkClock nDB' = networkClock nDB.
Proof.
  unfold changeNodeState. destruct (findNode name nDB) as [[n cur]|]; [|done].
  destruct (decide _); [by intros [= _ <-]|].
  destruct st; by intros [= _ <-].
Qed.

Lemma handleNodeEvent_networkClock nEvent nDB :
  networkClock (handleNodeEvent nEvent nDB).2
    = Witness (networkClock nDB) (ne_LTime nEvent).
Proof.
  unfold handleNodeEvent.
  destruct (findNode _ _) as [[n st]|]; [|reflexivity].
  destruct (_ <=? _)%N; [reflexivity|].
  match goal with
  | |- networkClock (match nodes ?s0 !! _ with _ => _ end).2 = _ =>
      assert (Hs : networkClock s0 = Witness (networkClock nDB) (ne_LTime nEvent))
        by (by destruct st);
      revert Hs; generalize s0; intros s Hs
  end.
  destruct (nodes s !! _); [|exact Hs].
  destruct (ne_Type nEvent); [exact Hs| |];
    (destruct (changeNodeState _ _ s) as [[moved s']|] eqn:Hch; [|exact Hs]);
    cbn [snd]; by rewrite (changeNodeState_networkClock _ _ _ _ _ Hch).
Qed.

Lemma handleNodeEvent_known_fresh nEvent nDB n :
  nodes nDB !! ne_NodeName nEvent = Some n →
  node_Name n = ne_NodeName nEvent →
  (node_ltime n < ne_LTime nEvent)%N →
  handleNodeEvent nEvent nDB =
    let name := ne_NodeName nEvent in
    let n' := node_with_ltime (ne_LTime nEvent) n in
    let s1 :=
      set_nodes (<[name := n']> (nodes nDB))
        (set_networkClock (Witness (networkClock nDB) (ne_LTime nEvent)) nDB) in
    match ne_Type nEvent with
    | NodeEventTypeLeave =>
        (true,
         set_leftNodes (<[name := n']> (leftNodes nDB))
           (set_nodes (delete name (nodes s1)) s1))
    | _ => (false, s1)
    end.
Proof.
  intros Hn Hname Hlt. unfold handleNodeEvent.
  replace (findNode (ne_NodeName nEvent)
             (set_networkClock (Witness (networkClock nDB) (ne_LTime nEvent)) nDB))
    with (findNode (ne_NodeName nEvent) nDB) by reflexivity.
  rewrite (findNode_active _ _ _ Hn).
  apply N.leb_gt in Hlt. rewrite Hlt. cbn [storeNode]. store_simpl.
  rewrite lookup_insert_eq.
  unfold changeNodeState, findNode. store_simpl.
  cbn [node_with_ltime node_Name]. rewrite Hname, lookup_insert_eq.
  destruct (ne_Type nEvent); reflexivity.
Qed.

(** C7.  [handleNodeEvent] witnesses the network clock.  It returns
    false when the named node is not in [nDB.nodes] (unknown to the
    membership layer) and when the event's Lamport time does not
    strictly exceed the time stored for the node.  Otherwise a Join
    leaves the node active and a Leave leaves it left, and the result
    is true exactly when the node's state changed. *)
Theorem node_event_rule nEvent nDB :
  let name := ne_NodeName nEvent in
  let r := handleNodeEvent nEvent nDB in
  networkClock r.2 = N.max (networkClock nDB) (ne_LTime nEvent)
  ∧ (nodes nDB !! name = None → r.1 = false)
  ∧ (∀ n st, findNode name nDB = Some (n, st) →
             (ne_LTime nEvent ≤ node_ltime n)%N → r.1 = false)
  ∧ (∀ n, nodes nDB !! name = Some n → node_Name n = name →
          (node_ltime n < ne_LTime nEvent)%N →
          match ne_Type nEvent with
          | NodeEventTypeJoin =>
              stateOf name r.2 = Some nodeActiveState
              ∧ (r.1 = true ↔ stateOf name r.2 ≠ stateOf name nDB)
          | NodeEventTypeLeave =>
              stateOf name r.2 = Some nodeLeftState
              ∧ (r.1 = true ↔ stateOf name r.2 ≠ stateOf name nDB)
          | NodeEventTypeInvalid => r.1 = false
          end).
Proof.
  intros name r. subst r name.
  split; [apply handleNodeEvent_networkClock|].
  split; [|split].
  - intros Hnone. unfold handleNodeEvent.
    replace (findNode (ne_NodeName nEvent)
               (set_networkClock (Witness (networkClock nDB) (ne_LTime nEvent)) nDB))
      with (findNode (ne_NodeName nEvent) nDB) by reflexivity.
    unfold findNode. rewrite Hnone.
    destruct (leftNodes nDB !! _) as [n|]; [|reflexivity].
    destruct (_ <=? _)%N; [reflexivity|].
    cbn [storeNode]. store_simpl. by rewrite Hnone.
  - intros n st Hfind Hle. unfold handleNodeEvent.
    replace (findNode (ne_NodeName nEvent)
               (set_networkClock (Witness (networkClock nDB) (ne_LTime nEvent)) nDB))
      with (findNode (ne_NodeName nEvent) nDB) by reflexivity.
    rewrite Hfind. apply N.leb_le in Hle. by rewrite Hle.
  - intros n Hn Hname Hlt.
    rewrite (handleNodeEvent_known_fresh _ _ _ Hn Hname Hlt). cbv zeta.
    unfold stateOf. rewrite (findNode_active _ _ _ Hn).
    destruct (ne_Type nEvent); [reflexivity| |]; cbn [fst snd];
      unfold findNode; store_simpl.
    + rewrite lookup_insert_eq. cbn. split; [reflexivity|]. split; [discriminate|congruence].
    + rewrite lookup_delete_eq, lookup_insert_eq. cbn.
      split; [reflexivity|]. split; [discriminate|reflexivity].
Qed.

Lemma node_event_rule_witness :
  let nEvent := mkNodeEvent NodeEventTypeLeave 5%N "a" in
  nodes Examples.db1 !! "a" = Some (mknode "a" [] 1%N 0)
  ∧ (handleNodeEvent nEvent Examples.db1).1 = true
  ∧ stateOf "a" (handleNodeEvent nEvent Examples.db1).2 = Some nodeLeftState.
Proof.
  intros nEvent. split; [reflexivity|].
  destruct (node_event_rule nEvent Examples.db1) as (_ & _ & _ & Hknown).
  destruct (Hknown (mknode "a" [] 1%N 0) eq_refl eq_refl
              ltac:(vm_compute; reflexivity)) as [Hstate Hmoved].
  split; [|exact Hstate].
  apply Hmoved. rewrite Hstate. vm_compute. discriminate.
Defined.

(** A Join for a node that has left, and so is not in [nDB.nodes], is
    dropped: the node stays left and only its Lamport time moves. *)
Example join_of_left_node_is_dropped :
  let nEvent := mkNodeEvent NodeEventTypeJoin 5%N "c" in
  let r := handleNodeEvent nEvent Examples.db1_left in
  stateOf "c" Examples.db1_left = Some nodeLeftState
  ∧ r.1 = false
  ∧ stateOf "c" r.2 = Some nodeLeftState
  ∧ leftNodes r.2 !! "c" = Some (mknode "c" [] 5%N 0).
Proof. vm_compute. auto. Qed.

(** ** Merging a push-pull snapshot *)

Lemma registry_addNetworkNode nid name nDB :
  registry (addNetworkNode nid name nDB) = registry nDB.
Proof. unfold addNetworkNode. by destruct (nodePresent_loop _ _). Qed.

Lemma networks_addNetworkNode nid name nDB :
  networks (addNetworkNode nid name nDB) = networks nDB.
Proof. unfold addNetworkNode. by destruct (nodePresent_loop _ _). Qed.

Lemma registry_deleteNetworkNode nid name nDB :
  registry (deleteNetworkNode nid name nDB) = registry nDB.
Proof. unfold deleteNetworkNode. by destruct (networkNodes nDB !! nid). Qed.

Lemma registry_deleteNodeNetworkEntries nid name nDB :
  registry (deleteNodeNetworkEntries nid name nDB) = registry nDB.
Proof. reflexivity. Qed.

Lemma registry_storeNetwork name nid n nDB :
  registry (storeNetwork name nid n nDB) = registry nDB.
Proof. reflexivity. Qed.

Lemma registry_set_networkClock c nDB :
  registry (set_networkClock c nDB) = registry nDB.
Proof. reflexivity. Qed.

Lemma registry_set_networks m nDB :
  registry (set_networks m nDB) = registry nDB.
Proof. reflexivity. Qed.

Create Rewrite HintDb registry.
#[local] Hint Rewrite registry_addNetworkNode registry_deleteNetworkNode
  registry_deleteNodeNetworkEntries registry_storeNetwork
  registry_set_networkClock registry_set_networks : registry.

(** A network event never touches the node registry or the
    configuration. *)
Lemma handleNetworkEvent_registry nEvent nDB :
  registry (handleNetworkEvent nEvent nDB).2 = registry nDB.
Proof.
  unfold handleNetworkEvent.
  repeat match goal with
         | |- context [decide ?P] => destruct (decide P)
         | |- context [bool_decide ?P] => destruct (bool_decide P)
         | |- context [match ?m !! ?k with _ => _ end] => destruct (m !! k)
         | |- context [(?a <=? ?b)%N] => destruct (a <=? b)%N
         | _ => progress cbn [fst snd]
         end;
    by autorewrite with registry.
Qed.

Lemma recorded_registry r nDB nDB' :
  registry nDB' = registry nDB → recorded r nDB' ↔ recorded r nDB.
Proof. unfold registry, recorded. intros [= -> _ ->]. tauto. Qed.

Lemma membership_storeNetwork name nid n nDB name' nid' :
  membership name' nid' (storeNetwork name nid n nDB) =
    if decide (name' = name ∧ nid' = nid) then Some n
    else membership name' nid' nDB.
Proof.
  unfold membership, storeNetwork. store_simpl.
  destruct (decide (name' = name)) as [->|Hname].
  - rewrite lookup_insert_eq. cbn.
    destruct (decide (nid' = nid)) as [->|Hnid].
    + rewrite lookup_insert_eq. by rewrite decide_True.
    + rewrite lookup_insert_ne by done. rewrite decide_False by tauto.
      by destruct (networks nDB !! name).
  - rewrite lookup_insert_ne by done. by rewrite decide_False by tauto.
Qed.

Lemma membership_addNetworkNode nid name nDB name' nid' :
  membership name' nid' (addNetworkNode nid name nDB) = membership name' nid' nDB.
Proof. unfold membership. by rewrite networks_addNetworkNode. Qed.

Lemma lookup2_insert_empty (m : gmap string (gmap string network))
    (name name' nid' : string) :
  m !! name = None →
  <[name := ∅]> m !! name' ≫= (.!! nid') = m !! name' ≫= (.!! nid').
Proof.
  intros Hnone. destruct (decide (name' = name)) as [->|Hname].
  - by rewrite lookup_insert_eq, Hnone.
  - by rewrite lookup_insert_ne.
Qed.

(** Merging one record about a pair the store has no record of. *)
Lemma mergeNetworkEntry_membership nDB r name nid :
  membership (nen_NodeName r) (nen_NetworkID r) nDB = None →
  membership name nid (mergeNetworkEntry nDB r) =
    if decide (name = nen_NodeName r ∧ nid = nen_NetworkID r ∧ recorded r nDB)
    then Some (mknetwork (nen_LTime r) false 0 false [])
    else membership name nid nDB.
Proof.
  intros Hfresh.
  assert (Hstep :
    membership name nid (mergeNetworkEntry nDB r) =
      if decide (recorded r nDB)
      then membership name nid
             (storeNetwork (nen_NodeName r) (nen_NetworkID r)
                (mknetwork (nen_LTime r) false 0 false []) nDB)
      else membership name nid nDB).
  { unfold mergeNetworkEntry, handleNetworkEvent.
    cbn [nwe_Type nwe_LTime nwe_NodeName nwe_NetworkID]. store_simpl.
    destruct (decide (recorded r nDB)) as [(Hl & Hown & [n Hnode])|Hnot].
    - rewrite Hl. rewrite decide_False by done.
      rewrite bool_decide_eq_false_2 by done.
      unfold membership in Hfresh.
      destruct (networks nDB !! nen_NodeName r) as [nn|] eqn:Hnn.
      + cbn in Hfresh. rewrite Hfresh. store_simpl. rewrite Hnode. cbn [snd].
        by rewrite membership_addNetworkNode, !membership_storeNetwork.
      + rewrite lookup_empty. store_simpl. rewrite Hnode. cbn [snd].
        rewrite membership_addNetworkNode, !membership_storeNetwork.
        destruct (decide _); [done|]. unfold membership. store_simpl.
        by apply lookup2_insert_empty.
    - unfold recorded in Hnot.
      destruct (decide (nen_NodeName r = NodeID (config nDB))) as [Hown|Hown];
        [done|].
      unfold membership in Hfresh.
      destruct (nen_Leaving r) eqn:Hl.
      + rewrite bool_decide_eq_true_2 by done.
        destruct (networks nDB !! nen_NodeName r) as [nn|] eqn:Hnn; [|done].
        cbn in Hfresh. by rewrite Hfresh.
      + rewrite bool_decide_eq_false_2 by done.
        destruct (nodes nDB !! nen_NodeName r) as [n|] eqn:Hnode;
          [exfalso; apply Hnot; eauto|].
        destruct (networks nDB !! nen_NodeName r) as [nn|] eqn:Hnn.
        * cbn in Hfresh. rewrite Hfresh. store_simpl. by rewrite Hnode.
        * rewrite lookup_empty. store_simpl. rewrite Hnode. cbn [snd].
          unfold membership. store_simpl. by apply lookup2_insert_empty. }
  rewrite Hstep, membership_storeNetwork.
  destruct (decide (recorded r nDB)) as [Hrec|Hrec].
  - destruct (decide (name = nen_NodeName r ∧ nid = nen_NetworkID r)).
    + rewrite decide_True; [done|]. tauto.
    + rewrite decide_False; [done|]. tauto.
  - rewrite decide_False; [done|]. tauto.
Qed.

Lemma mergeNetworkEntry_registry nDB r :
  registry (mergeNetworkEntry nDB r) = registry nDB.
Proof. apply handleNetworkEvent_registry. Qed.

(** Merging a list of records about distinct pairs, none of which the
    store has a record of. *)
Lemma foldl_mergeNetworkEntry l :
  ∀ nDB,
    NoDup (pairOf <$> l) →
    (∀ r, r ∈ l → membership (nen_NodeName r) (nen_NetworkID r) nDB = None) →
    registry (foldl mergeNetworkEntry nDB l) = registry nDB
    ∧ ∀ name nid nw,
        membership name nid (foldl mergeNetworkEntry nDB l) = Some nw ↔
          membership name nid nDB = Some nw
          ∨ ∃ r, r ∈ l ∧ nen_NodeName r = name ∧ nen_NetworkID r = nid
                 ∧ recorded r nDB
                 ∧ nw = mknetwork (nen_LTime r) false 0 false [].
Proof.
  induction l as [|r l IH]; intros nDB Hnodup Hfresh.
  - split; [reflexivity|]. intros name nid nw. cbn. split; [by left|].
    intros [H|(r & Hr & _)]; [done|]. by apply elem_of_nil in Hr.
  - rewrite fmap_cons in Hnodup. apply NoDup_cons in Hnodup as [Hnotin Hnodup].
    cbn [foldl].
    assert (Hfresh' : ∀ r', r' ∈ l →
              membership (nen_NodeName r') (nen_NetworkID r')
                (mergeNetworkEntry nDB r) = None).
    { intros r' Hr'. rewrite mergeNetworkEntry_membership
        by (apply Hfresh; left).
      rewrite decide_False; [apply Hfresh; by right|].
      intros (Hn & Hi & _). apply Hnotin.
      apply list_elem_of_fmap. exists r'. split; [|done].
      unfold pairOf. by rewrite Hn, Hi. }
    destruct (IH (mergeNetworkEntry nDB r) Hnodup Hfresh') as [Hreg Hmem].
    split; [by rewrite Hreg, mergeNetworkEntry_registry|].
    intros name nid nw. rewrite Hmem.
    rewrite mergeNetworkEntry_membership by (apply Hfresh; left).
    split.
    + intros [H|(r' & Hr' & Hn & Hi & Hrec & Hnw)].
      * destruct (decide _) as [(-> & -> & Hrec)|_]; [|by left].
        right. exists r. split; [left|]. injection H as <-. done.
      * right. exists r'. split; [by right|].
        apply (recorded_registry r' _ _ (mergeNetworkEntry_registry nDB r))
          in Hrec. done.
    + intros [H|(r' & Hr' & Hn & Hi & Hrec & Hnw)].
      * left. rewrite decide_False; [done|].
        intros (-> & -> & _). rewrite Hfresh in H by left. done.
      * apply elem_of_cons in Hr' as [->|Hr'].
        -- left. rewrite decide_True by done. by rewrite Hnw.
        -- right. exists r'. split; [done|].
           apply (recorded_registry r' _ _ (mergeNetworkEntry_registry nDB r))
             in Hrec. done.
Qed.

Lemma stateOf_lookup name nDB :
  stateOf name nDB =
    match nodes nDB !! name with
    | Some _ => Some nodeActiveState
    | None =>
        match leftNodes nDB !! name with
        | Some _ => Some nodeLeftState
        | None => None
        end
    end.
Proof.
  unfold stateOf, findNode.
  destruct (nodes nDB !! name); [done|]. by destruct (leftNodes nDB !! name).
Qed.

(** The Join that [MergeRemoteState] synthesizes for the sender moves no
    node: whoever was active or left stays so. *)
Lemma handleNodeEvent_join_frame nEvent nDB :
  registryNamed nDB →
  ne_Type nEvent = NodeEventTypeJoin →
  let s := (handleNodeEvent nEvent nDB).2 in
  networks s = networks nDB
  ∧ config s = config nDB
  ∧ (∀ name, is_Some (nodes s !! name) ↔ is_Some (nodes nDB !! name))
  ∧ (∀ name, is_Some (leftNodes s !! name) ↔ is_Some (leftNodes nDB !! name)).
Proof.
  intros [Hnamed _] Hjoin. cbv zeta.
  destruct (nodes nDB !! ne_NodeName nEvent) as [n|] eqn:Hn.
  - destruct (decide (node_ltime n < ne_LTime nEvent)%N) as [Hlt|Hge].
    + rewrite (handleNodeEvent_known_fresh _ _ _ Hn (Hnamed _ _ Hn) Hlt).
      rewrite Hjoin. cbv zeta. store_simpl.
      split; [done|]. split; [done|]. split; [|done].
      intros name. destruct (decide (name = ne_NodeName nEvent)) as [->|Hne].
      * rewrite lookup_insert_eq, Hn. split; eauto.
      * by rewrite lookup_insert_ne.
    + unfold handleNodeEvent.
      replace (findNode (ne_NodeName nEvent)
                 (set_networkClock (Witness (networkClock nDB) (ne_LTime nEvent)) nDB))
        with (findNode (ne_NodeName nEvent) nDB) by reflexivity.
      rewrite (findNode_active _ _ _ Hn).
      rewrite (proj2 (N.leb_le _ _)) by lia. done.
  - unfold handleNodeEvent.
    replace (findNode (ne_NodeName nEvent)
               (set_networkClock (Witness (networkClock nDB) (ne_LTime nEvent)) nDB))
      with (findNode (ne_NodeName nEvent) nDB) by reflexivity.
    unfold findNode. rewrite Hn.
    destruct (leftNodes nDB !! ne_NodeName nEvent) as [n|] eqn:Hleft; [|done].
    destruct (_ <=? _)%N; [done|].
    cbn [storeNode]. store_simpl. rewrite Hn. store_simpl.
    split; [done|]. split; [done|]. split; [done|].
    intros name. destruct (decide (name = ne_NodeName nEvent)) as [->|Hne].
    + rewrite lookup_insert_eq, Hleft. split; eauto.
    + by rewrite lookup_insert_ne.
Qed.

Section Merge.
Context {codec : Codec}.

(** C4, as the code has it.  Take a snapshot whose records are about
    pairwise distinct (node, network) pairs and a local store with no
    network records whose nodes are registered under their names.
    After [MergeRemoteState] every node has the membership state it
    had before, so the sender is not added to the registry, and the
    stored (node, network) records are exactly the snapshot's records
    that are not leaving, are not about the local node and whose node
    is already in [nDB.nodes]; each carries the snapshot's Lamport
    time and is not leaving.  On an empty store nothing is stored. *)
Theorem merge_remote_state_known_nodes buf isJoin nDB gMsg pp :
  buf ≠ [] →
  unmarshal_GossipMessage buf = Some gMsg →
  unmarshal_NetworkPushPull (gm_Data gMsg) = Some pp →
  registryNamed nDB →
  networks nDB = ∅ →
  NoDup (pairOf <$> pp_Networks pp) →
  let after := MergeRemoteState buf isJoin nDB in
  (∀ name, stateOf name after = stateOf name nDB)
  ∧ (∀ name nid nw,
       membership name nid after = Some nw ↔
         ∃ r, r ∈ pp_Networks pp
              ∧ nen_NodeName r = name ∧ nen_NetworkID r = nid
              ∧ recorded r nDB
              ∧ nw = mknetwork (nen_LTime r) false 0 false [])
  ∧ (nodes nDB = ∅ → ∀ name nid, membership name nid after = None).
Proof.
  intros Hbuf Hg Hpp Hnamed Hnone Hnodup after.
  assert (Hafter : after = mergePushPull pp nDB).
  { subst after. unfold MergeRemoteState. destruct buf; [done|].
    cbn [length Nat.eqb]. by rewrite Hg, Hpp. }
  unfold mergePushPull in Hafter.
  set (s0 := (handleNodeEvent
                (mkNodeEvent NodeEventTypeJoin (pp_LTime pp) (pp_NodeName pp))
                nDB).2) in *.
  destruct (handleNodeEvent_join_frame
              (mkNodeEvent NodeEventTypeJoin (pp_LTime pp) (pp_NodeName pp))
              nDB Hnamed eq_refl) as (Hnets & Hcfg & Hnodes & Hleft).
  fold s0 in Hnets, Hcfg, Hnodes, Hleft.
  assert (Hfresh : ∀ r, r ∈ pp_Networks pp →
            membership (nen_NodeName r) (nen_NetworkID r) s0 = None).
  { intros r _. unfold membership. by rewrite Hnets, Hnone, lookup_empty. }
  destruct (foldl_mergeNetworkEntry (pp_Networks pp) s0 Hnodup Hfresh)
    as [Hreg Hmem].
  rewrite <- Hafter in Hreg, Hmem.
  assert (Hrec : ∀ r, recorded r s0 ↔ recorded r nDB).
  { intros r. unfold recorded. rewrite Hcfg, Hnodes. tauto. }
  assert (Hmem' : ∀ name nid nw,
       membership name nid after = Some nw ↔
         ∃ r, r ∈ pp_Networks pp
              ∧ nen_NodeName r = name ∧ nen_NetworkID r = nid
              ∧ recorded r nDB
              ∧ nw = mknetwork (nen_LTime r) false 0 false []).
  { intros name nid nw. rewrite Hmem. split.
    - intros [H|(r & Hr & Hn & Hi & Hr' & Hnw)].
      + unfold membership in H. by rewrite Hnets, Hnone, lookup_empty in H.
      + exists r. by rewrite <- Hrec.
    - intros (r & Hr & Hn & Hi & Hr' & Hnw). right. exists r.
      by rewrite Hrec. }
  split; [|split; [exact Hmem'|]].
  - intros name. rewrite !stateOf_lookup.
    unfold registry in Hreg. injection Hreg as -> -> _.
    specialize (Hnodes name). specialize (Hleft name).
    destruct (nodes s0 !! name), (nodes nDB !! name),
      (leftNodes s0 !! name), (leftNodes nDB !! name);
      try done.
    all: try (destruct Hnodes as [H1 H2];
           first [by destruct (H1 ltac:(eauto)) | by destruct (H2 ltac:(eauto))]).
    all: try (destruct Hleft as [H1 H2];
           first [by destruct (H1 ltac:(eauto)) | by destruct (H2 ltac:(eauto))]).
  - intros Hempty name nid.
    destruct (membership name nid after) as [nw|] eqn:Hm; [|done].
    apply Hmem' in Hm as (r & _ & _ & _ & (_ & _ & [n Hn]) & _).
    by rewrite Hempty, lookup_empty in Hn.
Qed.

End Merge.

Lemma registryNamed_db1 : registryNamed Examples.db1.
Proof.
  split.
  - apply (bool_decide_unpack (map_Forall (λ k n, node_Name n = k) (nodes Examples.db1))).
    vm_compute. exact I.
  - intros k n H. vm_compute in H. discriminate.
Defined.

Lemma merge_remote_state_known_nodes_witness :
  stateOf "a" (MergeRemoteState (codec := Examples.snapshotCodec)
                 [Byte.x04] false Examples.db1) = Some nodeActiveState
  ∧ membership "a" "n1"
      (MergeRemoteState (codec := Examples.snapshotCodec)
         [Byte.x04] false Examples.db1)
    = Some (mknetwork 2%N false 0 false [])
  ∧ membership "c" "n1"
      (MergeRemoteState (codec := Examples.snapshotCodec)
         [Byte.x04] false Examples.db1)
    = None.
Proof.
  destruct (merge_remote_state_known_nodes (codec := Examples.snapshotCodec)
              [Byte.x04] false Examples.db1
              (mkGossipMessage MessageTypePushPull [Byte.x04])
              Examples.snapshot ltac:(discriminate) eq_refl eq_refl
              registryNamed_db1 eq_refl
              ltac:(apply (bool_decide_unpack _); vm_compute; exact I))
    as (Hstate & Hmem & _).
  split; [by rewrite Hstate|]. split.
  - apply Hmem. exists (mkNetworkEntry 2%N "n1" "a" false).
    split; [left|]. split; [reflexivity|]. split; [reflexivity|].
    split; [|reflexivity].
    split; [reflexivity|]. split; [discriminate|]. vm_compute. eauto.
  - reflexivity.
Defined.

(** C4 as stated fails: merged into an empty store, the snapshot leaves
    the node registry empty, the sender unknown and no (node, network)
    record stored. *)
Lemma merge_into_empty_store_records_nothing :
  let after :=
    MergeRemoteState (codec := Examples.snapshotCodec) [Byte.x04] false
      Examples.emptyDB in
  nodes after = ∅
  ∧ stateOf (pp_NodeName Examples.snapshot) after = None
  ∧ membership "a" "n1" after = None
  ∧ ¬ snapshotMerged Examples.snapshot after.
Proof.
  intros after. split; [reflexivity|]. split; [reflexivity|].
  split; [reflexivity|]. intros [Hsender _]. vm_compute in Hsender.
  discriminate.
Qed.

(** * Further properties of the handlers *)

(** ** Network events *)

Lemma networks_deleteNetworkNode nid name nDB :
  networks (deleteNetworkNode nid name nDB) = networks nDB.
Proof. unfold deleteNetworkNode. by destruct (networkNodes nDB !! nid). Qed.

Lemma membership_deleteNetworkNode nid name nDB name' nid' :
  membership name' nid' (deleteNetworkNode nid name nDB)
    = membership name' nid' nDB.
Proof. unfold membership. by rewrite networks_deleteNetworkNode. Qed.

Lemma membership_deleteNodeNetworkEntries nid name nDB name' nid' :
  membership name' nid' (deleteNodeNetworkEntries nid name nDB)
    = membership name' nid' nDB.
Proof. reflexivity. Qed.

(** What [handleNetworkEvent] returns and the membership records it
    leaves, case by case. *)
Lemma handleNetworkEvent_cases nEvent nDB :
  let r := handleNetworkEvent nEvent nDB in
  let old := membership (nwe_NodeName nEvent) (nwe_NetworkID nEvent) nDB in
  (acceptsNetworkEvent nEvent nDB →
     r.1 = true
     ∧ ∀ name nid,
         membership name nid r.2 =
           membership name nid
             (storeNetwork (nwe_NodeName nEvent) (nwe_NetworkID nEvent)
                (appliedNetwork (config nDB) nEvent old) nDB))
  ∧ (¬ acceptsNetworkEvent nEvent nDB →
       r.1 = false
       ∧ ∀ name nid, membership name nid r.2 = membership name nid nDB).
Proof.
  cbv zeta. unfold acceptsNetworkEvent.
  destruct (decide (nwe_NodeName nEvent = NodeID (config nDB))) as [Hown|Hown].
  { unfold handleNetworkEvent. store_simpl. rewrite decide_True by done.
    split; [tauto|]. done. }
  assert (Hold : membership (nwe_NodeName nEvent) (nwe_NetworkID nEvent) nDB
                 = networks nDB !! nwe_NodeName nEvent
                     ≫= (.!! nwe_NetworkID nEvent)) by reflexivity.
  unfold handleNetworkEvent. store_simpl. rewrite decide_False by done.
  destruct (networks nDB !! nwe_NodeName nEvent) as [nn|] eqn:Hnn;
    cbn [mbind option_bind] in Hold.
  - destruct (nn !! nwe_NetworkID nEvent) as [n|] eqn:Hn; rewrite Hold.
    + destruct (nwe_LTime nEvent <=? network_ltime n)%N eqn:Hle.
      * apply N.leb_le in Hle. split; [intros [_ ?]; lia|done].
      * split; [|apply N.leb_gt in Hle; tauto]. intros _.
        split; [done|]. intros name nid. cbn [snd appliedNetwork].
        destruct (bool_decide _).
        -- by rewrite membership_deleteNetworkNode,
             membership_deleteNodeNetworkEntries.
        -- by rewrite membership_addNetworkNode.
    + destruct (bool_decide (nwe_Type nEvent = NetworkEventTypeLeave)) eqn:Hl.
      * apply bool_decide_eq_true in Hl. split; [tauto|done].
      * apply bool_decide_eq_false in Hl. store_simpl.
        destruct (nodes nDB !! nwe_NodeName nEvent) as [nd|] eqn:Hnode.
        -- split; [|intros Hno; exfalso; apply Hno; eauto]. intros _.
           split; [done|]. intros name nid. cbn [snd appliedNetwork].
           by rewrite membership_addNetworkNode.
        -- split; [intros (_ & _ & [? ?]); done|done].
  - rewrite Hold.
    destruct (bool_decide (nwe_Type nEvent = NetworkEventTypeLeave)) eqn:Hl.
    + apply bool_decide_eq_true in Hl. split; [tauto|done].
    + apply bool_decide_eq_false in Hl. rewrite lookup_empty. store_simpl.
      destruct (nodes nDB !! nwe_NodeName nEvent) as [nd|] eqn:Hnode.
      * split; [|intros Hno; exfalso; apply Hno; eauto]. intros _.
        split; [done|]. intros name nid. cbn [snd appliedNetwork].
        rewrite membership_addNetworkNode, !membership_storeNetwork.
        destruct (decide _); [done|]. unfold membership. store_simpl.
        by apply lookup2_insert_empty.
      * split; [intros (_ & _ & [? ?]); done|]. intros _. split; [done|].
        intros name nid. cbn [snd]. unfold membership. store_simpl.
        by apply lookup2_insert_empty.
Qed.

Lemma set_networkClock_id nDB : set_networkClock (networkClock nDB) nDB = nDB.
Proof. by destruct nDB. Qed.

Lemma Witness_idem c t : Witness (Witness c t) t = Witness c t.
Proof. unfold Witness. lia. Qed.

Lemma Witness_bounds c t : (c ≤ Witness c t)%N ∧ (t ≤ Witness c t)%N.
Proof. unfold Witness. lia. Qed.

Lemma witnessNetworkClock_idem t nDB :
  witnessNetworkClock t (witnessNetworkClock t nDB) = witnessNetworkClock t nDB.
Proof.
  unfold witnessNetworkClock, set_networkClock. cbn.
  by rewrite Witness_idem.
Qed.

Lemma handleNetworkEvent_networkClock nEvent nDB :
  networkClock (handleNetworkEvent nEvent nDB).2
    = Witness (networkClock nDB) (nwe_LTime nEvent).
Proof.
  unfold handleNetworkEvent.
  repeat match goal with
         | |- context [decide ?P] => destruct (decide P)
         | |- context [bool_decide ?P] => destruct (bool_decide P)
         | |- context [match ?m !! ?k with _ => _ end] => destruct (m !! k)
         | |- context [(?a <=? ?b)%N] => destruct (a <=? b)%N
         | _ => progress cbn [fst snd]
         end;
    repeat match goal with
           | |- context [addNetworkNode ?a ?b ?c] =>
               unfold addNetworkNode; destruct (nodePresent_loop _ _)
           | |- context [deleteNetworkNode ?a ?b ?c] =>
               unfold deleteNetworkNode;
               destruct (networkNodes _ !! _)
           end; reflexivity.
Qed.

(** The rejections of [handleNetworkEvent] that leave the store as it
    was, the clock apart. *)
Lemma handleNetworkEvent_rejects nEvent nDB :
  nwe_NodeName nEvent = NodeID (config nDB)
  ∨ (∃ n, membership (nwe_NodeName nEvent) (nwe_NetworkID nEvent) nDB = Some n
          ∧ (nwe_LTime nEvent ≤ network_ltime n)%N)
  ∨ (membership (nwe_NodeName nEvent) (nwe_NetworkID nEvent) nDB = None
     ∧ nwe_Type nEvent = NetworkEventTypeLeave)
  ∨ (membership (nwe_NodeName nEvent) (nwe_NetworkID nEvent) nDB = None
     ∧ is_Some (networks nDB !! nwe_NodeName nEvent)
     ∧ nodes nDB !! nwe_NodeName nEvent = None) →
  handleNetworkEvent nEvent nDB = (false, witnessNetworkClock (nwe_LTime nEvent) nDB).
Proof.
  unfold membership, witnessNetworkClock, handleNetworkEvent. store_simpl.
  intros Hcase.
  destruct (decide (nwe_NodeName nEvent = NodeID (config nDB))) as [Hown|Hown];
    [done|].
  destruct Hcase as [?|Hcase]; [done|].
  destruct (networks nDB !! nwe_NodeName nEvent) as [nn|] eqn:Hnn;
    cbn [mbind option_bind] in Hcase.
  - destruct Hcase as [(n & Hn & Hle)|[[Hn Hl]|(Hn & _ & Hnode)]].
    + rewrite Hn. apply N.leb_le in Hle. by rewrite Hle.
    + rewrite Hn. by rewrite bool_decide_eq_true_2.
    + rewrite Hn. store_simpl. rewrite Hnode. by destruct (bool_decide _).
  - destruct Hcase as [(n & Hn & _)|[[_ Hl]|(_ & [? ?] & _)]]; [done| |done].
    by rewrite bool_decide_eq_true_2.
Qed.

Lemma witnessNetworkClock_after t nDB c :
  networkClock nDB = Witness c t → witnessNetworkClock t nDB = nDB.
Proof.
  intros Hc. unfold witnessNetworkClock.
  rewrite Hc, Witness_idem, <- Hc. apply set_networkClock_id.
Qed.

(** A Join for an unknown pair of a node that is not in [nDB.nodes] and
    has no map of networks yet: the event is dropped, but the empty map
    made at lines 95-96 stays. *)
Lemma handleNetworkEvent_unknown_node nEvent nDB :
  nwe_NodeName nEvent ≠ NodeID (config nDB) →
  networks nDB !! nwe_NodeName nEvent = None →
  nwe_Type nEvent ≠ NetworkEventTypeLeave →
  nodes nDB !! nwe_NodeName nEvent = None →
  handleNetworkEvent nEvent nDB =
    (false,
     set_networks (<[nwe_NodeName nEvent := ∅]> (networks nDB))
       (witnessNetworkClock (nwe_LTime nEvent) nDB)).
Proof.
  intros Hown Hnn Hl Hnode. unfold handleNetworkEvent, witnessNetworkClock.
  store_simpl. rewrite decide_False by done. rewrite Hnn.
  rewrite bool_decide_eq_false_2 by done. rewrite lookup_empty. store_simpl.
  by rewrite Hnode.
Qed.

Lemma handleNetworkEvent_redelivered nEvent nDB :
  let s1 := (handleNetworkEvent nEvent nDB).2 in
  handleNetworkEvent nEvent s1 = (false, s1).
Proof.
  cbv zeta.
  pose proof (handleNetworkEvent_networkClock nEvent nDB) as Hclock.
  pose proof (handleNetworkEvent_registry nEvent nDB) as Hreg.
  destruct (handleNetworkEvent_cases nEvent nDB) as [Hyes Hno].
  cbv zeta in Hyes, Hno.
  destruct (decide (acceptsNetworkEvent nEvent nDB)) as [Hacc|Hacc].
  - destruct (Hyes Hacc) as [_ Hmem].
    specialize (Hmem (nwe_NodeName nEvent) (nwe_NetworkID nEvent)).
    rewrite membership_storeNetwork, decide_True in Hmem by done.
    rewrite handleNetworkEvent_rejects.
    + by rewrite (witnessNetworkClock_after _ _ _ Hclock).
    + right. left. eexists. split; [exact Hmem|].
      unfold appliedNetwork. destruct (membership _ _ nDB); cbn; lia.
  - destruct (Hno Hacc) as [_ Hmem].
    assert (Hstays : ∀ s,
              handleNetworkEvent nEvent nDB = (false, s) →
              handleNetworkEvent nEvent s = (false, witnessNetworkClock (nwe_LTime nEvent) s) →
              handleNetworkEvent nEvent (handleNetworkEvent nEvent nDB).2
              = (false, (handleNetworkEvent nEvent nDB).2)).
    { intros s Hfirst Hsecond. rewrite Hfirst in *. cbn [snd] in *.
      by rewrite Hsecond, (witnessNetworkClock_after _ _ _ Hclock). }
    unfold acceptsNetworkEvent in Hacc.
    destruct (decide (nwe_NodeName nEvent = NodeID (config nDB))) as [Hown|Hown].
    { apply (Hstays (witnessNetworkClock (nwe_LTime nEvent) nDB));
        apply handleNetworkEvent_rejects; by left. }
    destruct (membership (nwe_NodeName nEvent) (nwe_NetworkID nEvent) nDB)
      as [n|] eqn:Hold.
    { assert (nwe_LTime nEvent ≤ network_ltime n)%N by (apply N.nlt_ge; tauto).
      apply (Hstays (witnessNetworkClock (nwe_LTime nEvent) nDB));
        apply handleNetworkEvent_rejects; right; left; eauto. }
    destruct (decide (nwe_Type nEvent = NetworkEventTypeLeave)) as [Hl|Hl].
    { apply (Hstays (witnessNetworkClock (nwe_LTime nEvent) nDB));
        apply handleNetworkEvent_rejects; right; right; left; eauto. }
    destruct (nodes nDB !! nwe_NodeName nEvent) as [nd|] eqn:Hnode;
      [exfalso; apply Hacc; eauto|].
    destruct (networks nDB !! nwe_NodeName nEvent) as [nn|] eqn:Hnn.
    { apply (Hstays (witnessNetworkClock (nwe_LTime nEvent) nDB));
        apply handleNetworkEvent_rejects; right; right; right;
        (split; [exact Hold|]); (split; [|exact Hnode]);
        cbn; rewrite ?Hnn; eauto. }
    eapply Hstays.
    { by apply handleNetworkEvent_unknown_node. }
    apply handleNetworkEvent_rejects. right. right. right.
    unfold membership, witnessNetworkClock. store_simpl.
    rewrite lookup_insert_eq. cbn. rewrite lookup_empty. eauto.
Qed.

(** X1.  [handleNetworkEvent] returns true exactly when the event is
    not about the local node and either is strictly newer than the
    record of its (node, network) pair or, the pair having no record,
    is not a leave and names a node in [nDB.nodes]; it returns true
    exactly when the record of that pair changed, and the record of no
    other pair changes. *)
Theorem network_event_rebroadcast_rule nEvent nDB :
  let r := handleNetworkEvent nEvent nDB in
  let name := nwe_NodeName nEvent in
  let nid := nwe_NetworkID nEvent in
  (r.1 = true ↔ acceptsNetworkEvent nEvent nDB)
  ∧ (r.1 = true ↔ membership name nid r.2 ≠ membership name nid nDB)
  ∧ (∀ name' nid', (name', nid') ≠ (name, nid) →
       membership name' nid' r.2 = membership name' nid' nDB).
Proof.
  cbv zeta.
  destruct (handleNetworkEvent_cases nEvent nDB) as [Hyes Hno].
  cbv zeta in Hyes, Hno.
  destruct (decide (acceptsNetworkEvent nEvent nDB)) as [Hacc|Hacc].
  - destruct (Hyes Hacc) as [Hr Hmem]. rewrite Hr.
    split; [tauto|]. split.
    + split; [intros _|done]. rewrite Hmem, membership_storeNetwork.
      rewrite decide_True by done.
      unfold acceptsNetworkEvent in Hacc. destruct Hacc as [_ Hacc].
      destruct (membership _ _ nDB) as [n|]; [|done].
      intros [= Heq]. cbn in Heq. rewrite <- Heq in Hacc. cbn in Hacc. lia.
    + intros name' nid' Hne. rewrite Hmem, membership_storeNetwork.
      rewrite decide_False; [done|]. intros [-> ->]. done.
  - destruct (Hno Hacc) as [Hr Hmem]. rewrite Hr.
    split; [split; [done|tauto]|]. split.
    + split; [done|]. intros Hne. by rewrite Hmem in Hne.
    + intros name' nid' _. apply Hmem.
Qed.

Lemma addNetworkNode_member nid name nDB :
  name ∈ default [] (networkNodes (addNetworkNode nid name nDB) !! nid).
Proof.
  unfold addNetworkNode.
  destruct (nodePresent_loop _ _) eqn:Hin.
  - by apply nodePresent_loop_elem_of.
  - store_simpl. rewrite lookup_insert_eq. cbn. set_solver.
Qed.

Lemma deleteNetworkNode_not_member nid name nDB :
  name ∉ default [] (networkNodes (deleteNetworkNode nid name nDB) !! nid).
Proof.
  unfold deleteNetworkNode.
  destruct (networkNodes nDB !! nid) as [members|] eqn:Hm.
  - store_simpl. rewrite lookup_insert_eq. cbn.
    intros Hin. apply list_elem_of_In, filter_In in Hin as [_ Hin].
    by rewrite String.eqb_refl in Hin.
  - rewrite Hm. cbn. set_solver.
Qed.

Lemma handleNetworkEvent_members nEvent nDB :
  acceptsNetworkEvent nEvent nDB →
  let members :=
    default []
      (networkNodes (handleNetworkEvent nEvent nDB).2 !! nwe_NetworkID nEvent) in
  if bool_decide (nwe_Type nEvent = NetworkEventTypeLeave)
  then nwe_NodeName nEvent ∉ members
  else nwe_NodeName nEvent ∈ members.
Proof.
  unfold acceptsNetworkEvent. intros [Hown Hacc]. cbv zeta.
  assert (Hold : membership (nwe_NodeName nEvent) (nwe_NetworkID nEvent) nDB
                 = networks nDB !! nwe_NodeName nEvent
                     ≫= (.!! nwe_NetworkID nEvent)) by reflexivity.
  unfold handleNetworkEvent. store_simpl. rewrite decide_False by done.
  destruct (networks nDB !! nwe_NodeName nEvent) as [nn|] eqn:Hnn;
    cbn [mbind option_bind] in Hold.
  - destruct (nn !! nwe_NetworkID nEvent) as [n|] eqn:Hn; rewrite Hold in Hacc.
    + rewrite (proj2 (N.leb_gt _ _)) by done. cbn [snd].
      destruct (bool_decide _).
      * apply deleteNetworkNode_not_member.
      * apply addNetworkNode_member.
    + destruct Hacc as [Hl [nd Hnode]].
      rewrite bool_decide_eq_false_2 by done. store_simpl. rewrite Hnode.
      cbn [snd]. apply addNetworkNode_member.
  - rewrite Hold in Hacc. destruct Hacc as [Hl [nd Hnode]].
    rewrite bool_decide_eq_false_2 by done. rewrite lookup_empty.
    store_simpl. rewrite Hnode. cbn [snd]. apply addNetworkNode_member.
Qed.

Lemma handleNetworkEvent_thisNodeNetworks nEvent nDB :
  thisNodeNetworks (handleNetworkEvent nEvent nDB).2 = thisNodeNetworks nDB.
Proof.
  unfold handleNetworkEvent.
  repeat match goal with
         | |- context [decide ?P] => destruct (decide P)
         | |- context [bool_decide ?P] => destruct (bool_decide P)
         | |- context [match ?m !! ?k with _ => _ end] => destruct (m !! k)
         | |- context [(?a <=? ?b)%N] => destruct (a <=? b)%N
         | _ => progress cbn [fst snd]
         end;
    repeat match goal with
           | |- context [addNetworkNode ?a ?b ?c] =>
               unfold addNetworkNode; destruct (nodePresent_loop _ _)
           | |- context [deleteNetworkNode ?a ?b ?c] =>
               unfold deleteNetworkNode;
               destruct (networkNodes _ !! _)
           end; reflexivity.
Qed.

Lemma handleNetworkEvent_networks_local nEvent nDB :
  networks (handleNetworkEvent nEvent nDB).2 !! NodeID (config nDB)
    = networks nDB !! NodeID (config nDB).
Proof.
  unfold handleNetworkEvent. store_simpl.
  destruct (decide (nwe_NodeName nEvent = NodeID (config nDB))) as [Hown|Hown];
    [done|].
  repeat match goal with
         | |- context [bool_decide ?P] => destruct (bool_decide P)
         | |- context [match ?m !! ?k with _ => _ end] => destruct (m !! k)
         | |- context [(?a <=? ?b)%N] => destruct (a <=? b)%N
         | _ => progress cbn [fst snd]
         end;
    rewrite ?networks_deleteNetworkNode, ?networks_addNetworkNode;
    unfold deleteNodeNetworkEntries, storeNetwork; store_simpl;
    rewrite ?lookup_insert_ne by done; done.
Qed.

(** X4.  [handleNetworkEvent] never changes the configuration or the
    local node's own networks, and never makes or changes an entry for
    the local node among the records of the other nodes. *)
Theorem network_event_spares_local_node nEvent nDB :
  let s := (handleNetworkEvent nEvent nDB).2 in
  config s = config nDB
  ∧ thisNodeNetworks s = thisNodeNetworks nDB
  ∧ networks s !! NodeID (config s) = networks nDB !! NodeID (config nDB).
Proof.
  cbv zeta.
  pose proof (handleNetworkEvent_registry nEvent nDB) as Hreg.
  unfold registry in Hreg. injection Hreg as _ _ Hcfg.
  split; [exact Hcfg|]. split; [apply handleNetworkEvent_thisNodeNetworks|].
  rewrite Hcfg. apply handleNetworkEvent_networks_local.
Qed.

(** X2.  A network event that is applied leaves for its pair a record
    with the event's Lamport time; the record is leaving exactly for a
    Leave, which also sets its reap time to [reapNetworkInterval] (a
    Join of a known pair keeps the old reap time), and the node is
    taken out of the network's member list by a Leave and put in it
    otherwise. *)
Theorem network_event_applied_record nEvent nDB :
  acceptsNetworkEvent nEvent nDB →
  let old := membership (nwe_NodeName nEvent) (nwe_NetworkID nEvent) nDB in
  let isLeave := bool_decide (nwe_Type nEvent = NetworkEventTypeLeave) in
  ∃ n,
    membership (nwe_NodeName nEvent) (nwe_NetworkID nEvent)
      (handleNetworkEvent nEvent nDB).2 = Some n
    ∧ network_ltime n = nwe_LTime nEvent
    ∧ network_leaving n = isLeave
    ∧ network_reapTime n =
        (if isLeave then reapNetworkInterval (config nDB)
         else from_option network_reapTime 0 old)
    ∧ if isLeave
      then nwe_NodeName nEvent
             ∉ default []
                 (networkNodes (handleNetworkEvent nEvent nDB).2
                    !! nwe_NetworkID nEvent)
      else nwe_NodeName nEvent
             ∈ default []
                 (networkNodes (handleNetworkEvent nEvent nDB).2
                    !! nwe_NetworkID nEvent).
Proof.
  intros Hacc old isLeave.
  destruct (handleNetworkEvent_cases nEvent nDB) as [Hyes _].
  destruct (Hyes Hacc) as [_ Hmem].
  exists (appliedNetwork (config nDB) nEvent old).
  split.
  { rewrite Hmem, membership_storeNetwork. by rewrite decide_True. }
  pose proof (handleNetworkEvent_members nEvent nDB Hacc) as Hmembers.
  cbv zeta in Hmembers. fold isLeave in Hmembers.
  unfold acceptsNetworkEvent in Hacc. destruct Hacc as [_ Hacc].
  fold old in Hacc. unfold appliedNetwork. fold isLeave.
  destruct old as [n|]; cbn.
  - done.
  - destruct Hacc as [Hl _]. subst isLeave.
    rewrite bool_decide_eq_false_2 in * by done. done.
Qed.

(** X3.  [handleNetworkEvent] never removes a stored (node, network)
    record and never lowers its Lamport time. *)
Theorem network_event_records_monotone nEvent nDB name nid n :
  membership name nid nDB = Some n →
  ∃ n', membership name nid (handleNetworkEvent nEvent nDB).2 = Some n'
        ∧ (network_ltime n ≤ network_ltime n')%N.
Proof.
  intros Hn.
  destruct (handleNetworkEvent_cases nEvent nDB) as [Hyes Hno].
  cbv zeta in Hyes, Hno.
  destruct (decide (acceptsNetworkEvent nEvent nDB)) as [Hacc|Hacc].
  - destruct (Hyes Hacc) as [_ Hmem].
    rewrite Hmem, membership_storeNetwork.
    destruct (decide _) as [[-> ->]|_]; [|exists n; split; [done|lia]].
    eexists. split; [done|].
    unfold acceptsNetworkEvent in Hacc. rewrite Hn in Hacc.
    unfold appliedNetwork. rewrite Hn. cbn. lia.
  - destruct (Hno Hacc) as [_ Hmem]. rewrite Hmem. exists n. split; [done|lia].
Qed.

Lemma findNode_set_networkClock name c nDB :
  findNode name (set_networkClock c nDB) = findNode name nDB.
Proof. reflexivity. Qed.

(** A node event for a name that is in neither registry, or that is not
    newer than the node it names, leaves the store as it was, the clock
    apart. *)
Lemma handleNodeEvent_drops nEvent nDB :
  findNode (ne_NodeName nEvent) nDB = None
  ∨ (∃ n st, findNode (ne_NodeName nEvent) nDB = Some (n, st)
             ∧ (ne_LTime nEvent ≤ node_ltime n)%N) →
  handleNodeEvent nEvent nDB
    = (false, witnessNetworkClock (ne_LTime nEvent) nDB).
Proof.
  intros Hcase. unfold handleNodeEvent. rewrite findNode_set_networkClock.
  destruct Hcase as [->|(n & st & -> & Hle)]; [done|].
  apply N.leb_le in Hle. by rewrite Hle.
Qed.

(** A fresh node event for a node that has left: only the node's
    Lamport time moves. *)
Lemma handleNodeEvent_left_fresh nEvent nDB n :
  nodes nDB !! ne_NodeName nEvent = None →
  leftNodes nDB !! ne_NodeName nEvent = Some n →
  (node_ltime n < ne_LTime nEvent)%N →
  handleNodeEvent nEvent nDB =
    (false,
     set_leftNodes
       (<[ne_NodeName nEvent := node_with_ltime (ne_LTime nEvent) n]>
          (leftNodes nDB))
       (witnessNetworkClock (ne_LTime nEvent) nDB)).
Proof.
  intros Hnone Hleft Hlt. unfold handleNodeEvent.
  rewrite findNode_set_networkClock. unfold findNode. rewrite Hnone, Hleft.
  apply N.leb_gt in Hlt. rewrite Hlt. cbn [storeNode]. store_simpl.
  by rewrite Hnone.
Qed.

(** X5.  With every node registered under its name, [handleNodeEvent]
    returns true exactly for a Leave that is strictly newer than the
    node it names, that node being in [nDB.nodes]; a Join is never
    rebroadcast. *)
Theorem node_event_rebroadcast_rule nEvent nDB :
  registryNamed nDB →
  (handleNodeEvent nEvent nDB).1 = true ↔
    ne_Type nEvent = NodeEventTypeLeave
    ∧ ∃ n, nodes nDB !! ne_NodeName nEvent = Some n
           ∧ (node_ltime n < ne_LTime nEvent)%N.
Proof.
  intros [Hnamed _].
  destruct (nodes nDB !! ne_NodeName nEvent) as [n|] eqn:Hn.
  - destruct (decide (node_ltime n < ne_LTime nEvent)%N) as [Hlt|Hge].
    + rewrite (handleNodeEvent_known_fresh _ _ _ Hn (Hnamed _ _ Hn) Hlt).
      cbv zeta. destruct (ne_Type nEvent); cbn [fst];
        (split; [try done|]); try (by intros [? _]). eauto.
    + rewrite handleNodeEvent_drops.
      * split; [done|]. intros (_ & n' & [= <-] & ?). done.
      * right. exists n, nodeActiveState.
        split; [by apply findNode_active|lia].
  - split; [|by intros (_ & n & ? & _)].
    destruct (leftNodes nDB !! ne_NodeName nEvent) as [n|] eqn:Hleft.
    + destruct (decide (node_ltime n < ne_LTime nEvent)%N) as [Hlt|Hge].
      * by rewrite (handleNodeEvent_left_fresh _ _ _ Hn Hleft Hlt).
      * rewrite handleNodeEvent_drops; [done|].
        right. exists n, nodeLeftState. unfold findNode.
        rewrite Hn, Hleft. split; [done|lia].
    + rewrite handleNodeEvent_drops; [done|]. left. unfold findNode.
      by rewrite Hn, Hleft.
Qed.

Lemma handleNodeEvent_findNode nEvent nDB n st :
  registryNamed nDB →
  findNode (ne_NodeName nEvent) nDB = Some (n, st) →
  let s := (handleNodeEvent nEvent nDB).2 in
  (∃ st',
     findNode (ne_NodeName nEvent) s
       = Some (node_with_ltime (N.max (node_ltime n) (ne_LTime nEvent)) n, st'))
  ∧ ∀ name, name ≠ ne_NodeName nEvent → findNode name s = findNode name nDB.
Proof.
  intros [Hnamed _] Hfind. cbv zeta.
  assert (Hsame : ∀ t, t = node_ltime n → node_with_ltime t n = n).
  { intros t ->. by destruct n. }
  destruct (decide (node_ltime n < ne_LTime nEvent)%N) as [Hlt|Hge].
  - rewrite (N.max_r (node_ltime n)) by lia.
    unfold findNode in Hfind.
    destruct (nodes nDB !! ne_NodeName nEvent) as [n0|] eqn:Hn.
    + injection Hfind as -> <-.
      rewrite (handleNodeEvent_known_fresh _ _ _ Hn (Hnamed _ _ Hn) Hlt).
      cbv zeta. unfold findNode.
      destruct (ne_Type nEvent); cbn [snd]; store_simpl.
      * rewrite lookup_insert_eq. split; [eauto|].
        intros name Hne. by rewrite lookup_insert_ne.
      * rewrite lookup_insert_eq. split; [eauto|].
        intros name Hne. by rewrite lookup_insert_ne.
      * rewrite lookup_delete_eq, lookup_insert_eq. split; [eauto|].
        intros name Hne.
        by rewrite lookup_delete_ne, !lookup_insert_ne.
    + destruct (leftNodes nDB !! ne_NodeName nEvent) as [n0|] eqn:Hleft;
        [|done].
      injection Hfind as -> <-.
      rewrite (handleNodeEvent_left_fresh _ _ _ Hn Hleft Hlt). cbn [snd].
      unfold findNode, witnessNetworkClock. store_simpl.
      rewrite Hn, lookup_insert_eq. split; [eauto|].
      intros name Hne. by rewrite lookup_insert_ne.
  - rewrite handleNodeEvent_drops
      by (right; exists n, st; split; [done|lia]).
    cbn [snd]. unfold witnessNetworkClock. rewrite findNode_set_networkClock.
    rewrite Hsame by lia. eauto.
Qed.

(** X6.  With every node registered under its name, a node event for a
    node that is found leaves that node findable, with its name and
    address and with the later of its old Lamport time and the
    event's; no other name is affected. *)
Theorem node_event_ltime nEvent nDB n st :
  registryNamed nDB →
  findNode (ne_NodeName nEvent) nDB = Some (n, st) →
  let s := (handleNodeEvent nEvent nDB).2 in
  (∃ n' st',
     findNode (ne_NodeName nEvent) s = Some (n', st')
     ∧ node_ltime n' = N.max (node_ltime n) (ne_LTime nEvent)
     ∧ node_Name n' = node_Name n
     ∧ node_Addr n' = node_Addr n)
  ∧ ∀ name, name ≠ ne_NodeName nEvent → findNode name s = findNode name nDB.
Proof.
  intros Hnamed Hfind.
  destruct (handleNodeEvent_findNode nEvent nDB n st Hnamed Hfind)
    as [[st' Hafter] Hothers].
  split; [|exact Hothers]. eauto 10.
Qed.

Lemma handleNodeEvent_redelivered nEvent nDB :
  registryNamed nDB →
  let s1 := (handleNodeEvent nEvent nDB).2 in
  handleNodeEvent nEvent s1 = (false, s1).
Proof.
  intros Hnamed. cbv zeta.
  pose proof (handleNodeEvent_networkClock nEvent nDB) as Hclock.
  assert (Hstale : ∀ n st,
            findNode (ne_NodeName nEvent) (handleNodeEvent nEvent nDB).2
              = Some (n, st) →
            (ne_LTime nEvent ≤ node_ltime n)%N →
            handleNodeEvent nEvent (handleNodeEvent nEvent nDB).2
            = (false, (handleNodeEvent nEvent nDB).2)).
  { intros n st Hfind Hle. rewrite handleNodeEvent_drops by eauto.
    by rewrite (witnessNetworkClock_after _ _ _ Hclock). }
  destruct (findNode (ne_NodeName nEvent) nDB) as [[n st]|] eqn:Hfind.
  - destruct (handleNodeEvent_findNode nEvent nDB n st Hnamed Hfind)
      as [[st' Hafter] _].
    apply (Hstale _ _ Hafter). cbn. lia.
  - rewrite (handleNodeEvent_drops nEvent nDB) by eauto. cbn [snd].
    rewrite handleNodeEvent_drops
      by (left; unfold witnessNetworkClock;
          by rewrite findNode_set_networkClock).
    by rewrite witnessNetworkClock_idem.
Qed.

(** A table event is either accepted or leaves the store as it was, the
    clock apart. *)
Lemma handleTableEvent_accepted_or_dropped tEvent isBulkSync nDB :
  (∃ n, accepted tEvent nDB n)
  ∨ handleTableEvent tEvent isBulkSync nDB
    = (false, tableClockWitnessed tEvent nDB).
Proof.
  destruct (topology_cases tEvent nDB) as [[n Hn]|Hfail].
  - destruct (getEntry (te_TableName tEvent) (te_NetworkID tEvent)
                (te_Key tEvent) nDB) as [p|] eqn:Hprev.
    + destruct (decide (entry_ltime p < te_LTime tEvent)%N) as [Hlt|Hge].
      * left. exists n. split; [done|]. intros p' Hp'.
        rewrite Hprev in Hp'. by injection Hp' as <-.
      * right. apply (handleTableEvent_stale_eq _ _ _ p); [done|lia].
    + left. exists n. split; [done|]. intros p' Hp'. by rewrite Hprev in Hp'.
  - right. by apply handleTableEvent_fails_topology.
Qed.

(** The entries and the topology an accepted table event leaves. *)
Lemma handleTableEvent_accepted tEvent isBulkSync nDB n :
  accepted tEvent nDB n →
  let s := (handleTableEvent tEvent isBulkSync nDB).2 in
  indexes s = <[keyOf tEvent := newEntry (config nDB) tEvent]> (indexes nDB)
  ∧ thisNodeNetworks s = thisNodeNetworks nDB
  ∧ networkNodes s = networkNodes nDB
  ∧ config s = config nDB.
Proof.
  intros [Htopo Hfresh]. cbv zeta.
  rewrite (handleTableEvent_passes _ _ _ _ Htopo). cbv zeta.
  unfold notStale in Hfresh.
  replace (getEntry (te_TableName tEvent) (te_NetworkID tEvent)
             (te_Key tEvent) (tableClockWitnessed tEvent nDB))
    with (getEntry (te_TableName tEvent) (te_NetworkID tEvent)
            (te_Key tEvent) nDB) by reflexivity.
  destruct (getEntry _ _ _ nDB) as [p|] eqn:Hprev.
  - specialize (Hfresh p eq_refl). apply N.leb_gt in Hfresh. rewrite Hfresh.
    destruct (te_Type tEvent); [| | |destruct (observedValue _)]; done.
  - destruct (te_Type tEvent); done.
Qed.

Lemma handleTableEvent_topology tEvent isBulkSync nDB :
  let s := (handleTableEvent tEvent isBulkSync nDB).2 in
  thisNodeNetworks s = thisNodeNetworks nDB
  ∧ networkNodes s = networkNodes nDB
  ∧ config s = config nDB.
Proof.
  cbv zeta.
  destruct (handleTableEvent_accepted_or_dropped tEvent isBulkSync nDB)
    as [[n Hacc]| ->].
  - by destruct (handleTableEvent_accepted _ isBulkSync _ _ Hacc) as (_ & ? & ? & ?).
  - done.
Qed.

(** X7.  An accepted table event leaves under its key the entry built
    from the event, and, unless it is a Delete for a key that had no
    entry, it returns the network's [inSync] flag. *)
Theorem table_event_applied tEvent isBulkSync nDB n :
  accepted tEvent nDB n →
  let prev :=
    getEntry (te_TableName tEvent) (te_NetworkID tEvent) (te_Key tEvent) nDB in
  let r := handleTableEvent tEvent isBulkSync nDB in
  getEntry (te_TableName tEvent) (te_NetworkID tEvent) (te_Key tEvent) r.2
    = Some (newEntry (config nDB) tEvent)
  ∧ (is_Some prev ∨ te_Type tEvent ≠ TableEventTypeDelete →
     r.1 = network_inSync n).
Proof.
  intros Hacc prev r. subst r.
  destruct (handleTableEvent_accepted _ isBulkSync _ _ Hacc) as (Hidx & _).
  split.
  { unfold getEntry. rewrite Hidx. apply lookup_insert_eq. }
  destruct Hacc as [Htopo Hfresh]. unfold notStale in Hfresh. fold prev in Hfresh.
  rewrite (handleTableEvent_passes _ _ _ _ Htopo). cbv zeta.
  replace (getEntry (te_TableName tEvent) (te_NetworkID tEvent)
             (te_Key tEvent) (tableClockWitnessed tEvent nDB))
    with prev by reflexivity.
  destruct prev as [p|].
  - intros _. specialize (Hfresh p eq_refl). apply N.leb_gt in Hfresh.
    by rewrite Hfresh.
  - intros [[? ?]|Hty]; [done|]. by destruct (te_Type tEvent).
Qed.

(** X8.  [handleTableEvent] never removes an entry and never lowers its
    Lamport time, and an entry under another key than the event's is
    left as it was. *)
Theorem table_event_entries_monotone tEvent isBulkSync nDB k p :
  indexes nDB !! k = Some p →
  let s := (handleTableEvent tEvent isBulkSync nDB).2 in
  ∃ p', indexes s !! k = Some p'
        ∧ (entry_ltime p ≤ entry_ltime p')%N
        ∧ (k ≠ keyOf tEvent → p' = p).
Proof.
  intros Hk. cbv zeta.
  destruct (handleTableEvent_accepted_or_dropped tEvent isBulkSync nDB)
    as [[n Hacc]| ->].
  - destruct (handleTableEvent_accepted _ isBulkSync _ _ Hacc) as (-> & _).
    destruct (decide (k = keyOf tEvent)) as [->|Hne].
    + rewrite lookup_insert_eq. eexists. split; [done|]. split; [|done].
      destruct Hacc as [_ Hfresh]. specialize (Hfresh p Hk). cbn. lia.
    + rewrite lookup_insert_ne by done. exists p. split; [done|].
      split; [lia|done].
  - exists p. split; [done|]. split; [lia|done].
Qed.

Lemma seconds_zero (x : Z) : - 2 ^ 31 ≤ x < 2 ^ 32 → (seconds x =? 0) = (x =? 0).
Proof.
  intros Hx. rewrite seconds_exact by done. unfold Second.
  destruct (Z.eqb_spec x 0) as [->|Hne]; [done|].
  apply Z.eqb_neq. lia.
Qed.

(** X9.  An accepted Delete whose residual reap time fits 32 bits
    leaves a tombstone whose reap time is that many seconds, or
    [reapEntryInterval] when the event carries zero; so a tombstone's
    reap time is not zero unless the configured interval is. *)
Theorem tombstone_reap_time tEvent isBulkSync nDB n :
  accepted tEvent nDB n →
  te_Type tEvent = TableEventTypeDelete →
  - 2 ^ 31 ≤ te_ResidualReapTime tEvent < 2 ^ 32 →
  ∃ e,
    getEntry (te_TableName tEvent) (te_NetworkID tEvent) (te_Key tEvent)
      (handleTableEvent tEvent isBulkSync nDB).2 = Some e
    ∧ entry_deleting e = true
    ∧ entry_reapTime e =
        (if te_ResidualReapTime tEvent =? 0
         then reapEntryInterval (config nDB)
         else te_ResidualReapTime tEvent * Second)
    ∧ (reapEntryInterval (config nDB) ≠ 0 → entry_reapTime e ≠ 0).
Proof.
  intros Hacc Hty Hrange.
  destruct (handleTableEvent_accepted _ isBulkSync _ _ Hacc) as (Hidx & _).
  exists (newEntry (config nDB) tEvent). split.
  { unfold getEntry. rewrite Hidx. apply lookup_insert_eq. }
  unfold newEntry. rewrite Hty. cbn [entry_deleting entry_reapTime].
  rewrite bool_decide_eq_true_2 by done. cbn [andb].
  rewrite seconds_zero, seconds_exact by done.
  split; [done|]. split; [done|].
  intros Hcfg. destruct (Z.eqb_spec (te_ResidualReapTime tEvent) 0); [done|].
  unfold Second. lia.
Qed.

Lemma deliver_cons eb evs nDB :
  deliver (eb :: evs) nDB = deliver evs (handleTableEvent eb.1 eb.2 nDB).2.
Proof. reflexivity. Qed.

(** A run of events for one key, all from members of a network the
    local node belongs to, in which [top] is strictly the newest. *)
Lemma deliver_newest (top : TableEvent) (cfg : Config) (n : network)
    (members : list string) (evs : list (TableEvent * bool)) :
  ∀ nDB,
    config nDB = cfg →
    thisNodeNetworks nDB !! te_NetworkID top = Some n →
    network_leaving n = false →
    networkNodes nDB !! te_NetworkID top = Some members →
    (∀ eb, eb ∈ evs →
       keyOf eb.1 = keyOf top ∧ te_NodeName eb.1 ∈ members
       ∧ (eb.1 = top ∨ (te_LTime eb.1 < te_LTime top)%N)) →
    (indexes nDB !! keyOf top = Some (newEntry cfg top) →
     indexes (deliver evs nDB) !! keyOf top = Some (newEntry cfg top))
    ∧ ((∀ p, indexes nDB !! keyOf top = Some p →
             (entry_ltime p < te_LTime top)%N) →
       top ∈ evs.*1 →
       indexes (deliver evs nDB) !! keyOf top = Some (newEntry cfg top)).
Proof.
  induction evs as [|[e b] evs IH]; intros nDB Hcfg Hnet Hleav Hmem Hevs.
  { split; [done|]. intros _ Hin. by apply elem_of_nil in Hin. }
  destruct (Hevs (e, b)) as (Hkey & Hfrom & Hnewest); [left|]. cbn [fst] in *.
  assert (Hnid : te_NetworkID e = te_NetworkID top) by (by injection Hkey).
  assert (Htopo : passesTopology e nDB n).
  { unfold passesTopology. rewrite Hnid, Hnet, Hmem. done. }
  destruct (handleTableEvent_topology e b nDB) as (Hnet' & Hmem' & Hcfg').
  cbv zeta in Hnet', Hmem', Hcfg'.
  specialize (IH (handleTableEvent e b nDB).2).
  rewrite Hnet', Hmem', Hcfg' in IH.
  specialize (IH Hcfg Hnet Hleav Hmem
                (λ eb Hin, Hevs eb (list_elem_of_further _ _ _ Hin))).
  destruct IH as [IHdone IHbefore].
  rewrite deliver_cons. cbn [fst snd].
  assert (Hkeep : indexes nDB !! keyOf top = Some (newEntry cfg top) →
                  indexes (handleTableEvent e b nDB).2 !! keyOf top
                  = Some (newEntry cfg top)).
  { intros Hdone.
    rewrite (handleTableEvent_stale_eq e b nDB (newEntry cfg top)).
    - done.
    - unfold getEntry. fold (keyOf e). by rewrite Hkey.
    - cbn. destruct Hnewest as [->|?]; lia. }
  split.
  - intros Hdone. apply IHdone, Hkeep, Hdone.
  - intros Hbefore Hin.
    destruct (handleTableEvent_accepted_or_dropped e b nDB)
      as [[n' Hacc]|Hdrop].
    + destruct (handleTableEvent_accepted e b nDB n' Hacc) as (Hidx & _).
      cbv zeta in Hidx. rewrite Hkey, Hcfg in Hidx.
      destruct Hnewest as [->|Hlt].
      * apply IHdone. rewrite Hidx. apply lookup_insert_eq.
      * apply IHbefore.
        -- intros p. rewrite Hidx, lookup_insert_eq. intros [= <-]. done.
        -- rewrite fmap_cons in Hin. apply elem_of_cons in Hin as [->|Hin];
             [cbn in Hlt; lia|done].
    + rewrite Hdrop. cbn [snd].
      destruct Hnewest as [->|Hlt].
      * (* the newest event itself cannot be dropped here *)
        exfalso.
        assert (Hacc : accepted top nDB n).
        { split; [done|]. intros p Hp. apply Hbefore. exact Hp. }
        destruct (handleTableEvent_accepted top b nDB n Hacc) as (Hidx & _).
        cbv zeta in Hidx. rewrite Hdrop in Hidx. cbn [snd] in Hidx.
        assert (Hlook : indexes nDB !! keyOf top
                        = Some (newEntry (config nDB) top)).
        { change (indexes (tableClockWitnessed top nDB)) with (indexes nDB)
            in Hidx.
          rewrite Hidx at 1. apply lookup_insert_eq. }
        specialize (Hbefore _ Hlook). cbn in Hbefore. lia.
      * rewrite Hdrop in IHbefore. cbn [snd] in IHbefore.
        apply IHbefore; [exact Hbefore|].
        rewrite fmap_cons in Hin. apply elem_of_cons in Hin as [->|Hin];
          [cbn in Hlt; lia|done].
Qed.

(** X10.  Take a run of table events for one key, all from members of
    a network the local node belongs to and is not leaving, one of
    which, [top], is strictly newer than all the others and than the
    stored entry.  In whatever order the run is delivered, and with
    whatever duplicates of [top], the entry left under the key is the
    one built from [top]. *)
Theorem newest_table_event_wins top n members evs nDB :
  thisNodeNetworks nDB !! te_NetworkID top = Some n →
  network_leaving n = false →
  networkNodes nDB !! te_NetworkID top = Some members →
  (∀ eb, eb ∈ evs →
     keyOf eb.1 = keyOf top ∧ te_NodeName eb.1 ∈ members
     ∧ (eb.1 = top ∨ (te_LTime eb.1 < te_LTime top)%N)) →
  (∀ p, indexes nDB !! keyOf top = Some p →
        (entry_ltime p < te_LTime top)%N) →
  top ∈ evs.*1 →
  ∀ evs', evs' ≡ₚ evs →
    getEntry (te_TableName top) (te_NetworkID top) (te_Key top)
      (deliver evs' nDB) = Some (newEntry (config nDB) top).
Proof.
  intros Hnet Hleav Hmem Hevs Hbefore Hin evs' Hperm.
  apply (deliver_newest top (config nDB) n members evs' nDB eq_refl Hnet
           Hleav Hmem).
  - intros eb Heb. apply Hevs. by rewrite <- Hperm.
  - exact Hbefore.
  - by rewrite Hperm.
Qed.

Section TableRebroadcast.
Context {codec : Codec}.
Variable maxQueueLen : Z.



Lemma handleTableMessage_between_skips between buf isBulkSync nDB :
  unmarshal_TableEvent buf = None
  ∨ (∃ tEvent, unmarshal_TableEvent buf = Some tEvent
               ∧ te_NodeName tEvent = NodeID (config nDB)) →
  handleTableMessage_between maxQueueLen between buf isBulkSync nDB = nDB.
Proof.
  unfold handleTableMessage_between.
  intros [->|(tEvent & -> & Hown)]; [done|]. by rewrite decide_True.
Qed.

Lemma queueTableRebroadcast_frame tEvent raw isBulkSync nDB :
  let s := queueTableRebroadcast maxQueueLen tEvent raw isBulkSync nDB in
  indexes s = indexes nDB ∧ tableClock s = tableClock nDB
  ∧ config s = config nDB.
Proof.
  cbv zeta. unfold queueTableRebroadcast.
  destruct (thisNodeNetworks nDB !! _) as [n|]; [|done].
  destruct (network_leaving n); [done|]. by destruct (_ && _).
Qed.

(** A table message delivered again to the store it left changes
    nothing: no entry, no watch event, no queue. *)
Lemma handleTableMessage_redelivered buf isBulkSync isBulkSync' nDB :
  let s := handleTableMessage maxQueueLen buf isBulkSync nDB in
  handleTableMessage maxQueueLen buf isBulkSync' s = s.
Proof.
  cbv zeta. unfold handleTableMessage.
  destruct (unmarshal_TableEvent buf) as [tEvent|] eqn:Hdec.
  2:{ rewrite (handleTableMessage_between_skips id buf isBulkSync nDB)
        by (by left).
      apply handleTableMessage_between_skips. by left. }
  destruct (decide (te_NodeName tEvent = NodeID (config nDB))) as [Hown|Hown].
  { rewrite (handleTableMessage_between_skips id buf isBulkSync nDB)
      by (right; eauto).
    apply handleTableMessage_between_skips. right. eauto. }
  pose proof (handleTableEvent_redelivered tEvent isBulkSync isBulkSync' nDB)
    as Hagain. cbv zeta in Hagain.
  pose proof (handleTableEvent_tableClock tEvent isBulkSync nDB) as Hclock.
  destruct (handleTableEvent_topology tEvent isBulkSync nDB)
    as (_ & _ & Hcfg). cbv zeta in Hcfg.
  destruct (handleTableEvent_accepted_or_dropped tEvent isBulkSync nDB)
    as [[n Hacc]|Hdrop].
  2:{ rewrite Hdrop in Hagain. cbn [snd] in Hagain.
      rewrite (handleTableMessage_between_declined _ _ _ _ _ _ _
                 Hdec Hown Hdrop).
      by apply (handleTableMessage_between_declined _ _ _ _ _ tEvent). }
  destruct (handleTableEvent_accepted tEvent isBulkSync nDB n Hacc)
    as (Hidx & _). cbv zeta in Hidx.
  destruct (handleTableEvent tEvent isBulkSync nDB) as [rb s1] eqn:Hev.
  cbn [snd] in *.
  assert (Hown1 : te_NodeName tEvent ≠ NodeID (config s1)) by by rewrite Hcfg.
  assert (Hquiet : handleTableMessage_between maxQueueLen id buf isBulkSync' s1
                   = s1).
  { by apply (handleTableMessage_between_declined _ _ _ _ _ tEvent). }
  destruct rb.
  2:{ by rewrite (handleTableMessage_between_declined _ _ _ _ _ _ _
                    Hdec Hown Hev). }
  rewrite (handleTableMessage_between_wanted _ _ _ _ _ _ _ Hdec Hown Hev).
  destruct (encodeRawMessage MessageTypeTableEvent buf) as [raw|];
    [|exact Hquiet].
  unfold id.
  destruct (queueTableRebroadcast_frame tEvent raw isBulkSync s1)
    as (Hidx2 & Hclock2 & Hcfg2). cbv zeta in Hidx2, Hclock2, Hcfg2.
  set (s2 := queueTableRebroadcast maxQueueLen tEvent raw isBulkSync s1) in *.
  apply (handleTableMessage_between_declined _ _ _ _ _ tEvent);
    [done|by rewrite Hcfg2|].
  rewrite (handleTableEvent_stale_eq tEvent isBulkSync' s2
             (newEntry (config nDB) tEvent)).
  - f_equal. unfold tableClockWitnessed.
    rewrite Hclock2, Hclock, Witness_idem, <- Hclock, <- Hclock2.
    by destruct s2.
  - unfold getEntry. rewrite Hidx2, Hidx. apply lookup_insert_eq.
  - cbn. lia.
Qed.

End TableRebroadcast.

(** X12.  Once a Leave of a node for a network has been applied, a
    table event from that node for that network is dropped by the
    topology check: only the table clock is witnessed. *)
Theorem table_events_of_left_node_dropped nEvent tEvent isBulkSync nDB :
  acceptsNetworkEvent nEvent nDB →
  nwe_Type nEvent = NetworkEventTypeLeave →
  te_NodeName tEvent = nwe_NodeName nEvent →
  te_NetworkID tEvent = nwe_NetworkID nEvent →
  let s := (handleNetworkEvent nEvent nDB).2 in
  handleTableEvent tEvent isBulkSync s = (false, tableClockWitnessed tEvent s).
Proof.
  intros Hacc Hleave Hname Hnid. cbv zeta.
  pose proof (handleNetworkEvent_members nEvent nDB Hacc) as Hgone.
  cbv zeta in Hgone. rewrite bool_decide_eq_true_2 in Hgone by done.
  apply handleTableEvent_fails_topology. right. right.
  by rewrite Hname, Hnid.
Qed.

Lemma witnessNetworkClock_le t nDB :
  (t ≤ networkClock nDB)%N → witnessNetworkClock t nDB = nDB.
Proof.
  intros Hle. unfold witnessNetworkClock, Witness.
  rewrite N.max_l by lia. apply set_networkClock_id.
Qed.

Lemma mergeNetworkEntry_networkClock nDB r :
  networkClock (mergeNetworkEntry nDB r)
    = Witness (networkClock nDB) (nen_LTime r).
Proof. apply handleNetworkEvent_networkClock. Qed.

Lemma foldl_mergeNetworkEntry_networkClock l :
  ∀ nDB,
    (networkClock nDB ≤ networkClock (foldl mergeNetworkEntry nDB l))%N
    ∧ ∀ r, r ∈ l →
        (nen_LTime r ≤ networkClock (foldl mergeNetworkEntry nDB l))%N.
Proof.
  induction l as [|r l IH]; intros nDB; cbn [foldl].
  - split; [lia|]. intros r Hr. by apply elem_of_nil in Hr.
  - destruct (IH (mergeNetworkEntry nDB r)) as [Hle Hall].
    rewrite mergeNetworkEntry_networkClock in Hle.
    pose proof (Witness_bounds (networkClock nDB) (nen_LTime r)) as [? ?].
    split; [lia|]. intros r' Hr'.
    apply elem_of_cons in Hr' as [->|Hr']; [lia|by apply Hall].
Qed.

Section MergeClock.
Context {codec : Codec}.

(** X13.  After [MergeRemoteState] of a decodable snapshot the network
    clock is not lower than before and is at least the snapshot's
    Lamport time and the Lamport time of every record in it, whether
    or not the records were stored. *)
Theorem merge_remote_state_witnesses_clock buf isJoin nDB gMsg pp :
  buf ≠ [] →
  unmarshal_GossipMessage buf = Some gMsg →
  unmarshal_NetworkPushPull (gm_Data gMsg) = Some pp →
  let after := MergeRemoteState buf isJoin nDB in
  (networkClock nDB ≤ networkClock after)%N
  ∧ (pp_LTime pp ≤ networkClock after)%N
  ∧ (∀ r, r ∈ pp_Networks pp → (nen_LTime r ≤ networkClock after)%N).
Proof.
  intros Hbuf Hg Hpp after.
  assert (Hafter : after = mergePushPull pp nDB).
  { subst after. unfold MergeRemoteState. destruct buf; [done|].
    cbn [length Nat.eqb]. by rewrite Hg, Hpp. }
  rewrite Hafter. unfold mergePushPull.
  set (nodeEvent := mkNodeEvent NodeEventTypeJoin (pp_LTime pp) (pp_NodeName pp)).
  pose proof (handleNodeEvent_networkClock nodeEvent nDB) as Hnode.
  destruct (foldl_mergeNetworkEntry_networkClock (pp_Networks pp)
              (handleNodeEvent nodeEvent nDB).2) as [Hle Hall].
  rewrite Hnode in Hle.
  pose proof (Witness_bounds (networkClock nDB) (ne_LTime nodeEvent)) as [? ?].
  cbn [ne_LTime nodeEvent] in *.
  split; [lia|]. split; [lia|]. exact Hall.
Qed.

End MergeClock.

(** ** Merging the same snapshot twice *)

Lemma settled_noop nEvent nDB :
  settled nEvent nDB → handleNetworkEvent nEvent nDB = (false, nDB).
Proof.
  intros [Hclock Hcase]. rewrite handleNetworkEvent_rejects by exact Hcase.
  by rewrite witnessNetworkClock_le.
Qed.

Lemma handleNetworkEvent_settles nEvent nDB :
  settled nEvent (handleNetworkEvent nEvent nDB).2.
Proof.
  pose proof (handleNetworkEvent_networkClock nEvent nDB) as Hclock.
  pose proof (handleNetworkEvent_registry nEvent nDB) as Hreg.
  unfold registry in Hreg. injection Hreg as Hnodes _ Hcfg.
  split.
  { rewrite Hclock. apply Witness_bounds. }
  rewrite Hcfg, Hnodes.
  destruct (handleNetworkEvent_cases nEvent nDB) as [Hyes Hno].
  cbv zeta in Hyes, Hno.
  destruct (decide (acceptsNetworkEvent nEvent nDB)) as [Hacc|Hacc].
  - destruct (Hyes Hacc) as [_ Hmem]. right. left.
    rewrite Hmem, membership_storeNetwork, decide_True by done.
    eexists. split; [done|].
    unfold appliedNetwork. destruct (membership _ _ nDB); cbn; lia.
  - destruct (Hno Hacc) as [_ Hmem]. rewrite Hmem.
    unfold acceptsNetworkEvent in Hacc.
    destruct (decide (nwe_NodeName nEvent = NodeID (config nDB))) as [Hown|Hown];
      [by left|right].
    destruct (membership (nwe_NodeName nEvent) (nwe_NetworkID nEvent) nDB)
      as [n|] eqn:Hold.
    { left. exists n. split; [done|]. apply N.nlt_ge. tauto. }
    right.
    destruct (decide (nwe_Type nEvent = NetworkEventTypeLeave)) as [Hl|Hl];
      [by left|right].
    destruct (nodes nDB !! nwe_NodeName nEvent) as [nd|] eqn:Hnode;
      [exfalso; apply Hacc; eauto|].
    split; [done|]. split; [|done].
    destruct (networks nDB !! nwe_NodeName nEvent) as [nn|] eqn:Hnn.
    + rewrite handleNetworkEvent_rejects.
      * cbn. rewrite Hnn. eauto.
      * right. right. right. rewrite Hnn. eauto.
    + rewrite handleNetworkEvent_unknown_node by done. cbn [snd].
      store_simpl. rewrite lookup_insert_eq. eauto.
Qed.

(** The keys of [nDB.networks] are never removed by a network event. *)
Lemma handleNetworkEvent_networks_keys nEvent nDB name :
  is_Some (networks nDB !! name) →
  is_Some (networks (handleNetworkEvent nEvent nDB).2 !! name).
Proof.
  intros Hsome. unfold handleNetworkEvent.
  repeat match goal with
         | |- context [decide ?P] => destruct (decide P)
         | |- context [bool_decide ?P] => destruct (bool_decide P)
         | |- context [match ?m !! ?k with _ => _ end] => destruct (m !! k)
         | |- context [(?a <=? ?b)%N] => destruct (a <=? b)%N
         | _ => progress cbn [fst snd]
         end;
    rewrite ?networks_deleteNetworkNode, ?networks_addNetworkNode;
    unfold deleteNodeNetworkEntries, storeNetwork; store_simpl;
    rewrite ?lookup_insert; repeat case_decide; eauto.
Qed.

Lemma settled_preserved nEvent nEvent' nDB :
  settled nEvent nDB →
  (nwe_NodeName nEvent', nwe_NetworkID nEvent')
    ≠ (nwe_NodeName nEvent, nwe_NetworkID nEvent) →
  settled nEvent (handleNetworkEvent nEvent' nDB).2.
Proof.
  intros [Hclock Hcase] Hne.
  pose proof (handleNetworkEvent_networkClock nEvent' nDB) as Hclock'.
  pose proof (handleNetworkEvent_registry nEvent' nDB) as Hreg.
  unfold registry in Hreg. injection Hreg as Hnodes _ Hcfg.
  assert (Hmem : membership (nwe_NodeName nEvent) (nwe_NetworkID nEvent)
                   (handleNetworkEvent nEvent' nDB).2
                 = membership (nwe_NodeName nEvent) (nwe_NetworkID nEvent) nDB).
  { destruct (handleNetworkEvent_cases nEvent' nDB) as [Hyes Hno].
    cbv zeta in Hyes, Hno.
    destruct (decide (acceptsNetworkEvent nEvent' nDB)) as [Hacc|Hacc].
    - destruct (Hyes Hacc) as [_ ->]. rewrite membership_storeNetwork.
      rewrite decide_False; [done|]. intros [Hn Hi]. apply Hne.
      by rewrite Hn, Hi.
    - by destruct (Hno Hacc) as [_ ->]. }
  split.
  { rewrite Hclock'. pose proof (Witness_bounds (networkClock nDB)
                                   (nwe_LTime nEvent')). lia. }
  rewrite Hcfg, Hnodes, Hmem.
  destruct Hcase as [?|[?|[?|(? & Hkey & ?)]]]; [tauto..|].
  right. right. right. split; [done|]. split; [|done].
  by apply handleNetworkEvent_networks_keys.
Qed.

Lemma settled_foldl nEvent l :
  ∀ nDB,
    settled nEvent nDB →
    (∀ r, r ∈ l → pairOf r ≠ (nwe_NodeName nEvent, nwe_NetworkID nEvent)) →
    settled nEvent (foldl mergeNetworkEntry nDB l).
Proof.
  induction l as [|r l IH]; intros nDB Hs Hne; [done|]. cbn [foldl].
  apply IH.
  - apply (settled_preserved nEvent (eventOf r)); [done|]. apply Hne. left.
  - intros r' Hr'. apply Hne. by right.
Qed.

Lemma foldl_mergeNetworkEntry_settles l :
  ∀ nDB,
    NoDup (pairOf <$> l) →
    ∀ r, r ∈ l → settled (eventOf r) (foldl mergeNetworkEntry nDB l).
Proof.
  induction l as [|r l IH]; intros nDB Hnodup r' Hr'.
  { by apply elem_of_nil in Hr'. }
  rewrite fmap_cons in Hnodup. apply NoDup_cons in Hnodup as [Hnotin Hnodup].
  cbn [foldl]. apply elem_of_cons in Hr' as [->|Hr'].
  - apply settled_foldl; [apply (handleNetworkEvent_settles (eventOf r))|].
    intros r' Hr' Heq. apply Hnotin. apply list_elem_of_fmap.
    exists r'. split; [|done]. by rewrite Heq.
  - by apply IH.
Qed.

Lemma foldl_mergeNetworkEntry_settled l :
  ∀ nDB,
    (∀ r, r ∈ l → settled (eventOf r) nDB) →
    foldl mergeNetworkEntry nDB l = nDB.
Proof.
  induction l as [|r l IH]; intros nDB Hall; [done|]. cbn [foldl].
  assert (Hr : mergeNetworkEntry nDB r = nDB).
  { change (mergeNetworkEntry nDB r) with (handleNetworkEvent (eventOf r) nDB).2.
    rewrite settled_noop; [done|]. apply Hall. left. }
  rewrite Hr. apply IH. intros r' Hr'. apply Hall. by right.
Qed.

Section MergeTwice.
Context {codec : Codec}.

(** X14.  With every node registered under its name, merging a
    snapshot whose records are about distinct pairs a second time
    changes nothing. *)
Theorem merge_remote_state_idempotent buf isJoin isJoin' nDB :
  registryNamed nDB →
  (∀ gMsg pp,
     unmarshal_GossipMessage buf = Some gMsg →
     unmarshal_NetworkPushPull (gm_Data gMsg) = Some pp →
     NoDup (pairOf <$> pp_Networks pp)) →
  let once := MergeRemoteState buf isJoin nDB in
  MergeRemoteState buf isJoin' once = once.
Proof.
  intros Hnamed Hwf. cbv zeta. unfold MergeRemoteState.
  destruct (length buf =? 0)%nat; [done|].
  destruct (unmarshal_GossipMessage buf) as [gMsg|] eqn:Hg; [|done].
  destruct (unmarshal_NetworkPushPull (gm_Data gMsg)) as [pp|] eqn:Hpp; [|done].
  specialize (Hwf gMsg pp eq_refl Hpp).
  unfold mergePushPull.
  set (nodeEvent := mkNodeEvent NodeEventTypeJoin (pp_LTime pp) (pp_NodeName pp)).
  set (s0 := (handleNodeEvent nodeEvent nDB).2).
  set (s1 := foldl mergeNetworkEntry s0 (pp_Networks pp)).
  (* the node event is a no-op on [s1] *)
  assert (Hnode : handleNodeEvent nodeEvent s1 = (false, s1)).
  { destruct (foldl_mergeNetworkEntry_networkClock (pp_Networks pp) s0)
      as [Hle _]. fold s1 in Hle.
    pose proof (handleNodeEvent_networkClock nodeEvent nDB) as Hclock.
    fold s0 in Hclock.
    pose proof (Witness_bounds (networkClock nDB) (ne_LTime nodeEvent))
      as [_ Hpast].
    assert (Hreg : registry s1 = registry s0).
    { subst s1. clear. generalize s0.
      induction (pp_Networks pp) as [|r l IH]; intros s; [done|].
      cbn [foldl]. rewrite IH. apply handleNetworkEvent_registry. }
    assert (Hfind : ∀ name, findNode name s1 = findNode name s0).
    { intros name. unfold registry in Hreg. injection Hreg as Hn Hl _.
      unfold findNode. by rewrite Hn, Hl. }
    rewrite handleNodeEvent_drops.
    - rewrite witnessNetworkClock_le; [done|]. lia.
    - rewrite Hfind.
      destruct (findNode (ne_NodeName nodeEvent) nDB) as [[n st]|] eqn:Hf.
      + destruct (handleNodeEvent_findNode nodeEvent nDB n st Hnamed Hf)
          as [[st' Hafter] _]. fold s0 in Hafter.
        right. eexists _, _. split; [exact Hafter|]. cbn. lia.
      + left. subst s0. rewrite (handleNodeEvent_drops nodeEvent nDB) by eauto.
        cbn [snd]. unfold witnessNetworkClock.
        by rewrite findNode_set_networkClock. }
  rewrite Hnode. cbn [snd].
  apply foldl_mergeNetworkEntry_settled.
  intros r Hr. by apply foldl_mergeNetworkEntry_settles.
Qed.

End MergeTwice.

Section MessageHandling.
Context {codec : Codec} {mcodec : MessageCodec}.
Variable maxQueueLen : Z.
Variable bulkSyncNode : list string → string → bool → Gossip → Gossip.

Local Abbreviation handle := (handleMessage maxQueueLen bulkSyncNode).

Lemma foldl_bind_None {A B} (h : B → A → option A) (l : list B) :
  foldl (λ acc x, acc ≫= h x) None l = None.
Proof. by induction l. Qed.

(** Two handlers that agree on the parts of a compound message give the
    same result on it. *)
Lemma foldl_bind_agree (h h' : bytes → Gossip → option Gossip)
    (parts : list bytes) :
  ∀ g r,
    (∀ part g r, part ∈ parts → h part g = Some r → h' part g = Some r) →
    foldl (λ acc part, acc ≫= h part) (Some g) parts = Some r →
    foldl (λ acc part, acc ≫= h' part) (Some g) parts = Some r.
Proof.
  induction parts as [|part parts IH]; intros g r Hagree; [done|].
  cbn [foldl mbind option_bind].
  destruct (h part g) as [g1|] eqn:Hpart.
  - rewrite (Hagree part g g1 ltac:(left) Hpart). apply IH.
    intros part' g' r' Hin. apply Hagree. by right.
  - by rewrite foldl_bind_None.
Qed.

Lemma foldl_bind_total (h : bytes → Gossip → option Gossip)
    (parts : list bytes) :
  ∀ g,
    (∀ part g, part ∈ parts → is_Some (h part g)) →
    is_Some (foldl (λ acc part, acc ≫= h part) (Some g) parts).
Proof.
  induction parts as [|part parts IH]; intros g Htotal; [by eexists|].
  cbn [foldl mbind option_bind].
  destruct (Htotal part g ltac:(left)) as [g1 ->]. apply IH.
  intros part' g' Hin. apply Htotal. by right.
Qed.

(** More fuel never changes a result. *)
Lemma handleMessage_fuel_mono fuel :
  ∀ fuel' buf isBulkSync g r,
    (fuel ≤ fuel')%nat →
    handle fuel buf isBulkSync g = Some r →
    handle fuel' buf isBulkSync g = Some r.
Proof.
  induction fuel as [|fuel IH]; intros fuel' buf isBulkSync g r Hle; [done|].
  destruct fuel' as [|fuel']; [lia|]. cbn [handleMessage].
  destruct (decodeMessage buf) as [[mType data]|]; [|done].
  destruct mType; try done.
  - unfold handleBulkSync.
    destruct (unmarshal_BulkSyncMessage data) as [bsm|]; [|done].
    destruct (handle fuel (bsm_Payload bsm) true _) as [g1|] eqn:Hpay; [|done].
    by rewrite (IH fuel' _ _ _ _ ltac:(lia) Hpay).
  - unfold handleCompound.
    destruct (decodeCompoundMessage data) as [parts|]; [|done].
    apply foldl_bind_agree. intros part g' r' _. apply IH. lia.
Qed.

(** With decoders that shrink, fuel above the length of the buffer is
    enough. *)
Lemma handleMessage_total :
  shrinking mcodec →
  ∀ fuel buf isBulkSync g,
    (length buf < fuel)%nat → is_Some (handle fuel buf isBulkSync g).
Proof.
  intros (Henv & Hparts & Hpayload).
  induction fuel as [|fuel IH]; intros buf isBulkSync g Hlen; [lia|].
  cbn [handleMessage].
  destruct (decodeMessage buf) as [[mType data]|] eqn:Hdec; [|by eexists].
  destruct mType; try by eexists.
  - specialize (Henv _ _ _ Hdec ltac:(by left)).
    unfold handleBulkSync.
    destruct (unmarshal_BulkSyncMessage data) as [bsm|] eqn:Hbsm;
      [|by eexists].
    specialize (Hpayload _ _ Hbsm).
    match goal with
    | |- context [handle fuel (bsm_Payload bsm) true ?g0] =>
        destruct (IH (bsm_Payload bsm) true g0 ltac:(lia)) as [g1 ->]
    end.
    destruct (negb _); [|by eexists].
    destruct (bulkSyncAckTbl g1 !! _); by eexists.
  - specialize (Henv _ _ _ Hdec ltac:(by right)).
    unfold handleCompound.
    destruct (decodeCompoundMessage data) as [parts|] eqn:Hcomp;
      [|by eexists].
    apply foldl_bind_total. intros part g' Hin. apply IH.
    specialize (Hparts _ _ _ Hcomp Hin). lia.
Qed.

(** X15.  With decoders that return parts of their input, [NotifyMsg]
    returns for every buffer, and [handleMessage] gives the same result
    whatever the bound on nesting, once the bound exceeds the length of
    the buffer. *)
Theorem notify_msg_terminates buf g :
  shrinking mcodec →
  (∃ r, NotifyMsg maxQueueLen bulkSyncNode buf g = Some r)
  ∧ ∀ fuel isBulkSync,
      (length buf < fuel)%nat →
      handle fuel buf isBulkSync g
        = handle (S (length buf)) buf isBulkSync g.
Proof.
  intros Hshrink. split.
  - unfold NotifyMsg. destruct (length buf =? 0)%nat; [by eexists|].
    apply handleMessage_total; [done|lia].
  - intros fuel isBulkSync Hlen.
    destruct (handleMessage_total Hshrink (S (length buf)) buf isBulkSync g
                ltac:(lia)) as [r Hr].
    rewrite Hr. by apply (handleMessage_fuel_mono (S (length buf))); [lia|].
Qed.

(** X16.  With such decoders, handling a compound message is handling
    its parts one after the other, in order, each with the flag the
    compound message was handled with. *)
Theorem compound_message_is_sequence buf isBulkSync g data parts :
  shrinking mcodec →
  decodeMessage buf = Some (MessageTypeCompound, data) →
  decodeCompoundMessage data = Some parts →
  handle (S (length buf)) buf isBulkSync g =
    foldl (λ acc part, acc ≫= handle (S (length part)) part isBulkSync)
      (Some g) parts.
Proof.
  intros Hshrink Hdec Hcomp.
  pose proof Hshrink as (Henv & Hparts & _).
  specialize (Henv _ _ _ Hdec ltac:(by right)).
  assert (Hstep : handle (S (length buf)) buf isBulkSync g =
                    foldl (λ acc part, acc ≫= handle (length buf) part isBulkSync)
                      (Some g) parts).
  { cbn [handleMessage]. rewrite Hdec. unfold handleCompound. by rewrite Hcomp. }
  rewrite Hstep. clear Hstep.
  assert (Hlen : ∀ part, part ∈ parts → (length part < length buf)%nat).
  { intros part Hin. specialize (Hparts _ _ _ Hcomp Hin). lia. }
  clear Hcomp Hdec. revert g Hlen.
  induction parts as [|part parts IH]; intros g Hlen; [done|].
  cbn [foldl mbind option_bind].
  destruct (handleMessage_total Hshrink (S (length part)) part isBulkSync g
              ltac:(lia)) as [g1 Hg1].
  rewrite Hg1.
  rewrite (handleMessage_fuel_mono (S (length part)) (length buf) _ _ _ g1)
    by (try done; specialize (Hlen part ltac:(left)); lia).
  apply IH. intros part' Hin. apply Hlen. by right.
Qed.

Lemma set_store_id g : set_store (store g) g = g.
Proof. by destruct g. Qed.

Lemma handleNodeMessage_redelivered buf g :
  registryNamed (store g) →
  handleNodeMessage buf (handleNodeMessage buf g) = handleNodeMessage buf g.
Proof.
  intros Hnamed.
  remember (handleNodeMessage buf g) as g1 eqn:Hg1.
  unfold handleNodeMessage in Hg1.
  destruct (unmarshal_NodeEvent buf) as [nEvent|] eqn:Hdec.
  2:{ subst g1. unfold handleNodeMessage. by rewrite Hdec. }
  pose proof (handleNodeEvent_redelivered nEvent (store g) Hnamed) as Hagain.
  cbv zeta in Hagain.
  destruct (handleNodeEvent nEvent (store g)) as [rb s1]. cbn [snd] in Hagain.
  assert (Hquiet : store g1 = s1 → handleNodeMessage buf g1 = g1).
  { intros Hs. unfold handleNodeMessage. rewrite Hdec, Hs, Hagain.
    rewrite <- Hs. apply set_store_id. }
  apply Hquiet. subst g1. destruct rb; [|done].
  by destruct (encodeRawMessage MessageTypeNodeEvent buf).
Qed.

Lemma handleNetworkMessage_redelivered buf g :
  handleNetworkMessage buf (handleNetworkMessage buf g)
    = handleNetworkMessage buf g.
Proof.
  remember (handleNetworkMessage buf g) as g1 eqn:Hg1.
  unfold handleNetworkMessage in Hg1.
  destruct (unmarshal_NetworkEvent buf) as [nEvent|] eqn:Hdec.
  2:{ subst g1. unfold handleNetworkMessage. by rewrite Hdec. }
  pose proof (handleNetworkEvent_redelivered nEvent (store g)) as Hagain.
  cbv zeta in Hagain.
  destruct (handleNetworkEvent nEvent (store g)) as [rb s1]. cbn [snd] in Hagain.
  assert (Hquiet : store g1 = s1 → handleNetworkMessage buf g1 = g1).
  { intros Hs. unfold handleNetworkMessage. rewrite Hdec, Hs, Hagain.
    rewrite <- Hs. apply set_store_id. }
  apply Hquiet. subst g1. destruct rb; [|done].
  by destruct (encodeRawMessage MessageTypeNetworkEvent buf).
Qed.

(** X17.  A node, network or table event message handled a second time
    leaves the state the first handling left: no store change, no
    watch event, nothing more queued for rebroadcast (for a node event,
    with every node registered under its name). *)
Theorem redelivered_message_changes_nothing
    fuel buf isBulkSync isBulkSync' g r mType data :
  decodeMessage buf = Some (mType, data) →
  mType = MessageTypeNodeEvent ∧ registryNamed (store g)
  ∨ mType = MessageTypeNetworkEvent
  ∨ mType = MessageTypeTableEvent →
  handle fuel buf isBulkSync g = Some r →
  handle fuel buf isBulkSync' r = Some r.
Proof.
  intros Hdec Hkind. destruct fuel as [|fuel]; [done|].
  cbn [handleMessage]. rewrite Hdec.
  destruct Hkind as [[-> Hnamed]|[->| ->]]; intros [= <-]; f_equal.
  - by apply handleNodeMessage_redelivered.
  - apply handleNetworkMessage_redelivered.
  - cbn [store set_store].
    rewrite (handleTableMessage_redelivered maxQueueLen data isBulkSync isBulkSync'
               (store g)).
    by destruct g.
Qed.

(** X18.  A Delete for a key with no entry that arrives through
    [NotifyMsg] as a table event message is not queued on any
    rebroadcast queue and writes no watch event. *)
Theorem notify_unknown_delete_not_rebroadcast buf g data tEvent :
  buf ≠ [] →
  decodeMessage buf = Some (MessageTypeTableEvent, data) →
  unmarshal_TableEvent data = Some tEvent →
  te_Type tEvent = TableEventTypeDelete →
  getEntry (te_TableName tEvent) (te_NetworkID tEvent) (te_Key tEvent) (store g)
    = None →
  ∃ r, NotifyMsg maxQueueLen bulkSyncNode buf g = Some r
       ∧ thisNodeNetworks (store r) = thisNodeNetworks (store g)
       ∧ nodeBroadcasts r = nodeBroadcasts g
       ∧ networkBroadcasts r = networkBroadcasts g
       ∧ broadcaster (store r) = broadcaster (store g).
Proof.
  intros Hbuf Hdec Hev Hty Hnone.
  assert (Htable :
    let s := handleTableMessage maxQueueLen data false (store g) in
    thisNodeNetworks s = thisNodeNetworks (store g)
    ∧ broadcaster s = broadcaster (store g)).
  { cbv zeta. unfold handleTableMessage.
    destruct (decide (te_NodeName tEvent = NodeID (config (store g))))
      as [Hown|Hown].
    { rewrite handleTableMessage_between_skips by (right; eauto). done. }
    destruct (topology_cases tEvent (store g)) as [[n Hn]|Hfail].
    - erewrite handleTableMessage_between_declined; [| done | done |].
      2:{ rewrite (handleTableEvent_passes _ _ _ _ Hn). cbv zeta.
          unfold tableClockWitnessed, getEntry in *. store_simpl.
          rewrite Hnone, Hty. cbn [andb]. reflexivity. }
      done.
    - erewrite handleTableMessage_between_declined; [| done | done |].
      2:{ by apply handleTableEvent_fails_topology. }
      done. }
  cbv zeta in Htable. destruct Htable as [Hnets Hwatch].
  unfold NotifyMsg.
  destruct buf as [|b0 buf]; [done|]. cbn [length Nat.eqb handleMessage].
  rewrite Hdec. eexists. split; [done|].
  cbn [store set_store nodeBroadcasts networkBroadcasts]. done.
Qed.

Lemma changeNodeState_tableClock name st nDB moved nDB' :
  changeNodeState name st nDB = Some (moved, nDB') →
  tableClock nDB' = tableClock nDB.
Proof.
  unfold changeNodeState. destruct (findNode name nDB) as [[n cur]|]; [|done].
  destruct (decide _); [by intros [= _ <-]|].
  destruct st; by intros [= _ <-].
Qed.

Lemma handleNodeEvent_tableClock nEvent nDB :
  tableClock (handleNodeEvent nEvent nDB).2 = tableClock nDB.
Proof.
  unfold handleNodeEvent.
  destruct (findNode _ _) as [[n st]|]; [|reflexivity].
  destruct (_ <=? _)%N; [reflexivity|].
  match goal with
  | |- tableClock (match nodes ?s0 !! _ with _ => _ end).2 = _ =>
      assert (Hs : tableClock s0 = tableClock nDB) by (by destruct st);
      revert Hs; generalize s0; intros s Hs
  end.
  destruct (nodes s !! _); [|exact Hs].
  destruct (ne_Type nEvent); [exact Hs| |];
    (destruct (changeNodeState _ _ s) as [[moved s']|] eqn:Hch; [|exact Hs]);
    cbn [snd]; by rewrite (changeNodeState_tableClock _ _ _ _ _ Hch).
Qed.

Lemma handleNetworkEvent_tableClock nEvent nDB :
  tableClock (handleNetworkEvent nEvent nDB).2 = tableClock nDB.
Proof.
  unfold handleNetworkEvent.
  repeat match goal with
         | |- context [decide ?P] => destruct (decide P)
         | |- context [bool_decide ?P] => destruct (bool_decide P)
         | |- context [match ?m !! ?k with _ => _ end] => destruct (m !! k)
         | |- context [(?a <=? ?b)%N] => destruct (a <=? b)%N
         | _ => progress cbn [fst snd]
         end;
    repeat match goal with
           | |- context [addNetworkNode ?a ?b ?c] =>
               unfold addNetworkNode; destruct (nodePresent_loop _ _)
           | |- context [deleteNetworkNode ?a ?b ?c] =>
               unfold deleteNetworkNode;
               destruct (networkNodes _ !! _)
           end; reflexivity.
Qed.

Lemma handleTableEvent_networkClock tEvent isBulkSync nDB :
  networkClock (handleTableEvent tEvent isBulkSync nDB).2 = networkClock nDB.
Proof.
  destruct (topology_cases tEvent nDB) as [[n Hn]|Hfail].
  - rewrite (handleTableEvent_passes _ _ _ _ Hn). cbv zeta.
    destruct (getEntry _ _ _ _) as [p|].
    + destruct (_ <=? _)%N; [reflexivity|].
      destruct (te_Type tEvent); [| | |destruct (observedValue _)];
        reflexivity.
    + destruct (te_Type tEvent); reflexivity.
  - by rewrite handleTableEvent_fails_topology.
Qed.

Lemma handleTableMessage_clocks buf isBulkSync nDB :
  let s := handleTableMessage maxQueueLen buf isBulkSync nDB in
  networkClock s = networkClock nDB ∧ (tableClock nDB ≤ tableClock s)%N.
Proof.
  cbv zeta. unfold handleTableMessage, handleTableMessage_between.
  destruct (unmarshal_TableEvent buf) as [tEvent|]; [|split; [done|lia]].
  destruct (decide _); [split; [done|lia]|].
  pose proof (handleTableEvent_networkClock tEvent isBulkSync nDB) as Hn.
  pose proof (handleTableEvent_tableClock tEvent isBulkSync nDB) as Ht.
  pose proof (Witness_bounds (tableClock nDB) (te_LTime tEvent)) as [Hb _].
  destruct (handleTableEvent tEvent isBulkSync nDB) as [rb s1].
  cbn [snd] in Hn, Ht. rewrite <- Ht in Hb.
  destruct rb; [|done].
  destruct (encodeRawMessage _ _) as [raw|]; [|done]. unfold id.
  unfold queueTableRebroadcast.
  destruct (thisNodeNetworks s1 !! _) as [n1|]; [|done].
  destruct (network_leaving n1); [done|]. by destruct (_ && _).
Qed.

(** X19.  Whatever message [handleMessage] handles, however nested,
    neither Lamport clock is lower afterwards than before, provided
    [bulkSyncNode] does not lower them. *)
Theorem clocks_never_run_backwards fuel :
  (∀ nets name unsolicited g,
     clocksNotBefore g (bulkSyncNode nets name unsolicited g)) →
  ∀ buf isBulkSync g r,
    handle fuel buf isBulkSync g = Some r → clocksNotBefore g r.
Proof.
  intros Hsend. unfold clocksNotBefore in *.
  induction fuel as [|fuel IH]; intros buf isBulkSync g r; [done|].
  cbn [handleMessage].
  destruct (decodeMessage buf) as [[mType data]|]; [|intros [= <-]; lia].
  destruct mType; try (intros [= <-]; lia).
  - (* network event *)
    intros [= <-]. unfold handleNetworkMessage.
    destruct (unmarshal_NetworkEvent data) as [nEvent|]; [|lia].
    pose proof (handleNetworkEvent_networkClock nEvent (store g)) as Hn.
    pose proof (handleNetworkEvent_tableClock nEvent (store g)) as Ht.
    pose proof (Witness_bounds (networkClock (store g)) (nwe_LTime nEvent))
      as [Hb _].
    destruct (handleNetworkEvent nEvent (store g)) as [rb s1].
    cbn [snd] in Hn, Ht. rewrite <- Hn in Hb.
    destruct rb; [destruct (encodeRawMessage _ _)|]; cbn; lia.
  - (* table event *)
    intros [= <-]. cbn [store set_store].
    destruct (handleTableMessage_clocks data isBulkSync (store g)) as [Hn Ht].
    lia.
  - (* bulk sync *)
    unfold handleBulkSync.
    destruct (unmarshal_BulkSyncMessage data) as [bsm|]; [|intros [= <-]; lia].
    match goal with
    | |- context [handle fuel (bsm_Payload bsm) true ?g0] =>
        assert (Hg0 : (networkClock (store g) ≤ networkClock (store g0))%N
                      ∧ (tableClock (store g) ≤ tableClock (store g0))%N);
        [|destruct (handle fuel (bsm_Payload bsm) true g0) as [g1|] eqn:Hpay;
          [specialize (IH _ _ _ _ Hpay)|done]]
    end.
    { destruct (0 <? bsm_LTime bsm)%N; cbn; [|lia].
      pose proof (Witness_bounds (tableClock (store g)) (bsm_LTime bsm)). lia. }
    destruct (negb _).
    + destruct (bulkSyncAckTbl g1 !! _); intros [= <-]; cbn; lia.
    + intros [= <-].
      specialize (Hsend (bsm_Networks bsm) (bsm_NodeName bsm) false g1). lia.
  - (* compound *)
    unfold handleCompound.
    destruct (decodeCompoundMessage data) as [parts|]; [|intros [= <-]; lia].
    revert g. induction parts as [|part parts IHparts]; intros g.
    { intros [= <-]. lia. }
    cbn [foldl mbind option_bind].
    destruct (handle fuel part isBulkSync g) as [g1|] eqn:Hpart.
    + intros Hrest. specialize (IH _ _ _ _ Hpart).
      specialize (IHparts _ Hrest). lia.
    + by rewrite foldl_bind_None.
  - (* node event *)
    intros [= <-]. unfold handleNodeMessage.
    destruct (unmarshal_NodeEvent data) as [nEvent|]; [|lia].
    pose proof (handleNodeEvent_networkClock nEvent (store g)) as Hn.
    pose proof (handleNodeEvent_tableClock nEvent (store g)) as Ht.
    pose proof (Witness_bounds (networkClock (store g)) (ne_LTime nEvent))
      as [Hb _].
    destruct (handleNodeEvent nEvent (store g)) as [rb s1].
    cbn [snd] in Hn, Ht. rewrite <- Hn in Hb.
    destruct rb; [destruct (encodeRawMessage _ _)|]; cbn; lia.
Qed.

End MessageHandling.

Lemma elem_of_ownEntries r nDB :
  r ∈ ownEntries nDB ↔
    ∃ nid n, thisNodeNetworks nDB !! nid = Some n
             ∧ r = mkNetworkEntry (network_ltime n) nid (NodeID (config nDB))
                     (network_leaving n).
Proof.
  unfold ownEntries. rewrite list_elem_of_fmap. split.
  - intros ([nid n] & -> & Hin). apply elem_of_map_to_list in Hin. eauto.
  - intros (nid & n & Hin & ->). exists (nid, n).
    split; [done|]. by apply elem_of_map_to_list.
Qed.

Lemma elem_of_remoteEntries r nDB :
  r ∈ remoteEntries nDB ↔
    ∃ name nid n, membership name nid nDB = Some n
                  ∧ r = mkNetworkEntry (network_ltime n) nid name
                          (network_leaving n).
Proof.
  unfold remoteEntries, membership. rewrite list_elem_of_bind. split.
  - intros ([name nn] & Hr & Hin). apply elem_of_map_to_list in Hin.
    apply list_elem_of_fmap in Hr as ([nid n] & -> & Hn).
    apply elem_of_map_to_list in Hn. exists name, nid, n.
    rewrite Hin. cbn. eauto.
  - intros (name & nid & n & Hmem & ->).
    destruct (networks nDB !! name) as [nn|] eqn:Hnn; [|done]. cbn in Hmem.
    exists (name, nn). split; [|by apply elem_of_map_to_list].
    apply list_elem_of_fmap. exists (nid, n).
    split; [done|]. by apply elem_of_map_to_list.
Qed.

Lemma NoDup_ownEntries nDB : NoDup (ownEntries nDB).
Proof.
  unfold ownEntries. apply NoDup_fmap_2_strong; [|apply NoDup_map_to_list].
  intros [nid n] [nid' n'] Hin Hin' [= Hl <- Hleav]. cbn in *.
  apply elem_of_map_to_list in Hin, Hin'. rewrite Hin in Hin'. congruence.
Qed.

Lemma NoDup_remoteEntries nDB : NoDup (remoteEntries nDB).
Proof.
  unfold remoteEntries. apply NoDup_bind; [| |apply NoDup_map_to_list].
  - intros [name nn] [name' nn'] r Hin Hin' Hr Hr'.
    apply list_elem_of_fmap in Hr as (kv & -> & _).
    apply list_elem_of_fmap in Hr' as (kv' & [= _ _ <- _] & _). cbn in *.
    apply elem_of_map_to_list in Hin, Hin'. rewrite Hin in Hin'. congruence.
  - intros [name nn] _. apply NoDup_fmap_2_strong; [|apply NoDup_map_to_list].
    intros [nid n] [nid' n'] Hin Hin' [= Hl <- Hleav]. cbn in *.
    apply elem_of_map_to_list in Hin, Hin'. rewrite Hin in Hin'. congruence.
Qed.

(** What [localPushPull] lists, for a store that holds no record about
    the local node among the records of the other nodes. *)
Lemma elem_of_localPushPull r nDB :
  networks nDB !! NodeID (config nDB) = None →
  r ∈ pp_Networks (localPushPull nDB) ↔
    ∃ n, advertised (nen_NodeName r) (nen_NetworkID r) nDB = Some n
         ∧ nen_LTime r = network_ltime n
         ∧ nen_Leaving r = network_leaving n.
Proof.
  intros Hinv. unfold localPushPull, advertised. cbn [pp_Networks].
  rewrite elem_of_app, elem_of_ownEntries, elem_of_remoteEntries. split.
  - intros [(nid & n & Hn & ->)|(name & nid & n & Hn & ->)]; cbn.
    + rewrite decide_True by done. eauto.
    + rewrite decide_False; [eauto|]. intros ->.
      unfold membership in Hn. by rewrite Hinv in Hn.
  - intros (n & Hadv & Hl & Hleav). destruct r as [lt nid name leav].
    cbn in *. subst lt leav.
    destruct (decide (name = NodeID (config nDB))) as [->|Hne].
    + left. eauto.
    + right. eauto 10.
Qed.

Lemma localPushPull_records nDB :
  networks nDB !! NodeID (config nDB) = None →
  NoDup (pairOf <$> pp_Networks (localPushPull nDB))
  ∧ ∀ r, r ∈ pp_Networks (localPushPull nDB) ↔
      ∃ n, advertised (nen_NodeName r) (nen_NetworkID r) nDB = Some n
           ∧ nen_LTime r = network_ltime n
           ∧ nen_Leaving r = network_leaving n.
Proof.
  intros Hinv.
  split; [|intros r; by apply elem_of_localPushPull].
  apply NoDup_fmap_2_strong.
  - intros r r' Hr Hr' [= Hname Hnid].
    apply (elem_of_localPushPull _ _ Hinv) in Hr as (n & Hn & Hl & Hleav).
    apply (elem_of_localPushPull _ _ Hinv) in Hr' as (n' & Hn' & Hl' & Hleav').
    rewrite Hname, Hnid, Hn' in Hn. injection Hn as <-.
    destruct r, r'. cbn in *. congruence.
  - cbn [pp_Networks localPushPull]. apply NoDup_app.
    split; [apply NoDup_ownEntries|]. split; [|apply NoDup_remoteEntries].
    intros r Hown Hremote.
    apply elem_of_ownEntries in Hown as (nid & n & _ & ->).
    apply elem_of_remoteEntries in Hremote as (name & nid' & n' & Hmem & Heq).
    injection Heq as _ _ <- _. unfold membership in Hmem.
    by rewrite Hinv in Hmem.
Qed.

(** X20.  For a store with no entry for the local node among the
    records of the other nodes, the snapshot of [LocalState] is sent in
    the local node's name with the network clock as its time, its
    records are about distinct (node, network) pairs, and a record is
    listed exactly when it is the local node's own record of a network
    or the stored record of another node, with that record's Lamport
    time and leaving flag. *)
Theorem local_state_snapshot nDB :
  networks nDB !! NodeID (config nDB) = None →
  let pp := localPushPull nDB in
  pp_NodeName pp = NodeID (config nDB)
  ∧ pp_LTime pp = networkClock nDB
  ∧ NoDup (pairOf <$> pp_Networks pp)
  ∧ ∀ r, r ∈ pp_Networks pp ↔
      ∃ n, advertised (nen_NodeName r) (nen_NetworkID r) nDB = Some n
           ∧ nen_LTime r = network_ltime n
           ∧ nen_Leaving r = network_leaving n.
Proof.
  intros Hinv pp. split; [done|]. split; [done|].
  exact (localPushPull_records nDB Hinv).
Qed.

Section RoundTrip.
Context {codec : Codec} {mcodec : MessageCodec}.
Variable updateLocalNetworkTime : NetworkDB → NetworkDB.

(** X21.  A snapshot made by [LocalState] on one node and merged by
    [MergeRemoteState] on a node with no network records: the records
    stored are exactly the records the sender advertised that are not
    leaving, are not about the receiver and whose node is in the
    receiver's [nDB.nodes], each with the sender's Lamport time. *)
Theorem local_state_round_trip join isJoin A B buf gMsg :
  let A' := (LocalState updateLocalNetworkTime join A).2 in
  encodeMessage MessageTypePushPull (localPushPull A') = Some buf →
  buf ≠ [] →
  unmarshal_GossipMessage buf = Some gMsg →
  unmarshal_NetworkPushPull (gm_Data gMsg) = Some (localPushPull A') →
  networks A' !! NodeID (config A') = None →
  registryNamed B →
  networks B = ∅ →
  ∀ name nid nw,
    membership name nid
      (MergeRemoteState (LocalState updateLocalNetworkTime join A).1 isJoin B)
      = Some nw ↔
    name ≠ NodeID (config B)
    ∧ is_Some (nodes B !! name)
    ∧ ∃ n, advertised name nid A' = Some n
           ∧ network_leaving n = false
           ∧ nw = mknetwork (network_ltime n) false 0 false [].
Proof.
  intros A' Henc Hbuf Hg Hpp Hinv Hnamed Hnone name nid nw.
  assert (Hout : (LocalState updateLocalNetworkTime join A).1 = buf).
  { unfold LocalState. cbn [fst]. fold A'.
    change (if join then updateLocalNetworkTime A else A) with A'.
    by rewrite Henc. }
  rewrite Hout. unfold MergeRemoteState.
  destruct buf as [|b0 buf]; [done|]. cbn [length Nat.eqb].
  rewrite Hg, Hpp. unfold mergePushPull.
  set (nodeEvent := mkNodeEvent NodeEventTypeJoin _ _).
  destruct (handleNodeEvent_join_frame nodeEvent B Hnamed eq_refl)
    as (Hnets & Hcfg & Hnodes & _).
  set (s0 := (handleNodeEvent nodeEvent B).2) in *.
  destruct (localPushPull_records A' Hinv) as [Hnodup Hin].
  assert (Hfresh : ∀ r, r ∈ pp_Networks (localPushPull A') →
            membership (nen_NodeName r) (nen_NetworkID r) s0 = None).
  { intros r _. unfold membership. by rewrite Hnets, Hnone, lookup_empty. }
  destruct (foldl_mergeNetworkEntry _ s0 Hnodup Hfresh) as [_ Hmem].
  rewrite Hmem. unfold recorded. rewrite Hcfg. split.
  - intros [H|(r & Hr & <- & <- & (Hleav & Hown & Hknown) & ->)].
    { unfold membership in H. by rewrite Hnets, Hnone, lookup_empty in H. }
    apply Hin in Hr as (n & Hadv & Hl & Hleav').
    split; [done|]. split; [by apply Hnodes|].
    exists n. split; [done|]. split; [congruence|]. by rewrite Hl.
  - intros (Hown & Hknown & n & Hadv & Hleav & ->). right.
    exists (mkNetworkEntry (network_ltime n) nid name (network_leaving n)).
    split; [apply Hin; cbn; eauto|]. cbn.
    split; [done|]. split; [done|]. split; [|done].
    split; [done|]. split; [done|]. by apply Hnodes.
Qed.

End RoundTrip.

Section BulkSync.
Context {codec : Codec} {mcodec : MessageCodec}.
Variable maxQueueLen : Z.
Variable bulkSyncNode : list string → string → bool → Gossip → Gossip.


End BulkSync.
(** ** The further properties at concrete inputs *)

Lemma acceptsNetworkEvent_leaveB : acceptsNetworkEvent Wire.leaveB Wire.db3.
Proof. split; [discriminate|]. vm_compute. reflexivity. Defined.

Lemma network_event_applied_record_witness :
  acceptsNetworkEvent Wire.leaveB Wire.db3
  ∧ ∃ n, membership "b" "n2" (handleNetworkEvent Wire.leaveB Wire.db3).2
           = Some n
         ∧ network_ltime n = 6%N
         ∧ network_leaving n = true
         ∧ network_reapTime n = 1825 * Second.
Proof.
  split; [exact acceptsNetworkEvent_leaveB|].
  destruct (network_event_applied_record Wire.leaveB Wire.db3
              acceptsNetworkEvent_leaveB) as (n & Hn & Hl & Hleav & Hreap & _).
  exists n. split; [exact Hn|]. split; [exact Hl|].
  split; [exact Hleav|exact Hreap].
Defined.

Lemma network_event_records_monotone_witness :
  membership "b" "n2" Wire.db3 = Some (mknetwork 2%N false 0 false [])
  ∧ ∃ n', membership "b" "n2" (handleNetworkEvent Wire.leaveB Wire.db3).2
            = Some n'
          ∧ (2 ≤ network_ltime n')%N.
Proof.
  split; [reflexivity|].
  apply (network_event_records_monotone Wire.leaveB Wire.db3 "b" "n2"
           (mknetwork 2%N false 0 false []) eq_refl).
Defined.

Lemma node_event_rebroadcast_rule_witness :
  registryNamed Examples.db1
  ∧ (handleNodeEvent Wire.leaveA Examples.db1).1 = true.
Proof.
  split; [exact registryNamed_db1|].
  apply (node_event_rebroadcast_rule Wire.leaveA Examples.db1
           registryNamed_db1).
  split; [reflexivity|]. exists (mknode "a" [] 1%N 0).
  split; [reflexivity|]. vm_compute. reflexivity.
Defined.

Lemma node_event_ltime_witness :
  findNode "a" Examples.db1 = Some (mknode "a" [] 1%N 0, nodeActiveState)
  ∧ ∃ n' st',
      findNode "a" (handleNodeEvent Wire.leaveA Examples.db1).2 = Some (n', st')
      ∧ node_ltime n' = 5%N.
Proof.
  split; [reflexivity|].
  destruct (node_event_ltime Wire.leaveA Examples.db1 (mknode "a" [] 1%N 0)
              nodeActiveState registryNamed_db1 eq_refl)
    as [(n' & st' & Hfind & Hltime & _) _].
  exists n', st'. split; [exact Hfind|exact Hltime].
Defined.

Lemma accepted_createK1 : accepted Examples.createK1 Examples.db1 Examples.net1.
Proof.
  split.
  - split; [reflexivity|]. split; [reflexivity|]. vm_compute. left.
  - intros p Hp. vm_compute in Hp. discriminate.
Defined.

Lemma accepted_deleteK1 : accepted Examples.deleteK1 Examples.db2 Examples.net1.
Proof.
  split.
  - split; [reflexivity|]. split; [reflexivity|]. vm_compute. left.
  - intros p Hp. vm_compute in Hp. injection Hp as <-. vm_compute.
    reflexivity.
Defined.

Lemma table_event_applied_witness :
  accepted Examples.createK1 Examples.db1 Examples.net1
  ∧ getEntry "t1" "n1" "k1" (handleTableEvent Examples.createK1 false Examples.db1).2
    = Some (mkentry 5%N "a" [Byte.x2a] false 0)
  ∧ (handleTableEvent Examples.createK1 false Examples.db1).1 = true.
Proof.
  split; [exact accepted_createK1|].
  destruct (table_event_applied Examples.createK1 false Examples.db1
              Examples.net1 accepted_createK1) as [Hentry Hresult].
  split; [exact Hentry|]. apply Hresult. right. discriminate.
Defined.

Lemma table_event_entries_monotone_witness :
  indexes Examples.db2 !! ("t1", "n1", "k1")
    = Some (mkentry 5%N "a" [Byte.x2a] false 0)
  ∧ ∃ p', indexes (handleTableEvent Examples.deleteK1 false Examples.db2).2
            !! ("t1", "n1", "k1") = Some p'
          ∧ (5 ≤ entry_ltime p')%N.
Proof.
  split; [reflexivity|].
  destruct (table_event_entries_monotone Examples.deleteK1 false Examples.db2
              ("t1", "n1", "k1") (mkentry 5%N "a" [Byte.x2a] false 0) eq_refl)
    as (p' & Hp' & Hle & _).
  exists p'. split; [exact Hp'|exact Hle].
Defined.

Lemma tombstone_reap_time_witness :
  accepted Examples.deleteK1 Examples.db2 Examples.net1
  ∧ ∃ e, getEntry "t1" "n1" "k1"
           (handleTableEvent Examples.deleteK1 false Examples.db2).2 = Some e
         ∧ entry_deleting e = true
         ∧ entry_reapTime e = 30 * Second.
Proof.
  split; [exact accepted_deleteK1|].
  destruct (tombstone_reap_time Examples.deleteK1 false Examples.db2
              Examples.net1 accepted_deleteK1 eq_refl
              ltac:(vm_compute; split; [discriminate|reflexivity]))
    as (e & He & Hdel & Hreap & _).
  exists e. split; [exact He|]. split; [exact Hdel|exact Hreap].
Defined.

Lemma newest_table_event_wins_witness :
  getEntry "t1" "n1" "k1"
    (deliver [(Examples.deleteK1, false); (Examples.createK1, false);
              (Examples.deleteK1, true)] Examples.db1)
  = Some (mkentry 6%N "a" [] true (30 * Second)).
Proof.
  apply (newest_table_event_wins Examples.deleteK1 Examples.net1 ["a"; "b"]
           [(Examples.createK1, false); (Examples.deleteK1, false);
            (Examples.deleteK1, true)] Examples.db1 eq_refl eq_refl eq_refl).
  - intros eb Heb.
    apply elem_of_cons in Heb as [->|Heb]; [|apply elem_of_cons in Heb as [->|Heb];
      [|apply list_elem_of_singleton in Heb as ->]].
    + split; [reflexivity|]. split; [left|]. right. vm_compute. reflexivity.
    + split; [reflexivity|]. split; [left|]. by left.
    + split; [reflexivity|]. split; [left|]. by left.
  - intros p Hp. vm_compute in Hp. discriminate.
  - vm_compute. right. left.
  - apply Permutation_swap.
Defined.


Lemma table_events_of_left_node_dropped_witness :
  let tEvent :=
    mkTableEvent TableEventTypeCreate 9%N "b" "n2" "t1" "k1" [Byte.x2a] 0 in
  (handleTableEvent tEvent false (handleNetworkEvent Wire.leaveB Wire.db3).2).1
  = false.
Proof.
  intros tEvent.
  rewrite (table_events_of_left_node_dropped Wire.leaveB tEvent false Wire.db3
             acceptsNetworkEvent_leaveB eq_refl eq_refl eq_refl).
  reflexivity.
Defined.

Lemma merge_remote_state_witnesses_clock_witness :
  networkClock Examples.db1 = 3%N
  ∧ (4 ≤ networkClock
           (MergeRemoteState (codec := Examples.snapshotCodec) [Byte.x04]
              false Examples.db1))%N.
Proof.
  split; [reflexivity|].
  apply (merge_remote_state_witnesses_clock (codec := Examples.snapshotCodec)
           [Byte.x04] false Examples.db1
           (mkGossipMessage MessageTypePushPull [Byte.x04]) Examples.snapshot
           ltac:(discriminate) eq_refl eq_refl).
Defined.

Lemma merge_remote_state_idempotent_witness :
  let once :=
    MergeRemoteState (codec := Examples.snapshotCodec) [Byte.x04] false
      Examples.db1 in
  once ≠ Examples.db1
  ∧ MergeRemoteState (codec := Examples.snapshotCodec) [Byte.x04] true once
    = once.
Proof.
  split; [vm_compute; discriminate|].
  apply (merge_remote_state_idempotent (codec := Examples.snapshotCodec)
           [Byte.x04] false true Examples.db1 registryNamed_db1).
  intros gMsg pp _ [= <-]. apply (bool_decide_unpack _). vm_compute. exact I.
Defined.

Lemma chunk2_length (data : bytes) :
  ∀ part, part ∈ Wire.chunk2 data → (length part ≤ length data)%nat.
Proof.
  induction data as [data IH] using (induction_ltof1 _ (@length Byte.byte)).
  unfold ltof in IH. intros part Hin.
  destruct data as [|a [|b rest]]; cbn in Hin;
    [by apply elem_of_nil in Hin..|].
  apply elem_of_cons in Hin as [->|Hin]; [cbn; lia|].
  specialize (IH rest ltac:(cbn; lia) part Hin). cbn. lia.
Qed.

Lemma shrinking_messages : shrinking Wire.messages.
Proof.
  split; [|split].
  - intros buf mType data Hdec _. destruct buf as [|tag buf]; [done|].
    cbn in Hdec. injection Hdec as _ <-. cbn. lia.
  - intros buf parts part [= <-]. apply chunk2_length.
  - intros buf bsm Hdec. destruct buf as [|u buf]; [done|].
    cbn in Hdec. injection Hdec as <-. cbn. lia.
Defined.

Lemma notify_msg_terminates_witness :
  ∃ r, NotifyMsg (codec := Wire.codec) (mcodec := Wire.messages)
         Examples.maxQueueLen Wire.noBulkSync Wire.compound Wire.gossip1
       = Some r.
Proof.
  apply (notify_msg_terminates (codec := Wire.codec) (mcodec := Wire.messages)
           Examples.maxQueueLen Wire.noBulkSync Wire.compound Wire.gossip1
           shrinking_messages).
Defined.

Lemma compound_message_is_sequence_witness :
  handleMessage (codec := Wire.codec) (mcodec := Wire.messages)
    Examples.maxQueueLen Wire.noBulkSync 6 Wire.compound false Wire.gossip1
  = handleMessage (codec := Wire.codec) (mcodec := Wire.messages)
      Examples.maxQueueLen Wire.noBulkSync 3 [Byte.x01; Byte.x10] false
      Wire.gossip1
    ≫= handleMessage (codec := Wire.codec) (mcodec := Wire.messages)
          Examples.maxQueueLen Wire.noBulkSync 3 [Byte.x02; Byte.x20] false.
Proof.
  apply (compound_message_is_sequence (codec := Wire.codec)
           (mcodec := Wire.messages) Examples.maxQueueLen Wire.noBulkSync
           Wire.compound false Wire.gossip1
           [Byte.x01; Byte.x10; Byte.x02; Byte.x20]
           [[Byte.x01; Byte.x10]; [Byte.x02; Byte.x20]]
           shrinking_messages eq_refl eq_refl).
Defined.

Lemma redelivered_message_changes_nothing_witness :
  ∃ r, handleMessage (codec := Wire.codec) (mcodec := Wire.messages)
         Examples.maxQueueLen Wire.noBulkSync 1 [Byte.x02; Byte.x20] false
         Wire.gossip1 = Some r
       ∧ length (networkBroadcasts r) = 1%nat
       ∧ handleMessage (codec := Wire.codec) (mcodec := Wire.messages)
           Examples.maxQueueLen Wire.noBulkSync 1 [Byte.x02; Byte.x20] true r
         = Some r.
Proof.
  eexists. split; [reflexivity|]. split; [reflexivity|].
  apply (redelivered_message_changes_nothing (codec := Wire.codec)
           (mcodec := Wire.messages) Examples.maxQueueLen Wire.noBulkSync 1
           [Byte.x02; Byte.x20] false true Wire.gossip1 _
           MessageTypeNetworkEvent [Byte.x20] eq_refl
           ltac:(right; left; reflexivity) eq_refl).
Defined.

Lemma notify_unknown_delete_not_rebroadcast_witness :
  ∃ r, NotifyMsg (codec := Wire.codec) (mcodec := Wire.messages)
         Examples.maxQueueLen Wire.noBulkSync [Byte.x03; Byte.x32] Wire.gossip1
       = Some r
       ∧ thisNodeNetworks (store r) = thisNodeNetworks Examples.db1
       ∧ getEntry "t1" "n1" "k9" (store r)
         = Some (mkentry 7%N "a" [] true (600 * Second)).
Proof.
  destruct (notify_unknown_delete_not_rebroadcast (codec := Wire.codec)
              (mcodec := Wire.messages) Examples.maxQueueLen Wire.noBulkSync
              [Byte.x03; Byte.x32] Wire.gossip1 [Byte.x32] Wire.unknownDelete
              ltac:(discriminate) eq_refl eq_refl eq_refl eq_refl)
    as (r & Hr & Hnets & _).
  exists r. split; [exact Hr|]. split; [exact Hnets|].
  vm_compute in Hr. injection Hr as <-. reflexivity.
Defined.

Lemma clocks_never_run_backwards_witness :
  ∃ r, handleMessage (codec := Wire.codec) (mcodec := Wire.messages)
         Examples.maxQueueLen Wire.noBulkSync 5 Wire.bulk false Wire.gossip1
       = Some r
       ∧ clocksNotBefore Wire.gossip1 r
       ∧ tableClock (store r) = 7%N.
Proof.
  eexists. split; [reflexivity|]. split; [|reflexivity].
  apply (clocks_never_run_backwards (codec := Wire.codec)
           (mcodec := Wire.messages) Examples.maxQueueLen Wire.noBulkSync 5
           ltac:(intros ? ? ? g; unfold clocksNotBefore, Wire.noBulkSync; lia)
           Wire.bulk false Wire.gossip1 _ eq_refl).
Defined.

Lemma local_state_snapshot_witness :
  networks Wire.db3 !! "self" = None
  ∧ mkNetworkEntry 2%N "n2" "b" false ∈ pp_Networks (localPushPull Wire.db3)
  ∧ mkNetworkEntry 1%N "n1" "self" false ∈ pp_Networks (localPushPull Wire.db3).
Proof.
  split; [reflexivity|].
  destruct (local_state_snapshot Wire.db3 eq_refl) as (_ & _ & _ & Hin).
  split; apply Hin; eexists; (split; [reflexivity|]); split; reflexivity.
Defined.

Lemma local_state_round_trip_witness :
  membership "self" "n1"
    (MergeRemoteState (codec := Wire.codec)
       (LocalState (mcodec := Wire.messages) id false Wire.db3).1 false
       Wire.peer)
  = Some (mknetwork 1%N false 0 false [])
  ∧ membership "b" "n2"
      (MergeRemoteState (codec := Wire.codec)
         (LocalState (mcodec := Wire.messages) id false Wire.db3).1 false
         Wire.peer)
    = Some (mknetwork 2%N false 0 false []).
Proof.
  assert (Hnamed : registryNamed Wire.peer).
  { split.
    - apply (bool_decide_unpack
               (map_Forall (λ k n, node_Name n = k) (nodes Wire.peer))).
      vm_compute. exact I.
    - intros k n H. vm_compute in H. discriminate. }
  pose proof (local_state_round_trip (codec := Wire.codec)
                (mcodec := Wire.messages) id false false Wire.db3 Wire.peer
                [Byte.x04] (mkGossipMessage MessageTypePushPull [Byte.x04])
                eq_refl ltac:(discriminate) eq_refl eq_refl eq_refl Hnamed
                eq_refl) as Htrip.
  split; apply Htrip.
  - split; [discriminate|]. split; [vm_compute; eauto|].
    eexists. split; [reflexivity|]. split; reflexivity.
  - split; [discriminate|]. split; [vm_compute; eauto|].
    eexists. split; [reflexivity|]. split; reflexivity.
Defined.

